(** * Content normalisation and chat-session state machine of
      [google.generativeai]

    A shallow embedding of [google/generativeai/types/content_types.py] and of
    the [ChatSession] class of [google/generativeai/generative_models.py],
    with the properties the specification states about them.

    Python values are dynamically typed, so the inputs of the coercers are
    modelled by one inductive type [PyVal]; exceptions are modelled by the
    error monad [result]; the mutable session, the request log of the
    model-call collaborator and the log of tool invocations are threaded
    through a state-and-error monad [M]. *)

From Stdlib Require Import ZArith String Ascii List Bool Lia.
From stdpp Require Import base option list strings gmap.

Set Warnings "-register-all".

Open Scope string_scope.
Open Scope list_scope.
Open Scope Z_scope.
Open Scope nat_scope.

(** ** Exceptions and the error monad *)

(** The exception classes the modelled code raises.  [StopIteration] is what
    an exhausted scripted collaborator raises; [Raised] is an exception
    thrown by a user-supplied callable.  [OutOfFuel] is no Python exception:
    it marks a loop of the model cut off by its iteration bound, which
    [_handle_afc_fuel] shows never happens. *)
Inductive Exn : Type :=
  | TypeError
  | KeyError
  | ValueError
  | IndexError
  | AttributeError
  | NotImplementedError
  | AssertionError
  | BlockedPromptException
  | StopCandidateException
  | BrokenResponseError
  | StopIteration
  | Raised (msg : string)
  | OutOfFuel.

Inductive result (A : Type) : Type :=
  | Ok (a : A)
  | Err (e : Exn).
Arguments Ok {A} a.
Arguments Err {A} e.

#[global] Instance result_ret : MRet result := fun A a => Ok a.
#[global] Instance result_bind : MBind result := fun A B f m =>
  match m with
  | Ok a => f a
  | Err e => Err e
  end.
#[global] Instance result_fmap : FMap result := fun A B f m =>
  match m with
  | Ok a => Ok (f a)
  | Err e => Err e
  end.

Definition is_Ok {A} (r : result A) : bool :=
  match r with Ok _ => true | Err _ => false end.

(** ** Wire-level values (the [glm] protocol messages) *)

(** JSON-like values: schema dictionaries, the [args] of a function call and
    the values tool callables return. *)
Inductive Json : Type :=
  | JNull
  | JBool (b : bool)
  | JNum (n : Z)
  | JStr (s : string)
  | JList (l : list Json)
  | JObj (kvs : list (string * Json)).

Record Blob : Type := mkBlob { blob_mime_type : string; blob_data : list Byte.byte }.
Record FileData : Type := mkFileData { fd_mime_type : string; fd_file_uri : string }.
(** [glm.File] and its wrapper [file_types.File]; only the two fields the
    coercers read are kept. *)
Record File : Type := mkFile { file_mime_type : string; file_uri : string }.
Record FunctionCall : Type :=
  mkFunctionCall { fc_name : string; fc_args : list (string * Json) }.
Record FunctionResponse : Type :=
  mkFunctionResponse { fr_name : string; fr_response : list (string * Json) }.

(** [glm.Part]: a oneof with exactly one populated variant. *)
Inductive Part : Type :=
  | PText (text : string)
  | PInlineData (inline_data : Blob)
  | PFileData (file_data : FileData)
  | PFunctionCall (function_call : FunctionCall)
  | PFunctionResponse (function_response : FunctionResponse).

Record Content : Type := mkContent { role : string; parts : list Part }.

(** Native image objects.  What the external encoders produce is carried as
    data: a PIL image holds, for each of the two formats, what
    [img.save(bytesio, format=...)] does, which is to write bytes or to
    raise (JPEG cannot hold every mode, and [save] then raises [OSError]);
    an [IPython.display.Image] holds its file name, the MIME type
    [mimetypes.guess_type] yields for that name, and its bytes. *)
Inductive Image : Type :=
  | PilImage (is_png_file : bool) (save_png save_jpeg : result (list Byte.byte))
  | IPythonImage (filename : option string) (guessed_mime : option string)
      (data : list Byte.byte).

(** ** Python input values *)

Inductive PyVal : Type :=
  | VNone
  | VBool (b : bool)
  | VInt (n : Z)
  | VStr (s : string)
  | VBytes (bs : list Byte.byte)
  | VList (xs : list PyVal)                (* list or tuple *)
  | VDict (kvs : list (string * PyVal))    (* dict, in insertion order *)
  | VBlob (b : Blob)
  | VFileData (fd : FileData)
  | VFile (f : File)
  | VFunctionCall (fc : FunctionCall)
  | VFunctionResponse (fr : FunctionResponse)
  | VPart (p : Part)
  | VContent (c : Content)
  | VImage (img : Image).

(** ** Dictionaries as association lists (insertion-ordered, as in Python) *)

Section Dict.
Context {V : Type}.

Fixpoint dict_get (k : string) (d : list (string * V)) : option V :=
  match d with
  | [] => None
  | (k', v) :: d' => if String.eqb k k' then Some v else dict_get k d'
  end.

Definition dict_has (k : string) (d : list (string * V)) : bool :=
  match dict_get k d with Some _ => true | None => false end.

Definition dict_keys (d : list (string * V)) : list string := map fst d.

(** [d.pop(k, None)]: the dictionary without [k]. *)
Fixpoint dict_remove (k : string) (d : list (string * V)) : list (string * V) :=
  match d with
  | [] => []
  | (k', v) :: d' =>
      if String.eqb k k' then dict_remove k d' else (k', v) :: dict_remove k d'
  end.

(** [d[k] = v]: replaces in place, or appends a new key at the end. *)
Fixpoint dict_set (k : string) (v : V) (d : list (string * V)) : list (string * V) :=
  match d with
  | [] => [(k, v)]
  | (k', v') :: d' =>
      if String.eqb k k' then (k, v) :: d' else (k', v') :: dict_set k v d'
  end.

(** [d1.update(d2)] *)
Definition dict_update (d1 d2 : list (string * V)) : list (string * V) :=
  fold_left (fun acc kv => dict_set (fst kv) (snd kv) acc) d2 d1.
End Dict.

Definition str_in (k : string) (l : list string) : bool :=
  existsb (String.eqb k) l.

(** ** Truthiness ([not x]) *)

Definition content_truthy (c : Content) : bool :=
  negb (String.eqb (role c) "") || negb (Nat.eqb (length (parts c)) 0).

Definition truthy (v : PyVal) : bool :=
  match v with
  | VNone => false
  | VBool b => b
  | VInt n => negb (Z.eqb n 0)
  | VStr s => negb (String.eqb s "")
  | VBytes bs => negb (Nat.eqb (length bs) 0)
  | VList xs => negb (Nat.eqb (length xs) 0)
  | VDict kvs => negb (Nat.eqb (length kvs) 0)
  | VBlob b =>
      negb (String.eqb (blob_mime_type b) "") || negb (Nat.eqb (length (blob_data b)) 0)
  | VFileData fd =>
      negb (String.eqb (fd_mime_type fd) "") || negb (String.eqb (fd_file_uri fd) "")
  | VFile _ => true
  | VFunctionCall fc =>
      negb (String.eqb (fc_name fc) "") || negb (Nat.eqb (length (fc_args fc)) 0)
  | VFunctionResponse fr =>
      negb (String.eqb (fr_name fr) "") || negb (Nat.eqb (length (fr_response fr)) 0)
  | VPart _ => true
  | VContent c => content_truthy c
  | VImage _ => true
  end.

(** ** Constructors of the protocol messages from dictionaries

    [glm.Blob(d)], [glm.FileData(d)], [glm.File(d)], [glm.Part(d)] and
    [glm.Content(d)] belong to the external protocol library.  They reject a
    key that is not a field of the message with [ValueError] and a value of
    the wrong type with [TypeError]; fields left out take their default. *)

Definition glm_Blob (d : list (string * PyVal)) : result Blob :=
  fold_left
    (fun acc kv =>
       b ← acc;
       match kv with
       | ("mime_type", VStr s) => Ok (mkBlob s (blob_data b))
       | ("data", VBytes bs) => Ok (mkBlob (blob_mime_type b) bs)
       | ("mime_type", _) | ("data", _) => Err TypeError
       | _ => Err ValueError
       end)
    d (Ok (mkBlob "" [])).

Definition glm_FileData (d : list (string * PyVal)) : result FileData :=
  fold_left
    (fun acc kv =>
       f ← acc;
       match kv with
       | ("mime_type", VStr s) => Ok (mkFileData s (fd_file_uri f))
       | ("file_uri", VStr s) => Ok (mkFileData (fd_mime_type f) s)
       | ("mime_type", _) | ("file_uri", _) => Err TypeError
       | _ => Err ValueError
       end)
    d (Ok (mkFileData "" "")).

Definition glm_File (d : list (string * PyVal)) : result File :=
  fold_left
    (fun acc kv =>
       f ← acc;
       match kv with
       | ("mime_type", VStr s) => Ok (mkFile s (file_uri f))
       | ("uri", VStr s) => Ok (mkFile (file_mime_type f) s)
       | ("name", VStr _) | ("display_name", VStr _) => Ok f
       | ("mime_type", _) | ("uri", _) | ("name", _) | ("display_name", _) =>
           Err TypeError
       | _ => Err ValueError
       end)
    d (Ok (mkFile "" "")).

(** Plain Python data as a JSON value (the [Struct] of a function call). *)
Fixpoint to_json (v : PyVal) : result Json :=
  match v with
  | VNone => Ok JNull
  | VBool b => Ok (JBool b)
  | VInt n => Ok (JNum n)
  | VStr s => Ok (JStr s)
  | VList xs => JList <$> mapM to_json xs
  | VDict kvs =>
      JObj <$> mapM (fun kv => j ← to_json (snd kv); Ok (fst kv, j)) kvs
  | _ => Err TypeError
  end.

Definition to_struct (v : PyVal) : result (list (string * Json)) :=
  j ← to_json v;
  match j with
  | JObj kvs => Ok kvs
  | _ => Err TypeError
  end.

Definition glm_FunctionCall (d : list (string * PyVal)) : result FunctionCall :=
  fold_left
    (fun acc kv =>
       fc ← acc;
       match kv with
       | ("name", VStr s) => Ok (mkFunctionCall s (fc_args fc))
       | ("args", v) => a ← to_struct v; Ok (mkFunctionCall (fc_name fc) a)
       | ("name", _) => Err TypeError
       | _ => Err ValueError
       end)
    d (Ok (mkFunctionCall "" [])).

Definition glm_FunctionResponse (d : list (string * PyVal)) : result FunctionResponse :=
  fold_left
    (fun acc kv =>
       fr ← acc;
       match kv with
       | ("name", VStr s) => Ok (mkFunctionResponse s (fr_response fr))
       | ("response", v) => a ← to_struct v; Ok (mkFunctionResponse (fr_name fr) a)
       | ("name", _) => Err TypeError
       | _ => Err ValueError
       end)
    d (Ok (mkFunctionResponse "" [])).

(** [glm.Content(d)] once the ["parts"] entry has been coerced to [ps]. *)
Definition glm_Content (ps : list Part) (d : list (string * PyVal)) : result Content :=
  fold_left
    (fun acc kv =>
       c ← acc;
       match kv with
       | ("parts", _) => Ok c
       | ("role", VStr s) => Ok (mkContent s (parts c))
       | ("role", VNone) => Ok c
       | ("role", _) => Err TypeError
       | _ => Err ValueError
       end)
    d (Ok (mkContent "" ps)).

(** ** Blob, part and content coercion ([content_types.py]) *)

Definition pil_to_blob (is_png_file : bool) (save_png save_jpeg : result (list Byte.byte))
    : result Blob :=
  if is_png_file then data ← save_png; Ok (mkBlob "image/png" data)
  else data ← save_jpeg; Ok (mkBlob "image/jpeg" data).

(** Both optional image libraries are taken to be installed. *)
Definition image_to_blob (image : Image) : result Blob :=
  match image with
  | PilImage is_png save_png save_jpeg => pil_to_blob is_png save_png save_jpeg
  | IPythonImage name guessed data =>
      match name with
      | None => Err ValueError
      | Some _ =>
          let mime_type := match guessed with Some m => m | None => "image/unknown" end in
          Ok (mkBlob mime_type data)
      end
  end.

Definition is_content_dict {V} (d : list (string * V)) : bool := dict_has "parts" d.

Definition is_blob_dict {V} (d : list (string * V)) : bool :=
  dict_has "mime_type" d && dict_has "data" d.

Definition is_part_dict {V} (d : list (string * V)) : bool :=
  match dict_keys d with
  | [key] =>
      str_in key ["text"; "inline_data"; "function_call"; "function_response"; "file_data"]
  | _ => false
  end.

Definition to_file_data (file_data : PyVal) : result FileData :=
  file_data ←
    match file_data with
    | VDict d =>
        if dict_has "file_uri" d then VFileData <$> glm_FileData d
        else VFile <$> glm_File d
    | _ => Ok file_data
    end;
  match file_data with
  | VFile f => Ok (mkFileData (file_mime_type f) (file_uri f))
  | VFileData fd => Ok fd
  | _ => Err TypeError
  end.

(** The part of [to_blob] after its [Mapping] test, on a value that is no
    longer a dictionary. *)
Definition blob_of_object (blob : PyVal) : result Blob :=
  match blob with
  | VBlob b => Ok b
  | VImage img => image_to_blob img
  | VDict _ => Err KeyError
  | _ => Err TypeError
  end.

(** The part of [to_part] after its [Mapping] test.  The second test for
    [glm.FunctionCall] of the source can never be reached, so a
    [glm.FunctionResponse] falls through to the blob fallback. *)
Definition part_of_object (part : PyVal) : result Part :=
  match part with
  | VPart p => Ok p
  | VStr s => Ok (PText s)
  | VFileData fd => Ok (PFileData fd)
  | VFile f => PFileData <$> to_file_data (VFile f)
  | VFunctionCall fc => Ok (PFunctionCall fc)
  | _ => PInlineData <$> blob_of_object part
  end.

(** [glm.Part(d)] for a one-key part dictionary whose [inline_data] and
    [file_data] entries were already coerced by the caller. *)
Definition glm_Part_field (key : string) (v : PyVal) : result Part :=
  if String.eqb key "text" then
    match v with
    | VStr s => Ok (PText s)
    | _ => Err TypeError
    end
  else if String.eqb key "function_call" then
    match v with
    | VFunctionCall fc => Ok (PFunctionCall fc)
    | VDict d => PFunctionCall <$> glm_FunctionCall d
    | _ => Err TypeError
    end
  else if String.eqb key "function_response" then
    match v with
    | VFunctionResponse fr => Ok (PFunctionResponse fr)
    | VDict d => PFunctionResponse <$> glm_FunctionResponse d
    | _ => Err TypeError
    end
  else Err ValueError.

Section OpenRecursion.
(** [convert x] stands for the statement
    [if isinstance(x, Mapping): x = _convert_dict(x)] on a nested value. *)
Variable convert : PyVal -> result PyVal.

Definition to_blob_open (blob : PyVal) : result Blob :=
  blob ← convert blob;
  blob_of_object blob.

Definition to_part_open (part : PyVal) : result Part :=
  part ← convert part;
  part_of_object part.

(** [[to_part(part) for part in content["parts"]]], a string being wrapped
    in a list first (a string is no [Mapping], so [to_part] goes straight
    to its type tests). *)
Definition parts_of_entry (v : PyVal) : result (list Part) :=
  match v with
  | VStr s => mapM part_of_object [VStr s]
  | VList ps => mapM to_part_open ps
  | VDict d => Ok (map PText (dict_keys d))
  | VBytes [] => Ok []
  | _ => Err TypeError
  end.
End OpenRecursion.

(** [if isinstance(x, Mapping): x = _convert_dict(x)]; the result of
    [_convert_dict] (a [glm.Content], [glm.Part] or [glm.Blob]) is injected
    back into [PyVal], and a value that is not a dictionary is returned
    unchanged. *)
Fixpoint convert_if_mapping (x : PyVal) : result PyVal :=
  match x with
  | VDict d =>
      if is_content_dict d then
        let fix content_parts (l : list (string * PyVal)) : result (list Part) :=
          match l with
          | [] => Err KeyError
          | (k, v) :: l' =>
              if String.eqb "parts" k then parts_of_entry convert_if_mapping v
              else content_parts l'
          end in
        ps ← content_parts d;
        VContent <$> glm_Content ps d
      else if is_part_dict d then
        match d with
        | [(key, v)] =>
            if String.eqb key "inline_data" then
              b ← to_blob_open convert_if_mapping v; Ok (VPart (PInlineData b))
            else if String.eqb key "file_data" then
              fd ← to_file_data v; Ok (VPart (PFileData fd))
            else VPart <$> glm_Part_field key v
        | _ => Err KeyError
        end
      else if is_blob_dict d then VBlob <$> glm_Blob d
      else Err KeyError
  | _ => Ok x
  end.

Definition _convert_dict (d : list (string * PyVal)) : result PyVal :=
  convert_if_mapping (VDict d).

Definition to_blob (blob : PyVal) : result Blob :=
  to_blob_open convert_if_mapping blob.

Definition to_part (part : PyVal) : result Part :=
  to_part_open convert_if_mapping part.

Definition is_mapping (v : PyVal) : bool :=
  match v with VDict _ => true | _ => false end.

(** The elements iteration yields, for an [Iterable] that is not a [str]. *)
Definition is_iterable_not_str (v : PyVal) : option (list PyVal) :=
  match v with
  | VList xs => Some xs
  | VBytes bs => Some (map (fun b => VInt (Z.of_N (Byte.to_N b))) bs)
  | VDict d => Some (map VStr (dict_keys d))
  | _ => None
  end.

Definition to_content (content : PyVal) : result Content :=
  if negb (truthy content) then Err ValueError
  else
    content ← convert_if_mapping content;
    match content with
    | VContent c => Ok c
    | _ =>
        match is_iterable_not_str content with
        | Some ps => ps ← mapM to_part ps; Ok (mkContent "" ps)
        | None => p ← to_part content; Ok (mkContent "" [p])
        end
    end.

Definition strict_to_content (content : PyVal) : result Content :=
  content ← convert_if_mapping content;
  match content with
  | VContent c => Ok c
  | _ => Err TypeError
  end.

Definition to_contents (contents : PyVal) : result (list Content) :=
  match contents with
  | VNone => Ok []
  | _ =>
      let fallback := c ← to_content contents; Ok [c] in
      match (if is_mapping contents then None else is_iterable_not_str contents) with
      | Some cs =>
          match mapM strict_to_content cs with
          | Ok cs => Ok cs
          | Err TypeError => fallback
          | Err e => Err e
          end
      | None => fallback
      end
  end.

(** ** Python callables *)

Inductive ParameterKind : Type :=
  | POSITIONAL_ONLY
  | POSITIONAL_OR_KEYWORD
  | VAR_POSITIONAL
  | KEYWORD_ONLY
  | VAR_KEYWORD.

(** Type annotations; [AnnEmpty] is [inspect.Parameter.empty] and
    [AnnOptional a] is [Union[a, None]]. *)
Inductive Annotation : Type :=
  | AnnEmpty
  | AnnAny
  | AnnInt
  | AnnFloat
  | AnnStr
  | AnnBool
  | AnnList (item : Annotation)
  | AnnDict
  | AnnOptional (a : Annotation).

Record Param : Type := mkParam {
  p_name : string;
  p_kind : ParameterKind;
  p_annotation : Annotation;
  p_default : option Json          (* [None] is [inspect.Parameter.empty] *)
}.

(** A native callable: its [__name__], its [__doc__], what
    [inspect.signature] returns ([None] when it has no introspectable
    signature) and what calling it with keyword arguments yields. *)
Record PyFunction : Type := mkPyFunction {
  f_name : string;
  f_doc : option string;
  f_signature : option (list Param);
  f_call : list (string * Json) -> result Json
}.

Definition is_fixed_kind (k : ParameterKind) : bool :=
  match k with
  | POSITIONAL_OR_KEYWORD | KEYWORD_ONLY | POSITIONAL_ONLY => true
  | VAR_POSITIONAL | VAR_KEYWORD => false
  end.

Definition is_optional (a : Annotation) : bool :=
  match a with AnnOptional _ => true | _ => false end.

Definition as_dict (j : Json) : result (list (string * Json)) :=
  match j with
  | JObj kvs => Ok kvs
  | _ => Err AttributeError
  end.

(** ** Schema synthesis ([_generate_schema]) *)

Record Schema : Type := mkSchema {
  schema_name : string;
  schema_description : option string;
  schema_parameters : list (string * Json)
}.

Section GenerateSchema.
(** [pydantic.create_model(name, **fields).schema()], an external library:
    from the model name and the fields (name, annotation, description) to
    the JSON schema. *)
Variable create_model_schema :
  string -> list (string * (Annotation * option string)) -> Json.

Definition _generate_schema (f : PyFunction)
    (descriptions : option (list (string * string)))
    (required : option (list string)) : result Schema :=
  let descriptions := match descriptions with Some d => d | None => [] end in
  let required := match required with Some r => r | None => [] end in
  defaults ← match f_signature f with Some ps => Ok ps | None => Err ValueError end;
  let fields_dict :=
    map (fun param =>
           (p_name param,
            (match p_annotation param with AnnEmpty => AnnAny | a => a end,
             dict_get (p_name param) descriptions)))
        (List.filter (fun param => is_fixed_kind (p_kind param)) defaults) in
  parameters ← as_dict (create_model_schema (f_name f) fields_dict);
  let parameters := dict_remove "title" parameters in
  parameters ←
    match dict_get "properties" parameters with
    | None => Ok parameters
    | Some properties =>
        properties ← as_dict properties;
        properties ←
          mapM (fun entry =>
                  function_arg ← as_dict (snd entry);
                  let function_arg := dict_remove "title" function_arg in
                  match find (fun p => String.eqb (p_name p) (fst entry)) defaults with
                  | None => Err KeyError
                  | Some param =>
                      Ok (fst entry,
                          JObj (if is_optional (p_annotation param)
                                then dict_set "nullable" (JBool true) function_arg
                                else function_arg))
                  end)
               properties;
        Ok (dict_set "properties" (JObj properties) parameters)
    end;
  let required :=
    match required with
    | _ :: _ => required
    | [] =>
        map p_name
          (List.filter (fun p => match p_default p with
                            | None => is_fixed_kind (p_kind p)
                            | Some _ => false
                            end)
                  defaults)
    end in
  Ok (mkSchema (f_name f) (f_doc f)
        (dict_set "required" (JList (map JStr required)) parameters)).
End GenerateSchema.

(** A model of the schema pydantic emits for the annotation types the
    docstring of [FunctionDeclaration.from_function] lists
    ([float | int | str | list[...] | dict]), plus [bool], [Any] and
    [Optional].  The field title, which the synthesizer removes at once, is
    kept as the bare field name. *)
Fixpoint pydantic_type_schema (a : Annotation) : list (string * Json) :=
  match a with
  | AnnEmpty | AnnAny => []
  | AnnInt => [("type", JStr "integer")]
  | AnnFloat => [("type", JStr "number")]
  | AnnStr => [("type", JStr "string")]
  | AnnBool => [("type", JStr "boolean")]
  | AnnList item => [("type", JStr "array"); ("items", JObj (pydantic_type_schema item))]
  | AnnDict => [("type", JStr "object")]
  | AnnOptional a => pydantic_type_schema a
  end.

Definition pydantic_field_schema (field : string * (Annotation * option string)) : string * Json :=
  let '(name, (a, description)) := field in
  (name,
   JObj ([("title", JStr name)]
         ++ match description with Some d => [("description", JStr d)] | None => [] end
         ++ pydantic_type_schema a)).

Definition pydantic_schema (name : string)
    (fields : list (string * (Annotation * option string))) : Json :=
  JObj [("title", JStr name); ("type", JStr "object");
        ("properties", JObj (map pydantic_field_schema fields));
        ("required",
         JList (map (fun fld => JStr (fst fld))
                  (List.filter (fun fld => match fst (snd fld) with
                                      | AnnAny | AnnEmpty | AnnOptional _ => false
                                      | _ => true
                                      end) fields)))].

(** ** Renaming to the wire convention ([_rename_schema_fields]) *)

Definition upper_ascii (c : ascii) : ascii :=
  let n := nat_of_ascii c in
  if (97 <=? n) && (n <=? 122) then ascii_of_nat (n - 32) else c.

Fixpoint upper (s : string) : string :=
  match s with
  | EmptyString => EmptyString
  | String c s' => String (upper_ascii c) (upper s')
  end.

(** [f] applied to the value stored under [k], if any. *)
Fixpoint dict_find_map {V A} (f : V -> A) (k : string) (d : list (string * V)) : option A :=
  match d with
  | [] => None
  | (k', v) :: d' => if String.eqb k k' then Some (f v) else dict_find_map f k d'
  end.

Fixpoint _rename_schema_fields (schema : Json) : result Json :=
  match schema with
  | JNull => Ok JNull
  | JObj kvs =>
      let type_ := dict_get "type" kvs in
      let schema := dict_remove "type" kvs in
      schema ←
        match type_ with
        | None | Some JNull => Ok schema
        | Some (JStr s) => Ok (dict_set "type_" (JStr (upper s)) schema)
        | Some _ => Err AttributeError
        end;
      let format_ := dict_get "format" schema in
      let schema := dict_remove "format" schema in
      let schema :=
        match format_ with
        | None | Some JNull => schema
        | Some v => dict_set "format_" v schema
        end in
      let items := dict_find_map _rename_schema_fields "items" kvs in
      let schema := dict_remove "items" schema in
      schema ←
        match items with
        | None => Ok schema
        | Some items =>
            items ← items;
            match items with
            | JNull => Ok schema
            | _ => Ok (dict_set "items" items schema)
            end
        end;
      let properties :=
        dict_find_map
          (fun properties =>
             match properties with
             | JNull => Ok None
             | JObj props =>
                 props ← mapM (fun kv => v ← _rename_schema_fields (snd kv);
                                         Ok (fst kv, v)) props;
                 Ok (Some (JObj props))
             | _ => Err AttributeError
             end)
          "properties" kvs in
      let schema := dict_remove "properties" schema in
      match properties with
      | None => Ok (JObj schema)
      | Some properties =>
          properties ← properties;
          match properties with
          | None => Ok (JObj schema)
          | Some properties => Ok (JObj (dict_set "properties" properties schema))
          end
      end
  | JList _ => Err TypeError
  | _ => Err AttributeError
  end.

(** ** Function declarations, tools and the function library *)

(** [glm.FunctionDeclaration]; [fdp_parameters] is [JNull] when absent. *)
Record FunctionDeclarationProto : Type := mkFunctionDeclarationProto {
  fdp_name : string;
  fdp_description : string;
  fdp_parameters : Json
}.

(** The three classes a tool can hold: the wrapper [FunctionDeclaration],
    its subclass [CallableFunctionDeclaration] (the only one that defines
    [__call__]) and a bare [glm.FunctionDeclaration]. *)
Inductive Declaration : Type :=
  | FunctionDeclaration (_proto : FunctionDeclarationProto)
  | CallableFunctionDeclaration (_proto : FunctionDeclarationProto) (function : PyFunction)
  | glm_FunctionDeclaration (proto : FunctionDeclarationProto).

Definition _encode_fd (fd : Declaration) : FunctionDeclarationProto :=
  match fd with
  | FunctionDeclaration p | CallableFunctionDeclaration p _ | glm_FunctionDeclaration p => p
  end.

Definition name (fd : Declaration) : string := fdp_name (_encode_fd fd).

Definition callable (fd : Declaration) : bool :=
  match fd with
  | CallableFunctionDeclaration _ _ => true
  | _ => false
  end.

Definition description_str (description : option string) : string :=
  match description with Some d => d | None => "" end.

(** [FunctionDeclaration.__init__] *)
Definition FunctionDeclaration_init (name : string) (description : option string)
    (parameters : option Json) : result FunctionDeclarationProto :=
  parameters ←
    _rename_schema_fields (match parameters with Some p => p | None => JNull end);
  Ok (mkFunctionDeclarationProto name (description_str description) parameters).

(** [CallableFunctionDeclaration.__init__] *)
Definition CallableFunctionDeclaration_init (name : string) (description : option string)
    (parameters : option Json) (function : PyFunction) : result Declaration :=
  p ← FunctionDeclaration_init name description parameters;
  Ok (CallableFunctionDeclaration p function).

(** [FunctionDeclaration.from_function] *)
Definition from_function (function : PyFunction)
    (descriptions : option (list (string * string))) : result Declaration :=
  let descriptions := match descriptions with Some d => d | None => [] end in
  schema ← _generate_schema pydantic_schema function (Some descriptions) None;
  CallableFunctionDeclaration_init (schema_name schema) (schema_description schema)
    (Some (JObj (schema_parameters schema))) function.

(** [CallableFunctionDeclaration.__call__], without the bookkeeping of the
    invocation (see [FunctionLibrary_call]). *)
Definition CallableFunctionDeclaration_call (function : PyFunction) (fc : FunctionCall)
    : result FunctionResponse :=
  result ← f_call function (fc_args fc);
  let result :=
    match result with
    | JObj d => d
    | _ => [("result", result)]
    end in
  Ok (mkFunctionResponse (fc_name fc) result).

(** The inputs [_make_function_declaration] accepts; a dictionary is given by
    its entries. *)
Inductive FunctionDeclarationType : Type :=
  | FDT_declaration (fd : Declaration)
  | FDT_dict (name : string) (description : option string) (parameters : option Json)
      (function : option PyFunction)
  | FDT_callable (f : PyFunction)
  | FDT_other.

Definition _make_function_declaration (fun_ : FunctionDeclarationType) : result Declaration :=
  match fun_ with
  | FDT_declaration fd => Ok fd
  | FDT_dict name description parameters (Some function) =>
      CallableFunctionDeclaration_init name description parameters function
  | FDT_dict name description parameters None =>
      FunctionDeclaration <$> FunctionDeclaration_init name description parameters
  | FDT_callable f => from_function f None
  | FDT_other => Err TypeError
  end.

Record Tool : Type := mkTool {
  tool_function_declarations : list Declaration;
  tool_index : gmap string Declaration
}.

(** The loop that fills a name index, failing on the first name seen twice. *)
Fixpoint index_declarations (index : gmap string Declaration) (fds : list Declaration)
    : result (gmap string Declaration) :=
  match fds with
  | [] => Ok index
  | fd :: fds' =>
      match index !! name fd with
      | Some _ => Err ValueError
      | None => index_declarations (<[name fd := fd]> index) fds'
      end
  end.

(** [Tool.__init__] *)
Definition Tool_init (function_declarations : list FunctionDeclarationType) : result Tool :=
  fds ← mapM _make_function_declaration function_declarations;
  index ← index_declarations ∅ fds;
  Ok (mkTool fds index).

Definition Tool_to_proto (t : Tool) : list FunctionDeclarationProto :=
  map _encode_fd (tool_function_declarations t).

(** [Tool.__getitem__], by name or by function call. *)
Definition Tool_getitem (t : Tool) (name : string) : result Declaration :=
  match tool_index t !! name with
  | Some fd => Ok fd
  | None => Err KeyError
  end.

(** The inputs [_make_tool] accepts. *)
Inductive ToolType : Type :=
  | TT_Tool (t : Tool)
  | TT_glm_Tool (function_declarations : list FunctionDeclarationProto)
  | TT_dict_tool (function_declarations : list FunctionDeclarationType)
  | TT_dict_declaration (fd : FunctionDeclarationProto)
  | TT_iterable (function_declarations : list FunctionDeclarationType)
  | TT_single (fd : FunctionDeclarationType).

Definition _make_tool (tool : ToolType) : result Tool :=
  match tool with
  | TT_Tool t => Ok t
  | TT_glm_Tool fds => Tool_init (map (fun p => FDT_declaration (glm_FunctionDeclaration p)) fds)
  | TT_dict_tool fds => Tool_init fds
  | TT_dict_declaration fd => Tool_init [FDT_declaration (glm_FunctionDeclaration fd)]
  | TT_iterable fds => Tool_init fds
  | TT_single fd =>
      match Tool_init [fd] with
      | Ok t => Ok t
      | Err _ => Err TypeError
      end
  end.

Inductive ToolsType : Type :=
  | Tools_iterable (tools : list ToolType)
  | Tools_single (tool : ToolType).

Definition _make_tools (tools : ToolsType) : result (list Tool) :=
  match tools with
  | Tools_iterable tools =>
      tools ← mapM _make_tool tools;
      if (1 <? length tools)
         && forallb (fun t => length (tool_function_declarations t) =? 1) tools
      then
        (* flatten into a single tool *)
        t ← _make_tool
              (TT_iterable
                 (flat_map (fun t => match tool_function_declarations t with
                                     | fd :: _ => [FDT_declaration fd]
                                     | [] => []
                                     end) tools));
        Ok [t]
      else Ok tools
  | Tools_single tool => t ← _make_tool tool; Ok [t]
  end.

Record FunctionLibrary : Type := mkFunctionLibrary {
  lib_tools : list Tool;
  lib_index : gmap string Declaration
}.

(** The two nested loops of [FunctionLibrary.__init__]. *)
Fixpoint index_tools (index : gmap string Declaration) (tools : list Tool)
    : result (gmap string Declaration) :=
  match tools with
  | [] => Ok index
  | tool :: tools' =>
      index ← index_declarations index (tool_function_declarations tool);
      index_tools index tools'
  end.

(** [FunctionLibrary.__init__] *)
Definition FunctionLibrary_init (tools : ToolsType) : result FunctionLibrary :=
  tools ← _make_tools tools;
  index ← index_tools ∅ tools;
  Ok (mkFunctionLibrary tools index).

(** [FunctionLibrary.__getitem__], by name; a function call is looked up by
    its [name]. *)
Definition FunctionLibrary_getitem (lib : FunctionLibrary) (name : string)
    : result Declaration :=
  match lib_index lib !! name with
  | Some fd => Ok fd
  | None => Err KeyError
  end.

Definition FunctionLibrary_to_proto (lib : FunctionLibrary)
    : list (list FunctionDeclarationProto) :=
  map Tool_to_proto (lib_tools lib).

Inductive FunctionLibraryType : Type :=
  | FLT_library (lib : FunctionLibrary)
  | FLT_tools (tools : ToolsType).

Definition to_function_library (lib : option FunctionLibraryType)
    : result (option FunctionLibrary) :=
  match lib with
  | None => Ok None
  | Some (FLT_library lib) => Ok (Some lib)
  | Some (FLT_tools tools) => Some <$> FunctionLibrary_init tools
  end.

(** ** Tool configuration *)

Inductive FunctionCallingMode : Type := MODE_UNSPECIFIED | AUTO | ANY | NONE.

Inductive FunctionCallingModeType : Type :=
  | FCM_mode (m : FunctionCallingMode)
  | FCM_str (s : string)
  | FCM_int (n : Z).

Definition lower_ascii (c : ascii) : ascii :=
  let n := nat_of_ascii c in
  if (65 <=? n) && (n <=? 90) then ascii_of_nat (n + 32) else c.

Fixpoint lower (s : string) : string :=
  match s with
  | EmptyString => EmptyString
  | String c s' => String (lower_ascii c) (lower s')
  end.

(** The table [_FUNCTION_CALLING_MODE]; a key it lacks raises [KeyError]. *)
Definition to_function_calling_mode (x : FunctionCallingModeType)
    : result FunctionCallingMode :=
  match x with
  | FCM_mode AUTO => Ok AUTO
  | FCM_mode ANY => Ok ANY
  | FCM_mode NONE => Ok NONE
  | FCM_mode MODE_UNSPECIFIED => Err KeyError
  | FCM_int n =>
      if (n =? 1)%Z then Ok AUTO
      else if (n =? 2)%Z then Ok ANY
      else if (n =? 3)%Z then Ok NONE
      else Err KeyError
  | FCM_str s =>
      let x := lower s in
      if str_in x ["mode_auto"; "auto"] then Ok AUTO
      else if str_in x ["mode_any"; "any"] then Ok ANY
      else if str_in x ["mode_none"; "none"] then Ok NONE
      else Err KeyError
  end.

Record FunctionCallingConfig : Type := mkFunctionCallingConfig {
  mode : FunctionCallingMode;
  allowed_function_names : list string
}.

Inductive FunctionCallingConfigType : Type :=
  | FCC_mode (m : FunctionCallingModeType)
  | FCC_config (c : FunctionCallingConfig).

Definition to_function_calling_config (obj : FunctionCallingConfigType)
    : result FunctionCallingConfig :=
  match obj with
  | FCC_mode m => m ← to_function_calling_mode m; Ok (mkFunctionCallingConfig m [])
  | FCC_config c => Ok c
  end.

Record ToolConfig : Type := mkToolConfig { function_calling_config : FunctionCallingConfig }.

Inductive ToolConfigType : Type :=
  | TC_ToolConfig (c : ToolConfig)
  | TC_dict (function_calling_config : FunctionCallingConfigType)
  | TC_other.

Definition to_tool_config (obj : ToolConfigType) : result ToolConfig :=
  match obj with
  | TC_ToolConfig c => Ok c
  | TC_dict fcc => fcc ← to_function_calling_config fcc; Ok (mkToolConfig fcc)
  | TC_other => Err TypeError
  end.

(** ** Requests and responses of the model-call collaborator *)

Inductive FinishReason : Type :=
  | FINISH_REASON_UNSPECIFIED
  | STOP
  | MAX_TOKENS
  | SAFETY
  | RECITATION
  | OTHER.

(** [finish_reason in (FINISH_REASON_UNSPECIFIED, STOP, MAX_TOKENS)] *)
Definition normal_finish (r : FinishReason) : bool :=
  match r with
  | FINISH_REASON_UNSPECIFIED | STOP | MAX_TOKENS => true
  | _ => false
  end.

Record Candidate : Type := mkCandidate {
  content : Content;
  finish_reason : FinishReason
}.

(** A response object: its candidates, [prompt_feedback.block_reason]
    ([0] is [BLOCK_REASON_UNSPECIFIED], which is falsy) and the mutable
    [_error] slot. *)
Record Response : Type := mkResponse {
  candidates : list Candidate;
  block_reason : nat;
  _error : option Exn
}.

Record GenerateContentRequest : Type := mkRequest {
  req_model : string;
  req_contents : list Content;
  req_generation_config : list (string * Json);
  req_safety_settings : list (string * string);
  req_tools : option (list (list FunctionDeclarationProto));
  req_tool_config : option ToolConfig;
  req_system_instructions : option Content
}.

(** ** The model wrapper *)

Record GenerativeModel : Type := mkGenerativeModel {
  _model_name : string;
  _safety_settings : list (string * string);
  _generation_config : list (string * Json);
  _tools : option FunctionLibrary;
  _tool_config : option ToolConfig;
  _system_instructions : option Content
}.

(** Modelled from the spec: [generation_types.to_generation_config_dict] is
    not among the sources; the request carries the "merged generation
    configuration", so an override is a dictionary and no override is the
    empty one. *)
Definition to_generation_config_dict (generation_config : option (list (string * Json)))
    : list (string * Json) :=
  match generation_config with Some d => d | None => [] end.

(** Modelled from the spec: [safety_types.to_easy_safety_dict] and
    [safety_types.normalize_safety_settings] are not among the sources; the
    request carries the "merged safety configuration", so an override is a
    dictionary from harm category to threshold and no override is the empty
    one. *)
Definition to_easy_safety_dict (safety_settings : option (list (string * string)))
    : list (string * string) :=
  match safety_settings with Some d => d | None => [] end.

Definition _get_tools_lib (self : GenerativeModel) (tools : option FunctionLibraryType)
    : result (option FunctionLibrary) :=
  match tools with
  | None => Ok (_tools self)
  | Some _ => to_function_library tools
  end.

Definition _prepare_request (self : GenerativeModel) (contents : PyVal)
    (generation_config : option (list (string * Json)))
    (safety_settings : option (list (string * string)))
    (tools : option FunctionLibraryType) (tool_config : option ToolConfigType)
    : result GenerateContentRequest :=
  if negb (truthy contents) then Err TypeError
  else
    tools_lib ← _get_tools_lib self tools;
    let tools_lib := FunctionLibrary_to_proto <$> tools_lib in
    tool_config ←
      match tool_config with
      | None => Ok (_tool_config self)
      | Some c => Some <$> to_tool_config c
      end;
    contents ← to_contents contents;
    let generation_config := to_generation_config_dict generation_config in
    let merged_gc := dict_update (_generation_config self) generation_config in
    let safety_settings := to_easy_safety_dict safety_settings in
    let merged_ss := dict_update (_safety_settings self) safety_settings in
    Ok (mkRequest (_model_name self) contents merged_gc merged_ss tools_lib tool_config
          (_system_instructions self)).

(** ** The chat session and the state it runs in *)

Record ChatSession : Type := mkChatSession {
  model : GenerativeModel;
  _history : list Content;
  _last_sent : option Content;
  _last_received : option Response;
  enable_automatic_function_calling : bool
}.

(** The session together with the world around it: the scripted outcomes the
    model-call collaborator still has to deliver, the requests it has
    received, and the invocations of tool callables, oldest first. *)
Record State : Type := mkState {
  session : ChatSession;
  script : list (result Response);
  requests : list GenerateContentRequest;
  invocations : list (string * list (string * Json))
}.

(** State and exceptions: an exception leaves the state as it was when it
    was raised. *)
Definition M (A : Type) : Type := State -> result A * State.

#[global] Instance M_ret : MRet M := fun A a st => (Ok a, st).
#[global] Instance M_bind : MBind M := fun A B f m st =>
  match m st with
  | (Ok a, st') => f a st'
  | (Err e, st') => (Err e, st')
  end.

Definition raise {A} (e : Exn) : M A := fun st => (Err e, st).
Definition lift {A} (r : result A) : M A := fun st => (r, st).
Definition get_session : M ChatSession := fun st => (Ok (session st), st).
Definition set_session (c : ChatSession) : M unit := fun st =>
  (Ok tt, mkState c (script st) (requests st) (invocations st)).

Definition set_history (h : list Content) (c : ChatSession) : ChatSession :=
  mkChatSession (model c) h (_last_sent c) (_last_received c)
    (enable_automatic_function_calling c).

Definition set_last (sent : option Content) (received : option Response)
    (c : ChatSession) : ChatSession :=
  mkChatSession (model c) (_history c) sent received
    (enable_automatic_function_calling c).

(** ** Python list operations *)

(** [l[i]] for a non-negative [i] *)
Definition list_index {A} (l : list A) (i : nat) : result A :=
  match l !! i with
  | Some x => Ok x
  | None => Err IndexError
  end.

(** [l.pop(i)]; a negative [i] counts from the end, and [l.pop()] is
    [l.pop(-1)].  Returns the element and the shortened list. *)
Definition list_pop {A} (l : list A) (i : Z) : result (A * list A) :=
  let n := Z.of_nat (length l) in
  let i := if (i <? 0)%Z then (i + n)%Z else i in
  if (i <? 0)%Z || (n <=? i)%Z then Err IndexError
  else
    match l !! Z.to_nat i with
    | Some x => Ok (x, delete (Z.to_nat i) l)
    | None => Err IndexError
    end.

(** [*init, last = l] *)
Fixpoint unpack_last {A} (l : list A) : result (list A * A) :=
  match l with
  | [] => Err ValueError
  | [x] => Ok ([], x)
  | x :: l' => '(init, last) ← unpack_last l'; Ok (x :: init, last)
  end.

(** ** The model-call collaborator and tool invocation *)

(** One exchange with the client: the request is recorded and the next
    scripted outcome is delivered.  Both the plain and the streaming entry
    point of the client are served by the same script, the response of a
    stream being the one assembled from its chunks. *)
Definition client_generate_content (request : GenerateContentRequest) : M Response :=
  fun st =>
    let reqs := requests st ++ [request] in
    match script st with
    | [] => (Err StopIteration, mkState (session st) [] reqs (invocations st))
    | r :: rest => (r, mkState (session st) rest reqs (invocations st))
    end.

(** [GenerativeModel.generate_content] *)
Definition generate_content (self : GenerativeModel) (contents : PyVal)
    (generation_config : option (list (string * Json)))
    (safety_settings : option (list (string * string)))
    (stream : bool)
    (tools : option FunctionLibraryType) (tool_config : option ToolConfigType)
    : M Response :=
  request ← lift (_prepare_request self contents generation_config safety_settings
                    tools tool_config);
  client_generate_content request.

Definition record_invocation (function : PyFunction) (args : list (string * Json)) : M unit :=
  fun st =>
    (Ok tt, mkState (session st) (script st) (requests st)
              (invocations st ++ [(f_name function, args)])).

(** [FunctionLibrary.__call__] *)
Definition FunctionLibrary_call (self : FunctionLibrary) (fc : FunctionCall)
    : M (option Part) :=
  declaration ← lift (FunctionLibrary_getitem self (fc_name fc));
  match declaration with
  | CallableFunctionDeclaration _ function =>
      record_invocation function (fc_args fc);;
      response ← lift (CallableFunctionDeclaration_call function fc);
      mret (Some (PFunctionResponse response))
  | _ => mret None
  end.

(** ** [ChatSession] *)

Definition _USER_ROLE : string := "user".
Definition _MODEL_ROLE : string := "model".

Definition default_role (r : string) (c : Content) : Content :=
  if String.eqb (role c) "" then mkContent r (parts c) else c.

(** [ChatSession.__init__] *)
Definition ChatSession_init (model : GenerativeModel) (history : PyVal)
    (enable_automatic_function_calling : bool) : result ChatSession :=
  h ← to_contents history;
  Ok (mkChatSession model h None None enable_automatic_function_calling).

(** [GenerativeModel.start_chat] *)
Definition start_chat (self : GenerativeModel) (history : PyVal)
    (enable_automatic_function_calling : bool) : result ChatSession :=
  match dict_get "candidate_count" (_generation_config self) with
  | Some (JNum n) =>
      if (1 <? n)%Z then Err ValueError
      else ChatSession_init self history enable_automatic_function_calling
  | Some _ => Err TypeError
  | None => ChatSession_init self history enable_automatic_function_calling
  end.

(** The [history] property.  The two pending slots are always written
    together; a pending response without a pending sent content would put
    [None] into the history, which a list of contents cannot hold, and is
    reported as [TypeError]. *)
Definition history : M (list Content) :=
  self ← get_session;
  match _last_received self with
  | None => mret (_history self)
  | Some last =>
      c0 ← lift (list_index (candidates last) 0);
      last ←
        (if negb (normal_finish (finish_reason c0)) then
           let last := mkResponse (candidates last) (block_reason last)
                         (Some StopCandidateException) in
           set_session (set_last (_last_sent self) (Some last) self);;
           mret last
         else mret last);
      match _error last with
      | Some _ => raise BrokenResponseError
      | None =>
          match _last_sent self with
          | None => raise TypeError
          | Some sent =>
              let received := default_role _MODEL_ROLE (content c0) in
              let h := _history self ++ [sent; received] in
              set_session (set_last None None (set_history h self));;
              mret h
          end
      end
  end.

(** The setter of [history]. *)
Definition history_setter (history : PyVal) : M unit :=
  h ← lift (to_contents history);
  self ← get_session;
  set_session (set_last None None (set_history h self)).

(** [ChatSession.rewind] *)
Definition rewind : M (option Content * Content) :=
  self ← get_session;
  match _last_received self with
  | None =>
      '(a, h) ← lift (list_pop (_history self) (-2));
      set_session (set_history h self);;
      '(b, h) ← lift (list_pop h (-1));
      set_session (set_history h self);;
      mret (Some a, b)
  | Some last =>
      c0 ← lift (list_index (candidates last) 0);
      set_session (set_last None None self);;
      mret (_last_sent self, content c0)
  end.

(** [ChatSession.last] *)
Definition last : M (option Response) :=
  self ← get_session; mret (_last_received self).

Definition _check_response (response : Response) (stream : bool) : result unit :=
  if negb (block_reason response =? 0) then Err BlockedPromptException
  else if negb stream then
    c0 ← list_index (candidates response) 0;
    if negb (normal_finish (finish_reason c0)) then Err StopCandidateException
    else Ok tt
  else Ok tt.

Definition function_calls_of (ps : list Part) : list FunctionCall :=
  flat_map (fun part => match part with PFunctionCall fc => [fc] | _ => [] end) ps.

Definition _get_function_calls (response : Response) : result (list FunctionCall) :=
  match candidates response with
  | [c] => Ok (function_calls_of (parts (content c)))
  | _ => Err ValueError
  end.

(** [all(callable(tools_lib[fc]) for fc in function_calls)]: the generator
    is consumed up to the first declaration that is not callable; a name the
    library lacks raises [KeyError]. *)
Fixpoint all_callable (tools_lib : FunctionLibrary) (function_calls : list FunctionCall)
    : result bool :=
  match function_calls with
  | [] => Ok true
  | fc :: rest =>
      declaration ← FunctionLibrary_getitem tools_lib (fc_name fc);
      if callable declaration then all_callable tools_lib rest else Ok false
  end.

(** The [for] loop of [_handle_afc] that invokes every function call. *)
Definition invoke_all (tools_lib : FunctionLibrary) (function_calls : list FunctionCall)
    : M (list Part) :=
  mapM (fun fc =>
          fr ← FunctionLibrary_call tools_lib fc;
          match fr with
          | None => raise AssertionError
          | Some fr => mret fr
          end)
       function_calls.

(** The [while] loop of [_handle_afc], bounded by [fuel] iterations. *)
Fixpoint afc_loop (fuel : nat) (self_model : GenerativeModel)
    (response : Response) (history : list Content)
    (generation_config : list (string * Json))
    (safety_settings : option (list (string * string)))
    (stream : bool) (tools_lib : FunctionLibrary)
    : M (list Content * Response) :=
  match fuel with
  | 0 => raise OutOfFuel
  | S fuel =>
      function_calls ← lift (_get_function_calls response);
      match function_calls with
      | [] => mret (history, response)
      | _ :: _ =>
          ok ← lift (all_callable tools_lib function_calls);
          if negb ok then mret (history, response)
          else
            c0 ← lift (list_index (candidates response) 0);
            let history := history ++ [content c0] in
            function_response_parts ← invoke_all tools_lib function_calls;
            let send := mkContent _USER_ROLE function_response_parts in
            let history := history ++ [send] in
            response ← generate_content self_model (VList (map VContent history))
                         (Some generation_config) safety_settings stream
                         (Some (FLT_library tools_lib)) None;
            lift (_check_response response stream);;
            afc_loop fuel self_model response history generation_config
              safety_settings stream tools_lib
      end
  end.

(** [ChatSession._handle_afc].  Every iteration of the loop takes one
    outcome from the script of the collaborator, so one more iteration than
    the script is long is all the loop can run. *)
Definition _handle_afc (self_model : GenerativeModel)
    (response : Response) (history : list Content)
    (generation_config : list (string * Json))
    (safety_settings : option (list (string * string)))
    (stream : bool) (tools_lib : FunctionLibrary)
    : M (list Content * Content * Response) :=
  fun st =>
    ('(history, response) ←
       afc_loop (S (length (script st))) self_model response history
         generation_config safety_settings stream tools_lib;
     '(history, content) ← lift (unpack_last history);
     mret (history, content, response)) st.

(** [generation_config.get("candidate_count", 1) > 1] *)
Definition candidate_count_exceeds_one (generation_config : list (string * Json))
    : result bool :=
  match dict_get "candidate_count" generation_config with
  | None => Ok false
  | Some (JNum n) => Ok (1 <? n)%Z
  | Some _ => Err TypeError
  end.

(** [ChatSession.send_message] *)
Definition send_message (content : PyVal)
    (generation_config : option (list (string * Json)))
    (safety_settings : option (list (string * string)))
    (stream : bool)
    (tools : option FunctionLibraryType) (tool_config : option ToolConfigType)
    : M Response :=
  self ← get_session;
  if enable_automatic_function_calling self && stream then raise NotImplementedError
  else
    tools_lib ← lift (_get_tools_lib (model self) tools);
    content ← lift (to_content content);
    let content := default_role _USER_ROLE content in
    history ← history;
    let history := history ++ [content] in
    let generation_config := to_generation_config_dict generation_config in
    too_many ← lift (candidate_count_exceeds_one generation_config);
    if (too_many : bool) then raise ValueError
    else
      response ← generate_content (model self) (VList (map VContent history))
                   (Some generation_config) safety_settings stream
                   (FLT_library <$> tools_lib) tool_config;
      lift (_check_response response stream);;
      '(content, response) ←
        match enable_automatic_function_calling self, tools_lib with
        | true, Some tools_lib =>
            '(history, content, response) ←
              _handle_afc (model self) response history generation_config
                safety_settings stream tools_lib;
            history_setter (VList (map VContent history));;
            mret (content, response)
        | _, _ => mret (content, response)
        end;
      self ← get_session;
      set_session (set_last (Some content) (Some response) self);;
      mret response.

(** * Notions used in the statements *)

(** ** Shapes and session states *)

(** The shape the specification calls the strict per-element check: a
    canonical [Content], or a dictionary with a ["parts"] key. *)
Definition is_strict_shape (v : PyVal) : bool :=
  match v with
  | VContent _ => true
  | VDict d => is_content_dict d
  | _ => false
  end.

(** The session with the pending response marked as broken, which is what a
    read of [history] leaves behind after an abnormal finish. *)
Definition mark_broken (st : State) (last : Response) : State :=
  mkState
    (set_last (_last_sent (session st))
       (Some (mkResponse (candidates last) (block_reason last)
                (Some StopCandidateException)))
       (session st))
    (script st) (requests st) (invocations st).

Definition clear_pending (st : State) : State :=
  mkState (set_last None None (session st)) (script st) (requests st) (invocations st).

(** The state after [n] reads of [history]. *)
Definition after_reads (n : nat) (st : State) : State :=
  Nat.iter n (fun s => snd (history s)) st.

(** The state after a read of [history] has committed a pending pair. *)
Definition commit (st : State) (sent received : Content) : State :=
  mkState
    (set_last None None
       (set_history (_history (session st) ++ [sent; default_role _MODEL_ROLE received])
          (session st)))
    (script st) (requests st) (invocations st).

(** [send_message] from the point where the history has been read. *)
Definition send_message_rest (self : ChatSession) (tools_lib : option FunctionLibrary)
    (content : Content) (history : list Content)
    (generation_config : option (list (string * Json)))
    (safety_settings : option (list (string * string)))
    (stream : bool) (tool_config : option ToolConfigType) : M Response :=
  let history := history ++ [content] in
  let generation_config := to_generation_config_dict generation_config in
  too_many ← lift (candidate_count_exceeds_one generation_config);
  if (too_many : bool) then raise ValueError
  else
    response ← generate_content (model self) (VList (map VContent history))
                 (Some generation_config) safety_settings stream
                 (FLT_library <$> tools_lib) tool_config;
    lift (_check_response response stream);;
    '(content, response) ←
      match enable_automatic_function_calling self, tools_lib with
      | true, Some tools_lib =>
          '(history, content, response) ←
            _handle_afc (model self) response history generation_config
              safety_settings stream tools_lib;
          history_setter (VList (map VContent history));;
          mret (content, response)
      | _, _ => mret (content, response)
      end;
    self ← get_session;
    set_session (set_last (Some content) (Some response) self);;
    mret response.

(** ** Requests *)

(** The request [_prepare_request] builds from a history of contents. *)
Definition request_for (self : GenerativeModel) (contents : list Content)
    (generation_config : list (string * Json))
    (safety_settings : option (list (string * string)))
    (tools_lib : option FunctionLibrary) (tool_config : option ToolConfig)
    : GenerateContentRequest :=
  mkRequest (_model_name self) contents
    (dict_update (_generation_config self) generation_config)
    (dict_update (_safety_settings self) (to_easy_safety_dict safety_settings))
    (FunctionLibrary_to_proto <$> tools_lib) tool_config (_system_instructions self).

(** The tool configuration a request carries: the default of the model
    unless the call overrides it. *)
Definition resolve_tool_config (self : GenerativeModel) (tool_config : option ToolConfigType)
    : result (option ToolConfig) :=
  match tool_config with
  | None => Ok (_tool_config self)
  | Some c => Some <$> to_tool_config c
  end.

(** What a tool callable returns, as the response mapping. *)
Definition response_mapping (value : Json) : list (string * Json) :=
  match value with
  | JObj d => d
  | _ => [("result", value)]
  end.

(** [emits P m]: running [m] only adds requests to the log of the
    collaborator, and every request it adds satisfies [P]. *)
Definition emits {A} (P : GenerateContentRequest -> Prop) (m : M A) : Prop :=
  forall st, exists new,
    requests (snd (m st)) = requests st ++ new /\ Forall P new.

(** What every request of the continuation rounds looks like: the one
    [_prepare_request] builds from the working history, the overrides of
    round 0, the tool library, and no tool configuration of its own. *)
Definition continuation_request (self : GenerativeModel)
    (generation_config : list (string * Json))
    (safety_settings : option (list (string * string)))
    (lib : FunctionLibrary) (req : GenerateContentRequest) : Prop :=
  req = request_for self (req_contents req) generation_config safety_settings
          (Some lib) (_tool_config self).

(** The overrides and tools of a request, as round 0 fixes them. *)
Definition round_settings (self : GenerativeModel)
    (generation_config : option (list (string * Json)))
    (safety_settings : option (list (string * string)))
    (tools_lib : option FunctionLibrary) (req : GenerateContentRequest) : Prop :=
  req_generation_config req
    = dict_update (_generation_config self) (to_generation_config_dict generation_config)
  /\ req_safety_settings req
     = dict_update (_safety_settings self) (to_easy_safety_dict safety_settings)
  /\ req_tools req = FunctionLibrary_to_proto <$> tools_lib.

(** ** A worked conversation *)

(** The callable [def f(a: int, b: str = "x")], which returns [a + 1]. *)
Definition f_ab : PyFunction :=
  mkPyFunction "f" None
    (Some [mkParam "a" POSITIONAL_OR_KEYWORD AnnInt None;
           mkParam "b" POSITIONAL_OR_KEYWORD AnnStr (Some (JStr "x"))])
    (fun args =>
       match dict_get "a" args with
       | Some (JNum n) => Ok (JNum (n + 1))
       | _ => Err TypeError
       end).

Definition f_ab_proto : FunctionDeclarationProto :=
  mkFunctionDeclarationProto "f" ""
    (JObj [("required", JList [JStr "a"]);
           ("type_", JStr "OBJECT");
           ("properties",
            JObj [("a", JObj [("type_", JStr "INTEGER")]);
                  ("b", JObj [("type_", JStr "STRING")])])]).

Definition f_ab_declaration : Declaration := CallableFunctionDeclaration f_ab_proto f_ab.

Definition example_tools : ToolsType := Tools_iterable [TT_single (FDT_callable f_ab)].

Definition example_library : FunctionLibrary :=
  mkFunctionLibrary
    [mkTool [f_ab_declaration] {["f" := f_ab_declaration]}]
    {["f" := f_ab_declaration]}.

Definition example_model : GenerativeModel :=
  mkGenerativeModel "models/gemini-pro" [] [] (Some example_library) None None.

Definition call_f : FunctionCall := mkFunctionCall "f" [("a", JNum 1)].

(** The two answers of the scripted collaborator: a function call, then
    plain text. *)
Definition answer_call : Response :=
  mkResponse [mkCandidate (mkContent "model" [PFunctionCall call_f]) STOP] 0 None.
Definition answer_text : Response :=
  mkResponse [mkCandidate (mkContent "model" [PText "two"]) STOP] 0 None.

Definition example_state : State :=
  mkState (mkChatSession example_model [] None None true)
    [Ok answer_call; Ok answer_text] [] [].

(** A session without automatic function calling that holds a pending turn
    which finished normally. *)
Definition pending_state : State :=
  mkState
    (mkChatSession example_model [] (Some (mkContent "user" [PText "hi"]))
       (Some answer_text) false)
    [Ok answer_text] [] [].

Definition answer_blocked : Response :=
  mkResponse [mkCandidate (mkContent "model" []) SAFETY] 0 None.

(** An idle session whose next answer is stopped for safety, and the
    session a streamed turn makes of it: the stopped answer is pending. *)
Definition before_broken_state : State :=
  mkState
    (mkChatSession example_model [mkContent "user" [PText "a"]; mkContent "model" [PText "b"]]
       None None false)
    [Ok answer_blocked] [] [].

Definition broken_state : State :=
  mkState
    (mkChatSession example_model [mkContent "user" [PText "a"]; mkContent "model" [PText "b"]]
       (Some (mkContent "user" [PText "hi"])) (Some answer_blocked) false)
    [] [] [].

(** Two tools, one per function. *)
Definition tool_f : Tool := mkTool [f_ab_declaration] {["f" := f_ab_declaration]}.

Definition g_declaration : Declaration :=
  FunctionDeclaration (mkFunctionDeclarationProto "g" "another function" JNull).

Definition tool_g : Tool := mkTool [g_declaration] {["g" := g_declaration]}.

(** ** Schemas *)

Definition is_raw_key (k : string) : bool := str_in k ["type"; "format"].

(** A raw [type] or [format] key anywhere in a JSON value. *)
Fixpoint has_raw_key (j : Json) : bool :=
  match j with
  | JObj kvs => existsb (fun kv => is_raw_key (fst kv) || has_raw_key (snd kv)) kvs
  | JList l => existsb has_raw_key l
  | _ => false
  end.

(** No raw [type] or [format] key in a schema, in the schema of its
    [items], or in the schema of any of its [properties], recursively. *)
Fixpoint wire_clean (j : Json) : bool :=
  match j with
  | JObj kvs =>
      negb (dict_has "type" kvs) && negb (dict_has "format" kvs)
      && match dict_find_map wire_clean "items" kvs with
         | Some b => b
         | None => true
         end
      && match dict_find_map
                 (fun properties =>
                    match properties with
                    | JObj props => forallb (fun kv => wire_clean (snd kv)) props
                    | _ => true
                    end) "properties" kvs with
         | Some b => b
         | None => true
         end
  | _ => true
  end.

Definition has_default (p : Param) : bool :=
  match p_default p with Some _ => true | None => false end.

(** The parameters [_generate_schema] infers as required. *)
Definition inferred_required (signature : list Param) : list string :=
  map p_name
    (List.filter (fun p => is_fixed_kind (p_kind p) && negb (has_default p)) signature).

(** ** The script of the collaborator *)

(** [m] takes nothing from the script. *)
Definition keeps_script {A} (m : M A) : Prop :=
  forall st, script (snd (m st)) = script st.

(** ** Further operations of the modelled classes *)

(** [Tool.__call__] *)
Definition Tool_call (self : Tool) (fc : FunctionCall) : M (option FunctionResponse) :=
  declaration ← lift (Tool_getitem self (fc_name fc));
  match declaration with
  | CallableFunctionDeclaration _ function =>
      record_invocation function (fc_args fc);;
      response ← lift (CallableFunctionDeclaration_call function fc);
      mret (Some response)
  | _ => mret None
  end.

(** [ChatSession.__copy__]: the history is read (and so committed) on the
    original, and the copy is built without the flag for automatic function
    calling, which therefore takes its default. *)
Definition copy : M ChatSession :=
  self ← get_session;
  h ← history;
  lift (ChatSession_init (model self) (VList (map VContent h)) false).

(** ["/" in s] *)
Fixpoint has_slash (s : string) : bool :=
  match s with
  | EmptyString => false
  | String c s' => Ascii.eqb c "/" || has_slash s'
  end.

(** [GenerativeModel.__init__] *)
Definition GenerativeModel_init (model_name : string)
    (safety_settings : option (list (string * string)))
    (generation_config : option (list (string * Json)))
    (tools : option FunctionLibraryType) (tool_config : option ToolConfigType)
    (system_instructions : option PyVal) : result GenerativeModel :=
  let model_name := if has_slash model_name then model_name else String.append "models/" model_name in
  let safety_settings := to_easy_safety_dict safety_settings in
  let generation_config := to_generation_config_dict generation_config in
  tools ← to_function_library tools;
  tool_config ←
    match tool_config with
    | None => Ok None
    | Some c => Some <$> to_tool_config c
    end;
  system_instructions ←
    match system_instructions with
    | None => Ok None
    | Some c => Some <$> to_content c
    end;
  Ok (mkGenerativeModel model_name safety_settings generation_config tools tool_config
        system_instructions).

(** What a request asks for: at most one candidate. *)
Definition at_most_one_candidate (generation_config : list (string * Json)) : Prop :=
  match dict_get "candidate_count" generation_config with
  | None => True
  | Some (JNum n) => (n <= 1)%Z
  | Some _ => False
  end.

(** The part the loop sends back for a function call answered with [value]. *)
Definition function_response_part (fc : FunctionCall) (value : Json) : Part :=
  PFunctionResponse (mkFunctionResponse (fc_name fc) (response_mapping value)).

(** The coerced parts of a content dictionary: the loop of
    [convert_if_mapping] that finds the ["parts"] entry, on its own. *)
Fixpoint content_parts_of (l : list (string * PyVal)) : result (list Part) :=
  match l with
  | [] => Err KeyError
  | (k, v) :: l' =>
      if String.eqb "parts" k then parts_of_entry convert_if_mapping v
      else content_parts_of l'
  end.

(** A response with two function calls, and a library in which only the
    first of them has a callable. *)
Definition answer_two_calls : Response :=
  mkResponse
    [mkCandidate (mkContent "model"
                    [PFunctionCall call_f; PFunctionCall (mkFunctionCall "g" [])]) STOP]
    0 None.

Definition library_fg : FunctionLibrary :=
  mkFunctionLibrary [tool_f; tool_g]
    (<["g" := g_declaration]> {["f" := f_ab_declaration]}).

(** The keys [_rename_schema_fields] reads or writes. *)
Definition reserved_schema_keys : list string :=
  ["type"; "format"; "type_"; "format_"; "items"; "properties"].

(** [renamed j j']: [j'] is the schema [j] in wire names.  In a schema
    dictionary a string [type] has become [type_] in upper case and a
    [format] has become [format_]; neither raw key is left; the schema under
    [items] and the schema of every entry of [properties] have been renamed
    in the same way, the properties keeping their names and their order;
    and every other key has kept its value.  An absent schema stays
    absent. *)
Inductive renamed : Json -> Json -> Prop :=
  | renamed_absent : renamed JNull JNull
  | renamed_schema (kvs out : list (string * Json)) :
      (forall s, dict_get "type" kvs = Some (JStr s) ->
                 dict_get "type_" out = Some (JStr (upper s))) ->
      (forall v, dict_get "format" kvs = Some v -> v <> JNull ->
                 dict_get "format_" out = Some v) ->
      dict_get "type" out = None ->
      dict_get "format" out = None ->
      (forall items, dict_get "items" kvs = Some items -> items <> JNull ->
                     exists items', dict_get "items" out = Some items'
                                    /\ renamed items items') ->
      (forall props, dict_get "properties" kvs = Some (JObj props) ->
                     exists props',
                       dict_get "properties" out = Some (JObj props')
                       /\ Forall2 (fun kv kv' => fst kv = fst kv'
                                                 /\ renamed (snd kv) (snd kv'))
                            props props') ->
      (forall k, str_in k reserved_schema_keys = false ->
                 dict_get k out = dict_get k kvs) ->
      renamed (JObj kvs) (JObj out).

(** * Properties *)

(** ** The coercers, as the source writes them *)

(** [to_blob] is its [Mapping] step followed by its type tests. *)
Lemma to_blob_unfold (blob : PyVal) :
  to_blob blob = (blob ← convert_if_mapping blob; blob_of_object blob).
Proof. reflexivity. Qed.

(** What [_convert_dict] returns is never a dictionary. *)
Lemma convert_if_mapping_not_dict (x y : PyVal) :
  convert_if_mapping x = Ok y -> is_mapping y = false.
Proof.
  destruct x; simpl; try (intros [= <-]; reflexivity).
  destruct (is_content_dict kvs).
  - match goal with |- context [mbind _ ?m] => destruct m as [ps|e] end; simpl; [|discriminate].
    destruct (glm_Content ps kvs); simpl; [intros [= <-]; reflexivity | discriminate].
  - destruct (is_part_dict kvs).
    + destruct kvs as [|[k v] [|? ?]]; try discriminate.
      destruct (String.eqb k "inline_data").
      { destruct (to_blob_open convert_if_mapping v); simpl;
          [intros [= <-]; reflexivity | discriminate]. }
      destruct (String.eqb k "file_data").
      { destruct (to_file_data v); simpl; [intros [= <-]; reflexivity | discriminate]. }
      destruct (glm_Part_field k v); simpl; [intros [= <-]; reflexivity | discriminate].
    + destruct (is_blob_dict kvs); [|discriminate].
      destruct (glm_Blob kvs); simpl; [intros [= <-]; reflexivity | discriminate].
Qed.

(** [to_part] is its [Mapping] step followed by its type tests, the last of
    which hands the value to [to_blob]. *)
Lemma to_part_unfold (part : PyVal) :
  to_part part =
    (part ← convert_if_mapping part;
     match part with
     | VPart p => Ok p
     | VStr s => Ok (PText s)
     | VFileData fd => Ok (PFileData fd)
     | VFile f => PFileData <$> to_file_data (VFile f)
     | VFunctionCall fc => Ok (PFunctionCall fc)
     | _ => PInlineData <$> to_blob part
     end).
Proof.
  unfold to_part, to_part_open, to_blob, to_blob_open.
  destruct (convert_if_mapping part) as [v|e] eqn:Hc; [|reflexivity].
  apply convert_if_mapping_not_dict in Hc.
  destruct v; try reflexivity; discriminate.
Qed.

(** ** The part coercer on function calls and function responses *)

(** C4. [to_part] maps a canonical function call to the [function_call]
    variant, but a canonical function response never reaches the
    [function_response] variant: the test that should recognise it tests for
    [glm.FunctionCall] a second time, so the value falls through to the blob
    fallback and [to_blob] rejects it with [TypeError].  The dictionary form
    [{"function_response": fr}] does produce the variant. *)
Theorem to_part_function_response (fr : FunctionResponse) (fc : FunctionCall) :
  to_part (VFunctionResponse fr) = Err TypeError
  /\ to_part (VFunctionCall fc) = Ok (PFunctionCall fc)
  /\ to_part (VDict [("function_response", VFunctionResponse fr)])
     = Ok (PFunctionResponse fr).
Proof. repeat split. Qed.

(** ** [to_contents]: a list of messages or the parts of one message *)

Lemma strict_to_content_shape (x : PyVal) (c : Content) :
  strict_to_content x = Ok c -> is_strict_shape x = true.
Proof.
  unfold strict_to_content.
  destruct x; simpl; try discriminate; try reflexivity.
  destruct (is_content_dict kvs); [reflexivity|].
  destruct (is_part_dict kvs).
  - destruct kvs as [|[k v] [|? ?]]; try discriminate.
    destruct (String.eqb k "inline_data").
    { destruct (to_blob_open convert_if_mapping v); discriminate. }
    destruct (String.eqb k "file_data").
    { destruct (to_file_data v); discriminate. }
    destruct (glm_Part_field k v); discriminate.
  - destruct (is_blob_dict kvs); [|discriminate].
    destruct (glm_Blob kvs); discriminate.
Qed.

(** A value that is neither a dictionary nor a [Content] (a bare string, a
    part, a nested list, ...) fails the strict conversion with [TypeError]. *)
Lemma strict_to_content_object (x : PyVal) :
  is_mapping x = false -> is_strict_shape x = false ->
  strict_to_content x = Err TypeError.
Proof. destruct x; simpl; intros; try reflexivity; discriminate. Qed.

Lemma mapM_result_Ok {A B} (f : A -> result B) (xs : list A) (ys : list B) :
  Forall2 (fun x y => f x = Ok y) xs ys -> mapM f xs = Ok ys.
Proof.
  induction 1 as [|x y xs ys Hxy _ IH]; [reflexivity|].
  cbn [mapM]. rewrite Hxy. simpl. rewrite IH. reflexivity.
Qed.

Lemma mapM_result_inv {A B} (f : A -> result B) (xs : list A) (ys : list B) :
  mapM f xs = Ok ys -> Forall2 (fun x y => f x = Ok y) xs ys.
Proof.
  revert ys. induction xs as [|x xs IH]; intros ys.
  - intros [= <-]. constructor.
  - cbn [mapM]. destruct (f x) as [y|e] eqn:Hx; [|discriminate]. simpl.
    destruct (mapM f xs) as [ys'|e]; [|discriminate]. simpl.
    intros [= <-]. constructor; auto.
Qed.

(** A list comprehension stops at the first element that raises. *)
Lemma mapM_result_Err {A B} (f : A -> result B) (pre post : list A) (x : A) (e : Exn) :
  Forall (fun y => is_Ok (f y) = true) pre -> f x = Err e ->
  mapM f (pre ++ x :: post) = Err e.
Proof.
  induction 1 as [|y pre Hy _ IH]; intros Hx.
  - cbn [app mapM]. rewrite Hx. reflexivity.
  - cbn [app mapM]. destruct (f y); [|discriminate]. simpl.
    rewrite (IH Hx). reflexivity.
Qed.

(** C3, as the code has it.  For a list [xs]: when the strict conversion of
    every element succeeds, the result is these contents, one per element;
    when the first element whose strict conversion fails raises [TypeError]
    (as every element does that is neither a dictionary nor a [Content]),
    the whole list goes to [to_content] as the parts of one message; any
    other exception of that element ([KeyError] for a dictionary of no known
    shape) is raised as it is, without retrying.  A strict conversion
    succeeds only on a [Content] or a dictionary with a ["parts"] key. *)
Theorem to_contents_iterable :
  (forall xs cs,
      Forall2 (fun x c => strict_to_content x = Ok c) xs cs ->
      to_contents (VList xs) = Ok cs /\ length cs = length xs
      /\ Forall (fun x => is_strict_shape x = true) xs)
  /\ (forall pre x post e,
      Forall (fun y => is_Ok (strict_to_content y) = true) pre ->
      strict_to_content x = Err e ->
      to_contents (VList (pre ++ x :: post)) =
        match e with
        | TypeError => c ← to_content (VList (pre ++ x :: post)); Ok [c]
        | _ => Err e
        end)
  /\ (forall x, is_mapping x = false -> is_strict_shape x = false ->
      strict_to_content x = Err TypeError)
  /\ to_contents (VList [VDict [("parts", VList [VStr "a"])];
                         VDict [("parts", VList [VStr "b"])]])
     = Ok [mkContent "" [PText "a"]; mkContent "" [PText "b"]]
  /\ to_contents (VList [VStr "a"; VStr "b"])
     = Ok [mkContent "" [PText "a"; PText "b"]].
Proof.
  split; [|split; [|split; [|split; reflexivity]]].
  - intros xs cs H. split; [|split].
    + unfold to_contents. cbn [is_mapping is_iterable_not_str].
      rewrite (mapM_result_Ok _ _ _ H). reflexivity.
    + symmetry. eapply Forall2_length; eauto.
    + induction H; constructor; eauto using strict_to_content_shape.
  - intros pre x post e Hpre Hx.
    unfold to_contents. cbn [is_mapping is_iterable_not_str].
    rewrite (mapM_result_Err _ _ _ _ _ Hpre Hx).
    destruct e; reflexivity.
  - apply strict_to_content_object.
Qed.

(** The amended statement at work: a bare string after a content dictionary
    sends the whole list to [to_content]. *)
Lemma to_contents_iterable_witness :
  to_contents (VList ([VDict [("parts", VList [VStr "a"])]] ++ VStr "raw" :: []))
  = (c ← to_content (VList ([VDict [("parts", VList [VStr "a"])]] ++ VStr "raw" :: []));
     Ok [c]).
Proof.
  apply (proj1 (proj2 to_contents_iterable)
           [VDict [("parts", VList [VStr "a"])]] (VStr "raw") [] TypeError).
  - repeat constructor.
  - reflexivity.
Defined.

(** C3, as the specification states it, fails on both sides.  In the first
    list the second element is neither a [Content] nor a dictionary with a
    ["parts"] key, so it fails the strict check, yet the list is not handed
    to [to_content]: the [KeyError] of [_convert_dict] is not a [TypeError]
    and leaves [to_contents] at once, where [to_content] would raise
    [TypeError] on the first element.  In the second list the only element
    is a dictionary with a ["parts"] key, yet the result is no sequence of
    contents: its part cannot be coerced, and the [TypeError] of that sends
    the list to [to_content], which fails the same way. *)
Lemma to_contents_fallback_counterexample :
  (let xs := [VContent (mkContent "user" [PText "a"]); VDict [("foo", VInt 1)]] in
   Exists (fun x => is_strict_shape x = false) xs
   /\ to_contents (VList xs) = Err KeyError
   /\ (c ← to_content (VList xs); Ok [c]) = Err TypeError
   /\ to_contents (VList xs) <> (c ← to_content (VList xs); Ok [c]))
  /\ (let ys := [VDict [("parts", VList [VInt 42])]] in
      Forall (fun y => is_strict_shape y = true) ys
      /\ to_contents (VList ys) = Err TypeError).
Proof.
  cbv zeta. split; [split; [|split; [|split]] | split].
  - right. left. reflexivity.
  - reflexivity.
  - reflexivity.
  - discriminate.
  - repeat constructor.
  - reflexivity.
Qed.

(** ** The function library *)

(** C8. For a function call whose name the library resolves: a declaration
    that is not callable yields [None], no exception and no invocation; a
    callable one is invoked once with the arguments of the call, a return
    value that is not a dictionary is wrapped as [{"result": value}], a
    dictionary is passed on as it is, and the result is a part whose
    [function_response] carries the name of the call and that mapping. *)
Theorem FunctionLibrary_call_spec (lib : FunctionLibrary) (fc : FunctionCall)
    (declaration : Declaration) (st : State) :
  lib_index lib !! fc_name fc = Some declaration ->
  FunctionLibrary_getitem lib (fc_name fc) = Ok declaration
  /\ (callable declaration = false ->
      FunctionLibrary_call lib fc st = (Ok None, st))
  /\ (forall p function value,
      declaration = CallableFunctionDeclaration p function ->
      f_call function (fc_args fc) = Ok value ->
      exists response,
        FunctionLibrary_call lib fc st =
          (Ok (Some (PFunctionResponse (mkFunctionResponse (fc_name fc) response))),
           mkState (session st) (script st) (requests st)
             (invocations st ++ [(f_name function, fc_args fc)]))
        /\ (forall d, value = JObj d -> response = d)
        /\ ((forall d, value <> JObj d) -> response = [("result", value)])).
Proof.
  intros Hidx.
  assert (Hget : FunctionLibrary_getitem lib (fc_name fc) = Ok declaration)
    by (unfold FunctionLibrary_getitem; rewrite Hidx; reflexivity).
  split; [exact Hget|split].
  - intros Hnc. unfold FunctionLibrary_call, mbind, M_bind, lift.
    rewrite Hget. destruct declaration; try discriminate; reflexivity.
  - intros p function value -> Hcall.
    unfold FunctionLibrary_call, mbind, M_bind, lift, record_invocation.
    rewrite Hget. cbn.
    unfold CallableFunctionDeclaration_call. rewrite Hcall. cbn.
    eexists. split; [reflexivity|split].
    + intros d ->. reflexivity.
    + intros Hnd. destruct value; try reflexivity. exfalso. eapply Hnd; reflexivity.
Qed.

(** ** Rewind and the broken conversation *)

Lemma list_pop_short {A} (l : list A) : length l < 2 -> list_pop l (-2) = Err IndexError.
Proof. destruct l as [|a [|b l]]; simpl; intros; try reflexivity; lia. Qed.

(** C10. On an idle session whose committed history has fewer than two
    entries, [rewind] raises [IndexError]: no pair is returned, and the
    session and the world are left exactly as they were. *)
Theorem rewind_underflow (st : State) :
  _last_received (session st) = None ->
  length (_history (session st)) < 2 ->
  rewind st = (Err IndexError, st).
Proof.
  intros Hidle Hlen.
  unfold rewind, mbind, M_bind, get_session, lift.
  rewrite Hidle, (list_pop_short _ Hlen). reflexivity.
Qed.

Lemma rewind_underflow_witness :
  rewind (mkState (mkChatSession (mkGenerativeModel "models/gemini-pro" [] [] None None None)
                     [mkContent "user" [PText "hello"]] None None false) [] [] [])
  = (Err IndexError,
     mkState (mkChatSession (mkGenerativeModel "models/gemini-pro" [] [] None None None)
                [mkContent "user" [PText "hello"]] None None false) [] [] []).
Proof. apply rewind_underflow; simpl; [reflexivity | lia]. Defined.

(** [l.pop(-k)] removes and returns the [k]-th element from the end. *)
Lemma list_pop_from_end {A} (h : list A) (x : A) (t : list A) :
  list_pop (h ++ x :: t) (- Z.of_nat (S (length t))) = Ok (x, h ++ t).
Proof.
  unfold list_pop. rewrite length_app. cbn [length].
  destruct (Z.ltb_spec (- Z.of_nat (S (length t))) 0); [|lia].
  replace (- Z.of_nat (S (length t)) + Z.of_nat (length h + S (length t)))%Z
    with (Z.of_nat (length h)) by lia.
  destruct (Z.ltb_spec (Z.of_nat (length h)) 0); [lia|].
  destruct (Z.leb_spec (Z.of_nat (length h + S (length t))) (Z.of_nat (length h))); [lia|].
  rewrite Nat2Z.id. cbn [orb].
  rewrite lookup_app_r by lia. rewrite Nat.sub_diag. cbn.
  rewrite delete_middle. reflexivity.
Qed.

(** With two entries or more, an idle [rewind] returns the last two and
    leaves the rest. *)
Lemma rewind_idle_pops_pair (st : State) (h : list Content) (a b : Content) :
  _last_received (session st) = None ->
  _history (session st) = h ++ [a; b] ->
  rewind st =
    (Ok (Some a, b),
     mkState (set_history h (session st)) (script st) (requests st) (invocations st)).
Proof.
  intros Hidle Hh.
  assert (Hpop2 : list_pop (h ++ [a; b]) (-2) = Ok (a, h ++ [b]))
    by apply (list_pop_from_end h a [b]).
  assert (Hpop1 : list_pop (h ++ [b]) (-1) = Ok (b, h)).
  { pose proof (list_pop_from_end h b []) as H. rewrite app_nil_r in H. exact H. }
  unfold rewind, mbind, M_bind, get_session, lift, set_session.
  rewrite Hidle, Hh, Hpop2. cbn. rewrite Hpop1. reflexivity.
Qed.

Lemma history_abnormal (st : State) (last : Response) (c : Candidate) :
  _last_received (session st) = Some last ->
  candidates last = [c] ->
  normal_finish (finish_reason c) = false ->
  history st = (Err BrokenResponseError, mark_broken st last).
Proof.
  intros Hl Hc Hf.
  unfold history, mbind, M_bind, get_session, lift, list_index.
  rewrite Hl, Hc. cbn. rewrite Hf. cbn.
  unfold mark_broken, raise. rewrite Hc. reflexivity.
Qed.

Lemma mark_broken_idem (st : State) (last : Response) :
  mark_broken (mark_broken st last)
    (mkResponse (candidates last) (block_reason last) (Some StopCandidateException))
  = mark_broken st last.
Proof. reflexivity. Qed.

Lemma after_reads_abnormal (n : nat) (st : State) (last : Response) (c : Candidate) :
  _last_received (session st) = Some last ->
  candidates last = [c] ->
  normal_finish (finish_reason c) = false ->
  after_reads (S n) st = mark_broken st last.
Proof.
  intros Hl Hc Hf. induction n as [|n IH].
  - unfold after_reads. cbn. rewrite (history_abnormal st last c); auto.
  - change (after_reads (S (S n)) st) with (snd (history (after_reads (S n) st))).
    rewrite IH.
    rewrite (history_abnormal (mark_broken st last)
               (mkResponse (candidates last) (block_reason last)
                  (Some StopCandidateException)) c); auto.
Qed.

(** C5. While a session holds a pending turn whose single candidate finished
    abnormally, every read of [history] raises [BrokenResponseError], however
    many reads came before, and converts the pending response into a stored
    error: after the read the session holds the same response with
    [StopCandidateException] in its [_error] slot, and nothing else of the
    session or the world has changed.  [rewind] then returns the pending
    pair and clears it, and the next read of [history] succeeds with the
    committed history of before the turn, which no step has changed. *)
Theorem broken_conversation_until_rewind (st : State) (last : Response) (c : Candidate)
    (n : nat) :
  _last_received (session st) = Some last ->
  candidates last = [c] ->
  normal_finish (finish_reason c) = false ->
  fst (history (after_reads n st)) = Err BrokenResponseError
  /\ snd (history (after_reads n st)) = mark_broken st last
  /\ (exists stored,
        _last_received (session (snd (history (after_reads n st)))) = Some stored
        /\ _error stored = Some StopCandidateException
        /\ candidates stored = candidates last
        /\ block_reason stored = block_reason last)
  /\ _last_sent (session (snd (history (after_reads n st)))) = _last_sent (session st)
  /\ _history (session (snd (history (after_reads n st)))) = _history (session st)
  /\ _history (session (after_reads n st)) = _history (session st)
  /\ exists st',
      rewind (after_reads n st) = (Ok (_last_sent (session st), content c), st')
      /\ st' = clear_pending st
      /\ history st' = (Ok (_history (session st)), st')
      /\ _history (session st') = _history (session st)
      /\ _last_received (session st') = None.
Proof.
  intros Hl Hc Hf.
  assert (Hn : after_reads n st = st \/ after_reads n st = mark_broken st last).
  { destruct n; [left; reflexivity | right; eapply after_reads_abnormal; eauto]. }
  assert (Hread : history (after_reads n st) = (Err BrokenResponseError, mark_broken st last)).
  { destruct Hn as [-> | ->].
    - apply (history_abnormal st last c); assumption.
    - rewrite (history_abnormal (mark_broken st last)
                 (mkResponse (candidates last) (block_reason last)
                    (Some StopCandidateException)) c) by auto.
      reflexivity. }
  rewrite Hread. cbn [fst snd].
  split; [reflexivity|]. split; [reflexivity|].
  split; [eexists; repeat split|]. split; [reflexivity|]. split; [reflexivity|].
  destruct Hn as [-> | ->].
  - split; [reflexivity|]. exists (clear_pending st).
    unfold rewind, history, mbind, M_bind, get_session, lift, list_index, set_session.
    rewrite Hl, Hc. cbn. auto.
  - split; [reflexivity|]. exists (clear_pending st).
    unfold rewind, history, mbind, M_bind, get_session, lift, list_index, set_session.
    cbn. rewrite Hc. cbn. auto.
Qed.

(** ** [send_message] and the state it is called in *)

Lemma history_idle (st : State) :
  _last_received (session st) = None ->
  history st = (Ok (_history (session st)), st).
Proof.
  intros H. unfold history, mbind, M_bind, get_session. rewrite H. reflexivity.
Qed.

Lemma history_pending_normal (st : State) (last : Response) (c : Candidate)
    (cs : list Candidate) (sent : Content) :
  _last_received (session st) = Some last ->
  _last_sent (session st) = Some sent ->
  candidates last = c :: cs ->
  normal_finish (finish_reason c) = true ->
  _error last = None ->
  history st =
    (Ok (_history (session st) ++ [sent; default_role _MODEL_ROLE (content c)]),
     commit st sent (content c)).
Proof.
  intros Hl Hs Hc Hf He.
  unfold history, mbind, M_bind, get_session, lift, list_index.
  rewrite Hl, Hc. cbn. rewrite Hf. cbn. rewrite He, Hs. reflexivity.
Qed.


Lemma send_message_unfold (st : State) (content_ : PyVal)
    (generation_config : option (list (string * Json)))
    (safety_settings : option (list (string * string)))
    (stream : bool)
    (tools : option FunctionLibraryType) (tool_config : option ToolConfigType) :
  send_message content_ generation_config safety_settings stream tools tool_config st =
    if enable_automatic_function_calling (session st) && stream
    then (Err NotImplementedError, st)
    else
      match _get_tools_lib (model (session st)) tools with
      | Err e => (Err e, st)
      | Ok tools_lib =>
          match to_content content_ with
          | Err e => (Err e, st)
          | Ok content =>
              match history st with
              | (Err e, st') => (Err e, st')
              | (Ok h, st') =>
                  send_message_rest (session st) tools_lib
                    (default_role _USER_ROLE content) h generation_config
                    safety_settings stream tool_config st'
              end
          end
      end.
Proof.
  unfold send_message, mbind, M_bind, get_session, lift. cbn beta.
  destruct (enable_automatic_function_calling (session st) && stream); [reflexivity|].
  destruct (_get_tools_lib (model (session st)) tools); [|reflexivity].
  destruct (to_content content_); [|reflexivity].
  destruct (history st) as [[h|e] st']; reflexivity.
Qed.

(** ** One exchange with the collaborator *)

Lemma strict_to_content_Content (c : Content) : strict_to_content (VContent c) = Ok c.
Proof. reflexivity. Qed.

(** A history of canonical contents passes [to_contents] unchanged. *)
Lemma to_contents_history (h : list Content) :
  to_contents (VList (map VContent h)) = Ok h.
Proof.
  unfold to_contents. cbn [is_mapping is_iterable_not_str].
  rewrite (mapM_result_Ok strict_to_content (map VContent h) h); [reflexivity|].
  induction h; constructor; auto.
Qed.

Lemma truthy_history (h : list Content) (c : Content) :
  truthy (VList (map VContent (h ++ [c]))) = true.
Proof. cbn. rewrite length_map, length_app. cbn. destruct (length h); reflexivity. Qed.

Lemma _prepare_request_history (self : GenerativeModel) (h : list Content) (c : Content)
    (generation_config : list (string * Json))
    (safety_settings : option (list (string * string)))
    (lib : FunctionLibrary) (tool_config : option ToolConfigType) :
  _prepare_request self (VList (map VContent (h ++ [c]))) (Some generation_config)
    safety_settings (Some (FLT_library lib)) tool_config
  = (tc ← resolve_tool_config self tool_config;
     Ok (request_for self (h ++ [c]) generation_config safety_settings (Some lib) tc)).
Proof.
  unfold _prepare_request. rewrite truthy_history. cbn [negb].
  cbn [_get_tools_lib to_function_library mbind result_bind fmap option_fmap option_map].
  fold (resolve_tool_config self tool_config).
  destruct (resolve_tool_config self tool_config); [|reflexivity].
  cbn [mbind result_bind]. rewrite to_contents_history. reflexivity.
Qed.

Lemma generate_content_history (self : GenerativeModel) (h : list Content) (c : Content)
    (generation_config : list (string * Json))
    (safety_settings : option (list (string * string))) (stream : bool)
    (lib : FunctionLibrary) (tool_config : option ToolConfigType)
    (tc : option ToolConfig) (r : result Response) (rest : list (result Response))
    (st : State) :
  resolve_tool_config self tool_config = Ok tc ->
  script st = r :: rest ->
  generate_content self (VList (map VContent (h ++ [c]))) (Some generation_config)
    safety_settings stream (Some (FLT_library lib)) tool_config st
  = (r, mkState (session st) rest
          (requests st ++ [request_for self (h ++ [c]) generation_config
                             safety_settings (Some lib) tc])
          (invocations st)).
Proof.
  intros Htc Hs.
  unfold generate_content, mbind, M_bind, lift.
  rewrite _prepare_request_history, Htc. cbn [mbind result_bind].
  unfold client_generate_content. rewrite Hs. reflexivity.
Qed.

Lemma generate_content_unfold (self : GenerativeModel) (contents : PyVal)
    (generation_config : option (list (string * Json)))
    (safety_settings : option (list (string * string))) (stream : bool)
    (tools : option FunctionLibraryType) (tool_config : option ToolConfigType)
    (st : State) :
  generate_content self contents generation_config safety_settings stream tools
    tool_config st
  = match _prepare_request self contents generation_config safety_settings tools
            tool_config with
    | Err e => (Err e, st)
    | Ok request => client_generate_content request st
    end.
Proof.
  unfold generate_content, mbind, M_bind, lift.
  destruct (_prepare_request _ _ _ _ _ _); reflexivity.
Qed.

Lemma _prepare_request_contents (self : GenerativeModel) (h : list Content)
    (generation_config : option (list (string * Json)))
    (safety_settings : option (list (string * string)))
    (tools : option FunctionLibraryType) (tool_config : option ToolConfigType)
    (request : GenerateContentRequest) :
  _prepare_request self (VList (map VContent h)) generation_config safety_settings tools
    tool_config = Ok request ->
  req_contents request = h /\ req_model request = _model_name self
  /\ req_system_instructions request = _system_instructions self.
Proof.
  unfold _prepare_request. destruct (negb (truthy _)); [discriminate|].
  destruct (_get_tools_lib self tools); [|discriminate]. cbn [mbind result_bind].
  match goal with |- context [mbind _ ?m] => destruct m as [tc|e] end; [|discriminate].
  cbn [mbind result_bind]. rewrite to_contents_history. cbn [mbind result_bind].
  intros [= <-]. repeat split.
Qed.

(** ** The automatic function-calling loop *)

(** One iteration of the loop, outcome by outcome. *)
Lemma afc_loop_unfold (fuel : nat) (self_model : GenerativeModel) (response : Response)
    (h : list Content) (generation_config : list (string * Json))
    (safety_settings : option (list (string * string))) (stream : bool)
    (lib : FunctionLibrary) (st : State) :
  afc_loop (S fuel) self_model response h generation_config safety_settings stream lib st
  = match _get_function_calls response with
    | Err e => (Err e, st)
    | Ok [] => (Ok (h, response), st)
    | Ok (fc :: fcs) =>
        match all_callable lib (fc :: fcs) with
        | Err e => (Err e, st)
        | Ok false => (Ok (h, response), st)
        | Ok true =>
            match list_index (candidates response) 0 with
            | Err e => (Err e, st)
            | Ok c0 =>
                match invoke_all lib (fc :: fcs) st with
                | (Err e, st1) => (Err e, st1)
                | (Ok function_response_parts, st1) =>
                    let h' := (h ++ [content c0])
                              ++ [mkContent _USER_ROLE function_response_parts] in
                    match generate_content self_model (VList (map VContent h'))
                            (Some generation_config) safety_settings stream
                            (Some (FLT_library lib)) None st1 with
                    | (Err e, st2) => (Err e, st2)
                    | (Ok r, st2) =>
                        match _check_response r stream with
                        | Err e => (Err e, st2)
                        | Ok _ =>
                            afc_loop fuel self_model r h' generation_config
                              safety_settings stream lib st2
                        end
                    end
                end
            end
        end
    end.
Proof.
  cbn [afc_loop]. unfold mbind, M_bind, lift. cbn beta.
  destruct (_get_function_calls response) as [[|fc fcs]|e]; try reflexivity.
  destruct (all_callable lib (fc :: fcs)) as [[|]|e]; reflexivity.
Qed.

(** A response without function calls ends the loop at once. *)
Lemma afc_loop_done (fuel : nat) (self_model : GenerativeModel) (response : Response)
    (c : Candidate) (h : list Content) (generation_config : list (string * Json))
    (safety_settings : option (list (string * string))) (stream : bool)
    (lib : FunctionLibrary) (st : State) :
  candidates response = [c] ->
  function_calls_of (parts (content c)) = [] ->
  afc_loop (S fuel) self_model response h generation_config safety_settings stream lib st
  = (Ok (h, response), st).
Proof.
  intros Hc Hf. rewrite afc_loop_unfold.
  unfold _get_function_calls. rewrite Hc, Hf. reflexivity.
Qed.

Lemma invoke_all_single (lib : FunctionLibrary) (fc : FunctionCall)
    (p : FunctionDeclarationProto) (function : PyFunction) (value : Json) (st : State) :
  lib_index lib !! fc_name fc = Some (CallableFunctionDeclaration p function) ->
  f_call function (fc_args fc) = Ok value ->
  invoke_all lib [fc] st
  = (Ok [PFunctionResponse (mkFunctionResponse (fc_name fc) (response_mapping value))],
     mkState (session st) (script st) (requests st)
       (invocations st ++ [(f_name function, fc_args fc)])).
Proof.
  intros Hidx Hcall.
  unfold invoke_all. cbn [mapM].
  unfold FunctionLibrary_call, FunctionLibrary_getitem, record_invocation,
    CallableFunctionDeclaration_call.
  unfold mbind, M_bind, lift.
  rewrite Hidx. cbn. rewrite Hcall. reflexivity.
Qed.

(** One round of the loop on a response with exactly one function call that
    the library resolves to a callable: the candidate content and one
    [user] content with the function response are appended, the callable is
    invoked once, and one request is issued. *)
Lemma afc_loop_round (fuel : nat) (self_model : GenerativeModel) (response : Response)
    (c : Candidate) (h : list Content) (generation_config : list (string * Json))
    (safety_settings : option (list (string * string))) (stream : bool)
    (lib : FunctionLibrary) (st : State)
    (fc : FunctionCall) (p : FunctionDeclarationProto) (function : PyFunction)
    (value : Json) (r : Response) (rest : list (result Response)) :
  candidates response = [c] ->
  function_calls_of (parts (content c)) = [fc] ->
  lib_index lib !! fc_name fc = Some (CallableFunctionDeclaration p function) ->
  f_call function (fc_args fc) = Ok value ->
  script st = Ok r :: rest ->
  _check_response r stream = Ok tt ->
  let send :=
    mkContent _USER_ROLE
      [PFunctionResponse (mkFunctionResponse (fc_name fc) (response_mapping value))] in
  afc_loop (S fuel) self_model response h generation_config safety_settings stream lib st
  = afc_loop fuel self_model r ((h ++ [content c]) ++ [send]) generation_config
      safety_settings stream lib
      (mkState (session st) rest
         (requests st ++ [request_for self_model ((h ++ [content c]) ++ [send])
                            generation_config safety_settings (Some lib)
                            (_tool_config self_model)])
         (invocations st ++ [(f_name function, fc_args fc)])).
Proof.
  intros Hc Hf Hidx Hcall Hs Hchk send.
  rewrite afc_loop_unfold.
  unfold _get_function_calls. rewrite Hc, Hf.
  cbn [all_callable]. unfold FunctionLibrary_getitem at 1. rewrite Hidx.
  cbn [mbind result_bind callable list_index lookup list_lookup].
  rewrite (invoke_all_single lib fc p function value st Hidx Hcall).
  rewrite (generate_content_history self_model (h ++ [content c]) send generation_config
             safety_settings stream lib None (_tool_config self_model) (Ok r) rest);
    [|reflexivity|exact Hs].
  rewrite Hchk. reflexivity.
Qed.

Lemma unpack_last_snoc {A} (l : list A) (x : A) : unpack_last (l ++ [x]) = Ok (l, x).
Proof.
  induction l as [|a l IH]; [reflexivity|].
  cbn [app unpack_last]. rewrite IH.
  destruct (l ++ [x]) eqn:E; [destruct l; discriminate|reflexivity].
Qed.

Lemma history_setter_history (h : list Content) (st : State) :
  history_setter (VList (map VContent h)) st
  = (Ok tt, mkState (set_last None None (set_history h (session st)))
              (script st) (requests st) (invocations st)).
Proof.
  unfold history_setter, mbind, M_bind, lift. rewrite to_contents_history. reflexivity.
Qed.

(** C1. An idle session with automatic function calling enabled, a library
    that resolves the call of the model to a callable, and a collaborator
    that answers first with a single candidate holding exactly one function
    call and then with a single plain-text candidate: [send_message] returns
    the second response, has invoked the callable exactly once, has issued
    exactly two requests (the second one carrying the working history with
    the candidate content and exactly one added [user] content that holds
    the function response), and the history read afterwards is the old
    history followed by the sent content, the function-call content, the
    function-response content and the final model content. *)
Theorem afc_round_trip (st : State) (content_ : PyVal) (coerced : Content)
    (generation_config : option (list (string * Json)))
    (safety_settings : option (list (string * string)))
    (tools : option FunctionLibraryType) (tool_config : option ToolConfigType)
    (tc : option ToolConfig) (lib : FunctionLibrary)
    (fc : FunctionCall) (p : FunctionDeclarationProto) (function : PyFunction)
    (value : Json) (k1 k2 : Content) (fr1 fr2 : FinishReason)
    (rest : list (result Response)) :
  let r1 := mkResponse [mkCandidate k1 fr1] 0 None in
  let r2 := mkResponse [mkCandidate k2 fr2] 0 None in
  let sent := default_role _USER_ROLE coerced in
  let send :=
    mkContent _USER_ROLE
      [PFunctionResponse (mkFunctionResponse (fc_name fc) (response_mapping value))] in
  let h := _history (session st) in
  let gc := to_generation_config_dict generation_config in
  enable_automatic_function_calling (session st) = true ->
  _last_received (session st) = None ->
  _get_tools_lib (model (session st)) tools = Ok (Some lib) ->
  resolve_tool_config (model (session st)) tool_config = Ok tc ->
  lib_index lib !! fc_name fc = Some (CallableFunctionDeclaration p function) ->
  f_call function (fc_args fc) = Ok value ->
  to_content content_ = Ok coerced ->
  candidate_count_exceeds_one gc = Ok false ->
  function_calls_of (parts k1) = [fc] ->
  function_calls_of (parts k2) = [] ->
  normal_finish fr1 = true ->
  normal_finish fr2 = true ->
  script st = Ok r1 :: Ok r2 :: rest ->
  exists st',
    send_message content_ generation_config safety_settings false tools tool_config st
    = (Ok r2, st')
    /\ invocations st' = invocations st ++ [(f_name function, fc_args fc)]
    /\ requests st' =
         requests st
         ++ [request_for (model (session st)) (h ++ [sent]) gc safety_settings
               (Some lib) tc;
             request_for (model (session st)) (h ++ [sent; k1; send]) gc safety_settings
               (Some lib) (_tool_config (model (session st)))]
    /\ script st' = rest
    /\ fst (history st') = Ok (h ++ [sent; k1; send; default_role _MODEL_ROLE k2]).
Proof.
  intros r1 r2 sent' send h gc Hafc Hidle Htools Htc Hidx Hcall Hcontent Hcc
    Hf1 Hf2 Hn1 Hn2 Hscript.
  rewrite send_message_unfold, Hafc, Htools, Hcontent. cbn [andb].
  rewrite (history_idle st Hidle). fold sent' h.
  unfold send_message_rest. fold gc.
  unfold mbind at 1, M_bind at 1, lift at 1. rewrite Hcc.
  unfold mbind at 1, M_bind at 1. cbn [fmap option_fmap option_map].
  rewrite (generate_content_history (model (session st)) h sent' gc safety_settings
             false lib tool_config tc (Ok r1) (Ok r2 :: rest) st Htc Hscript).
  unfold mbind at 1, M_bind at 1, lift at 1.
  assert (Hchk1 : _check_response r1 false = Ok tt)
    by (unfold _check_response; cbn; rewrite Hn1; reflexivity).
  assert (Hchk2 : _check_response r2 false = Ok tt)
    by (unfold _check_response; cbn; rewrite Hn2; reflexivity).
  rewrite Hchk1, Hafc.
  unfold mbind at 1, M_bind at 1.
  unfold mbind at 1, M_bind at 1.
  unfold _handle_afc. cbn [script length].
  unfold mbind at 1, M_bind at 1.
  rewrite (afc_loop_round _ (model (session st)) r1 (mkCandidate k1 fr1) (h ++ [sent'])
             gc safety_settings false lib _ fc p function value r2 rest);
    [|reflexivity|exact Hf1|exact Hidx|exact Hcall|reflexivity|exact Hchk2].
  rewrite (afc_loop_done _ (model (session st)) r2 (mkCandidate k2 fr2));
    [|reflexivity|exact Hf2].
  cbn [content].
  unfold mbind at 1, M_bind at 1, lift at 1.
  rewrite unpack_last_snoc.
  cbn [mret M_ret session script requests invocations].
  unfold mbind at 1, M_bind at 1.
  rewrite history_setter_history.
  cbn [mbind M_bind mret M_ret get_session set_session session script requests
         invocations].
  eexists. split; [reflexivity|].
  cbn [invocations requests script session].
  split; [reflexivity|]. split.
  { rewrite <- !app_assoc. reflexivity. }
  split; [reflexivity|].
  unfold history, mbind, M_bind, get_session, lift, set_session.
  cbn. rewrite Hn2. cbn. rewrite <- !app_assoc. reflexivity.
Qed.

(** ** The requests a computation issues *)

Lemma emits_silent {A} (P : GenerateContentRequest -> Prop) (m : M A) :
  (forall st, requests (snd (m st)) = requests st) -> emits P m.
Proof.
  intros H st. exists []. rewrite app_nil_r. split; [apply H | constructor].
Qed.

Lemma emits_bind {A B} (P : GenerateContentRequest -> Prop) (m : M A) (k : A -> M B) :
  emits P m -> (forall a, emits P (k a)) -> emits P (m ≫= k).
Proof.
  intros Hm Hk st. unfold mbind, M_bind.
  destruct (Hm st) as (new1 & E1 & F1).
  destruct (m st) as [[a|e] st1]; cbn [snd] in E1.
  - destruct (Hk a st1) as (new2 & E2 & F2).
    exists (new1 ++ new2). rewrite E2, E1, app_assoc. split; [reflexivity|].
    apply Forall_app; auto.
  - exists new1. auto.
Qed.

Lemma emits_ret {A} P (a : A) : emits P (mret a).
Proof. apply emits_silent; reflexivity. Qed.

Lemma emits_lift {A} P (r : result A) : emits P (lift r).
Proof. apply emits_silent; reflexivity. Qed.

Lemma emits_raise {A} P (e : Exn) : emits P (raise e : M A).
Proof. apply emits_silent; reflexivity. Qed.

Lemma emits_get_session P : emits P get_session.
Proof. apply emits_silent; reflexivity. Qed.

Lemma emits_set_session P (c : ChatSession) : emits P (set_session c).
Proof. apply emits_silent; reflexivity. Qed.

Lemma emits_record_invocation P (f : PyFunction) (args : list (string * Json)) :
  emits P (record_invocation f args).
Proof. apply emits_silent; reflexivity. Qed.

Create HintDb emits.
#[local] Hint Resolve emits_ret emits_lift emits_raise emits_get_session
  emits_set_session emits_record_invocation : emits.

Lemma emits_history P : emits P history.
Proof.
  unfold history. apply emits_bind; [auto with emits|]. intros self.
  destruct (_last_received self) as [last|]; [|auto with emits].
  apply emits_bind; [auto with emits|]. intros c0.
  apply emits_bind.
  - destruct (negb (normal_finish (finish_reason c0))); [|auto with emits].
    apply emits_bind; auto with emits.
  - intros last'. destruct (_error last'); [auto with emits|].
    destruct (_last_sent self); [|auto with emits].
    apply emits_bind; auto with emits.
Qed.

Lemma emits_history_setter P (h : PyVal) : emits P (history_setter h).
Proof.
  unfold history_setter. apply emits_bind; [auto with emits|]. intros ?.
  apply emits_bind; auto with emits.
Qed.

Lemma emits_FunctionLibrary_call P (lib : FunctionLibrary) (fc : FunctionCall) :
  emits P (FunctionLibrary_call lib fc).
Proof.
  unfold FunctionLibrary_call. apply emits_bind; [auto with emits|].
  intros [p|p f|p]; auto with emits.
  apply emits_bind; [auto with emits|]. intros _.
  apply emits_bind; auto with emits.
Qed.

Lemma emits_invoke_all P (lib : FunctionLibrary) (fcs : list FunctionCall) :
  emits P (invoke_all lib fcs).
Proof.
  unfold invoke_all. induction fcs as [|fc fcs IH]; cbn [mapM]; [auto with emits|].
  apply emits_bind.
  - apply emits_bind; [apply emits_FunctionLibrary_call|].
    intros [fr|]; auto with emits.
  - intros fr. apply emits_bind; [exact IH|]. auto with emits.
Qed.

(** [generate_content] issues the request [_prepare_request] builds, if it
    builds one, and nothing else. *)
Lemma emits_generate_content (P : GenerateContentRequest -> Prop)
    (self : GenerativeModel) (contents : PyVal)
    (generation_config : option (list (string * Json)))
    (safety_settings : option (list (string * string))) (stream : bool)
    (tools : option FunctionLibraryType) (tool_config : option ToolConfigType) :
  (forall req,
      _prepare_request self contents generation_config safety_settings tools tool_config
      = Ok req -> P req) ->
  emits P (generate_content self contents generation_config safety_settings stream
             tools tool_config).
Proof.
  intros HP st. unfold generate_content, mbind, M_bind, lift.
  destruct (_prepare_request self contents generation_config safety_settings tools
              tool_config) as [req|e].
  - exists [req]. unfold client_generate_content.
    destruct (script st); cbn [snd requests]; split; auto.
  - exists []. cbn [snd]. rewrite app_nil_r. auto.
Qed.

Lemma emits_afc_loop (fuel : nat) (self_model : GenerativeModel) (response : Response)
    (h : list Content) (generation_config : list (string * Json))
    (safety_settings : option (list (string * string))) (stream : bool)
    (lib : FunctionLibrary) :
  emits (continuation_request self_model generation_config safety_settings lib)
    (afc_loop fuel self_model response h generation_config safety_settings stream lib).
Proof.
  revert response h. induction fuel as [|fuel IH]; intros response h; cbn [afc_loop].
  - auto with emits.
  - apply emits_bind; [auto with emits|]. intros [|fc fcs]; [auto with emits|].
    apply emits_bind; [auto with emits|]. intros ok.
    destruct (negb ok); [auto with emits|].
    apply emits_bind; [auto with emits|]. intros c0.
    apply emits_bind; [apply emits_invoke_all|]. intros ps.
    apply emits_bind.
    + apply emits_generate_content. intros req.
      rewrite _prepare_request_history. cbn. intros [= <-]. reflexivity.
    + intros r. apply emits_bind; [auto with emits|]. intros _. apply IH.
Qed.

Lemma emits_handle_afc (self_model : GenerativeModel) (response : Response)
    (h : list Content) (generation_config : list (string * Json))
    (safety_settings : option (list (string * string))) (stream : bool)
    (lib : FunctionLibrary) :
  emits (continuation_request self_model generation_config safety_settings lib)
    (_handle_afc self_model response h generation_config safety_settings stream lib).
Proof.
  intros st. unfold _handle_afc.
  apply (emits_bind _ (afc_loop _ _ _ _ _ _ _ _)); [apply emits_afc_loop|].
  intros [h' r]. apply emits_bind; [auto with emits|]. intros [h'' c]. auto with emits.
Qed.

(** The library a request of round 0 names is the one [send_message]
    resolved. *)
Lemma _get_tools_lib_resolved (self : GenerativeModel) (tools : option FunctionLibraryType)
    (tools_lib : option FunctionLibrary) :
  _get_tools_lib self tools = Ok tools_lib ->
  _get_tools_lib self (FLT_library <$> tools_lib) = Ok tools_lib.
Proof.
  destruct tools_lib as [lib|]; [reflexivity|].
  destruct tools as [[lib|ts]|]; cbn.
  - discriminate.
  - destruct (FunctionLibrary_init ts); discriminate.
  - auto.
Qed.

Lemma _prepare_request_settings (self : GenerativeModel) (contents : PyVal)
    (generation_config : option (list (string * Json)))
    (safety_settings : option (list (string * string)))
    (tools : option FunctionLibraryType) (tools_lib : option FunctionLibrary)
    (tool_config : option ToolConfigType) (req : GenerateContentRequest) :
  _get_tools_lib self tools = Ok tools_lib ->
  _prepare_request self contents
    (Some (to_generation_config_dict generation_config)) safety_settings
    (FLT_library <$> tools_lib) tool_config = Ok req ->
  round_settings self generation_config safety_settings tools_lib req.
Proof.
  intros Htl. unfold _prepare_request.
  destruct (negb (truthy contents)); [discriminate|].
  rewrite (_get_tools_lib_resolved _ _ _ Htl). cbn [mbind result_bind].
  match goal with |- context [mbind _ ?m] => destruct m as [tc|e] end;
    [|discriminate].
  cbn [mbind result_bind].
  destruct (to_contents contents); [|discriminate].
  cbn. intros [= <-]. repeat split.
Qed.

(** The requests of [send_message] after the history has been read: at most
    one for round 0, with the settings of the call, then those of the
    continuation rounds. *)
Lemma send_message_rest_requests (self : ChatSession) (tools : option FunctionLibraryType)
    (tools_lib : option FunctionLibrary)
    (content : Content) (h : list Content)
    (generation_config : option (list (string * Json)))
    (safety_settings : option (list (string * string)))
    (stream : bool) (tool_config : option ToolConfigType) (st : State) :
  _get_tools_lib (model self) tools = Ok tools_lib ->
  exists new,
    requests (snd (send_message_rest self tools_lib content h generation_config
                     safety_settings stream tool_config st))
    = requests st ++ new
    /\ Forall (round_settings (model self) generation_config safety_settings tools_lib) new
    /\ Forall (fun req =>
                 req_tool_config req = _tool_config (model self)
                 /\ exists lib, tools_lib = Some lib
                                /\ req_tools req = Some (FunctionLibrary_to_proto lib))
         (tail new).
Proof.
  intros Htl.
  set (gc := to_generation_config_dict generation_config).
  assert (Hcont : forall lib req,
             tools_lib = Some lib ->
             continuation_request (model self) gc safety_settings lib req ->
             round_settings (model self) generation_config safety_settings tools_lib req
             /\ req_tool_config req = _tool_config (model self)
             /\ exists lib, tools_lib = Some lib
                            /\ req_tools req = Some (FunctionLibrary_to_proto lib)).
  { intros lib req -> Hreq. unfold continuation_request in Hreq. rewrite Hreq.
    repeat split. eauto. }
  unfold send_message_rest. fold gc.
  unfold mbind at 1, M_bind at 1, lift at 1.
  destruct (candidate_count_exceeds_one gc) as [[|]|e];
    try (exists []; cbn [snd]; rewrite app_nil_r; repeat split; constructor).
  unfold mbind at 1, M_bind at 1.
  destruct (emits_generate_content
              (round_settings (model self) generation_config safety_settings tools_lib)
              (model self) (VList (map VContent (h ++ [content]))) (Some gc)
              safety_settings stream (FLT_library <$> tools_lib) tool_config
              (fun req => _prepare_request_settings _ _ _ _ _ _ _ _ Htl) st)
    as (new0 & E0 & F0).
  assert (L0 : length new0 <= 1).
  { revert E0. unfold generate_content, mbind, M_bind, lift.
    destruct (_prepare_request _ _ _ _ _ _) as [req|e]; cbn [snd].
    - unfold client_generate_content. destruct (script st); cbn [snd requests];
        intros E; apply app_inv_head in E; subst new0; cbn; lia.
    - intros E. rewrite <- (app_nil_r (requests st)) in E at 1.
      apply app_inv_head in E. subst new0. cbn; lia. }
  destruct (generate_content _ _ _ _ _ _ _ st) as [[r|e] st1]; cbn [snd] in E0.
  2: { exists new0. cbn [snd]. split; [exact E0|split; [exact F0|]].
       destruct new0 as [|? [|? ?]]; cbn in *; try constructor; lia. }
  unfold mbind at 1, M_bind at 1, lift at 1.
  destruct (_check_response r stream).
  2: { exists new0. cbn [snd]. split; [exact E0|split; [exact F0|]].
       destruct new0 as [|? [|? ?]]; cbn in *; try constructor; lia. }
  assert (Hplain : forall (c : Content) (r : Response),
             exists new,
               requests (snd ((mret (c, r)
                               ≫= (fun '(content, response) =>
                                     self ← get_session;
                                     set_session (set_last (Some content) (Some response) self);;
                                     mret response)) st1))
               = requests st ++ new
               /\ Forall (round_settings (model self) generation_config safety_settings
                            tools_lib) new
               /\ Forall (fun req =>
                            req_tool_config req = _tool_config (model self)
                            /\ exists lib, tools_lib = Some lib
                                           /\ req_tools req
                                              = Some (FunctionLibrary_to_proto lib))
                    (tail new)).
  { intros c' r'. exists new0. cbn. split; [exact E0|split; [exact F0|]].
    destruct new0 as [|? [|? ?]]; cbn in *; try constructor; lia. }
  destruct (enable_automatic_function_calling self); [|apply Hplain].
  destruct tools_lib as [lib|]; [|apply Hplain].
  assert (Hem : emits (continuation_request (model self) gc safety_settings lib)
                  ((_handle_afc (model self) r (h ++ [content]) gc safety_settings
                      stream lib
                    ≫= (fun '(history, content, response) =>
                          history_setter (VList (map VContent history));;
                          mret (content, response)))
                   ≫= (fun '(content, response) =>
                         self ← get_session;
                         set_session (set_last (Some content) (Some response) self);;
                         mret response))).
  { apply emits_bind.
    - apply emits_bind; [apply emits_handle_afc|]. intros [[h' c'] r'].
      apply emits_bind; [apply emits_history_setter|]. auto with emits.
    - intros [c' r']. apply emits_bind; [auto with emits|]. intros ?.
      apply emits_bind; auto with emits. }
  destruct (Hem st1) as (new1 & E1 & F1).
  exists (new0 ++ new1). rewrite E1, E0, app_assoc. split; [reflexivity|].
  assert (F1' : Forall (fun req =>
                  round_settings (model self) generation_config safety_settings
                    (Some lib) req
                  /\ req_tool_config req = _tool_config (model self)
                  /\ exists lib', Some lib = Some lib'
                                  /\ req_tools req = Some (FunctionLibrary_to_proto lib'))
                  new1).
  { eapply Forall_impl; [exact F1|]. intros req Hreq. apply (Hcont lib req eq_refl Hreq). }
  split.
  - apply Forall_app. split; [exact F0|].
    eapply Forall_impl; [exact F1'|]. intros req Hreq. apply Hreq.
  - assert (F1'' : Forall (fun req =>
                     req_tool_config req = _tool_config (model self)
                     /\ exists lib', Some lib = Some lib'
                                     /\ req_tools req = Some (FunctionLibrary_to_proto lib'))
                     new1).
    { eapply Forall_impl; [exact F1'|]. intros req Hreq. apply Hreq. }
    destruct new0 as [|r0 [|? ?]]; cbn in L0; [| |lia].
    + cbn [app]. destruct new1; [constructor|]. cbn [tail].
      eapply Forall_inv_tail. exact F1''.
    + exact F1''.
Qed.

(** C2, as the code has it.  The requests one call of [send_message] issues
    all carry the same merged generation configuration, the same merged
    safety settings and the same tool declarations as the request of
    round 0; the continuation rounds do not drop the tools, they are only
    issued when a library is attached and every one of them names its
    declarations.  What a continuation round leaves out is the tool
    configuration of the call: it carries the default of the model. *)
Theorem afc_continuation_requests (st : State) (content_ : PyVal)
    (generation_config : option (list (string * Json)))
    (safety_settings : option (list (string * string)))
    (stream : bool)
    (tools : option FunctionLibraryType) (tool_config : option ToolConfigType) :
  exists new,
    requests (snd (send_message content_ generation_config safety_settings stream
                     tools tool_config st))
    = requests st ++ new
    /\ Forall (fun req =>
                 exists tools_lib,
                   _get_tools_lib (model (session st)) tools = Ok tools_lib
                   /\ round_settings (model (session st)) generation_config
                        safety_settings tools_lib req)
         new
    /\ Forall (fun req =>
                 req_tool_config req = _tool_config (model (session st))
                 /\ exists lib,
                      _get_tools_lib (model (session st)) tools = Ok (Some lib)
                      /\ req_tools req = Some (FunctionLibrary_to_proto lib))
         (tail new).
Proof.
  assert (Hnone : exists new,
             requests st = requests st ++ new
             /\ Forall (fun req =>
                          exists tools_lib,
                            _get_tools_lib (model (session st)) tools = Ok tools_lib
                            /\ round_settings (model (session st)) generation_config
                                 safety_settings tools_lib req) new
             /\ Forall (fun req =>
                          req_tool_config req = _tool_config (model (session st))
                          /\ exists lib,
                               _get_tools_lib (model (session st)) tools = Ok (Some lib)
                               /\ req_tools req = Some (FunctionLibrary_to_proto lib))
                  (tail new)).
  { exists []. rewrite app_nil_r. repeat split; constructor. }
  rewrite send_message_unfold.
  destruct (enable_automatic_function_calling (session st) && stream); [exact Hnone|].
  destruct (_get_tools_lib (model (session st)) tools) as [tools_lib|e] eqn:Htl;
    [|exact Hnone].
  destruct (to_content content_) as [content|e]; [|exact Hnone].
  destruct (emits_history (fun _ => False) st) as (new & Eh & Fh).
  assert (new = []) by (destruct new; [reflexivity | inversion Fh; contradiction]).
  subst new. rewrite app_nil_r in Eh.
  destruct (history st) as [[h|e] st1]; cbn [snd] in Eh.
  2: { cbn [snd]. rewrite Eh. exact Hnone. }
  destruct (send_message_rest_requests (session st) tools tools_lib
              (default_role _USER_ROLE content) h generation_config safety_settings
              stream tool_config st1 Htl) as (new & E & F1 & F2).
  exists new. rewrite E, Eh. split; [reflexivity|]. split.
  - eapply Forall_impl; [exact F1|]. intros req Hreq. eauto.
  - eapply Forall_impl; [exact F2|]. intros req (Htc & lib & -> & Hreq). eauto.
Qed.



(** ** The worked conversation, run *)

Lemma from_function_f_ab : from_function f_ab None = Ok f_ab_declaration.
Proof. reflexivity. Qed.

Lemma FunctionLibrary_init_example :
  FunctionLibrary_init example_tools = Ok example_library.
Proof. reflexivity. Qed.

Lemma afc_round_trip_witness :
  exists st',
    send_message (VStr "add one to 1") None None false None None example_state
    = (Ok answer_text, st')
    /\ invocations st' = [("f", [("a", JNum 1)])]
    /\ requests st' =
         [request_for example_model [mkContent "user" [PText "add one to 1"]] []
            None (Some example_library) None;
          request_for example_model
            [mkContent "user" [PText "add one to 1"];
             mkContent "model" [PFunctionCall call_f];
             mkContent "user"
               [PFunctionResponse (mkFunctionResponse "f" [("result", JNum 2)])]]
            [] None (Some example_library) None]
    /\ script st' = []
    /\ fst (history st') =
         Ok [mkContent "user" [PText "add one to 1"];
             mkContent "model" [PFunctionCall call_f];
             mkContent "user"
               [PFunctionResponse (mkFunctionResponse "f" [("result", JNum 2)])];
             mkContent "model" [PText "two"]].
Proof.
  apply (afc_round_trip example_state (VStr "add one to 1")
           (mkContent "" [PText "add one to 1"]) None None None None None
           example_library call_f f_ab_proto f_ab (JNum 2)
           (mkContent "model" [PFunctionCall call_f]) (mkContent "model" [PText "two"])
           STOP STOP []); reflexivity.
Defined.

(** C2, as the specification states it, fails: in the worked conversation
    the request of the continuation round carries the same tool declarations
    as the request of round 0, not none. *)
Lemma afc_continuation_keeps_tools :
  map req_tools
    (requests (snd (send_message (VStr "add one to 1") None None false None None
                      example_state)))
  = [Some [[f_ab_proto]]; Some [[f_ab_proto]]].
Proof. reflexivity. Qed.



Lemma streamed_turn_stays_pending :
  fst (send_message (VStr "hi") None None true None None before_broken_state)
  = Ok answer_blocked
  /\ session (snd (send_message (VStr "hi") None None true None None before_broken_state))
     = session broken_state
  /\ _history (session broken_state) = _history (session before_broken_state).
Proof. repeat split. Qed.

Lemma broken_conversation_until_rewind_witness :
  fst (history (after_reads 3 broken_state)) = Err BrokenResponseError
  /\ snd (history (after_reads 3 broken_state)) = mark_broken broken_state answer_blocked
  /\ (exists stored,
        _last_received (session (snd (history (after_reads 3 broken_state)))) = Some stored
        /\ _error stored = Some StopCandidateException
        /\ candidates stored = candidates answer_blocked
        /\ block_reason stored = block_reason answer_blocked)
  /\ _last_sent (session (snd (history (after_reads 3 broken_state))))
     = _last_sent (session broken_state)
  /\ _history (session (snd (history (after_reads 3 broken_state))))
     = _history (session broken_state)
  /\ _history (session (after_reads 3 broken_state)) = _history (session broken_state)
  /\ exists st',
      rewind (after_reads 3 broken_state)
      = (Ok (_last_sent (session broken_state), mkContent "model" []), st')
      /\ st' = clear_pending broken_state
      /\ history st' = (Ok (_history (session broken_state)), st')
      /\ _history (session st') = _history (session broken_state)
      /\ _last_received (session st') = None.
Proof.
  apply (broken_conversation_until_rewind broken_state answer_blocked
           (mkCandidate (mkContent "model" []) SAFETY) 3); reflexivity.
Defined.

Lemma FunctionLibrary_call_spec_witness :
  FunctionLibrary_getitem example_library "f" = Ok f_ab_declaration
  /\ FunctionLibrary_call example_library call_f example_state
     = (Ok (Some (PFunctionResponse (mkFunctionResponse "f" [("result", JNum 2)]))),
        mkState (session example_state) (script example_state) (requests example_state)
          [("f", [("a", JNum 1)])]).
Proof.
  destruct (FunctionLibrary_call_spec example_library call_f f_ab_declaration
              example_state eq_refl) as (Hget & _ & Hcall).
  split; [exact Hget|].
  destruct (Hcall f_ab_proto f_ab (JNum 2) eq_refl eq_refl) as (response & E & _ & Hwrap).
  rewrite E, Hwrap; [reflexivity|]. intros d. discriminate.
Defined.

(** ** Name conflicts in the function library *)

(** The index loop can only fail with [ValueError]. *)
Lemma index_declarations_cases (fds : list Declaration) (index : gmap string Declaration) :
  (exists index', index_declarations index fds = Ok index')
  \/ index_declarations index fds = Err ValueError.
Proof.
  revert index. induction fds as [|fd fds IH]; intros index; cbn [index_declarations].
  - left. eauto.
  - destruct (index !! name fd); [right; reflexivity | apply IH].
Qed.

(** When the loop succeeds, the names were fresh and pairwise distinct, every
    declaration is found under its name, and earlier entries are kept. *)
Lemma index_declarations_Ok (fds : list Declaration) (index index' : gmap string Declaration) :
  index_declarations index fds = Ok index' ->
  NoDup (map name fds)
  /\ (forall d, d ∈ fds -> index !! name d = None)
  /\ (forall d, d ∈ fds -> index' !! name d = Some d)
  /\ (forall k v, index !! k = Some v -> index' !! k = Some v).
Proof.
  revert index. induction fds as [|fd fds IH]; intros index; cbn [index_declarations].
  - intros [= <-]. repeat split; auto.
    + constructor.
    + intros d Hd. inversion Hd.
    + intros d Hd. inversion Hd.
  - destruct (index !! name fd) eqn:Hfd; [discriminate|]. intros H.
    destruct (IH _ H) as (Hnd & Hfresh & Hfound & Hkeep).
    assert (Hnotin : forall d, d ∈ fds -> name d <> name fd).
    { intros d Hd Heq. specialize (Hfresh d Hd). rewrite Heq in Hfresh.
      rewrite lookup_insert_eq in Hfresh. discriminate. }
    repeat split.
    + cbn [map]. apply NoDup_cons. split; [|exact Hnd].
      intros Hin. apply list_elem_of_fmap in Hin. destruct Hin as (d & Heq & Hd).
      apply (Hnotin d Hd). symmetry. exact Heq.
    + intros d Hd. apply elem_of_cons in Hd. destruct Hd as [-> | Hd]; [exact Hfd|].
      specialize (Hfresh d Hd). rewrite lookup_insert_ne in Hfresh; [exact Hfresh|].
      intros Heq. apply (Hnotin d Hd). symmetry. exact Heq.
    + intros d Hd. apply elem_of_cons in Hd. destruct Hd as [-> | Hd].
      * apply Hkeep. apply lookup_insert_eq.
      * apply Hfound. exact Hd.
    + intros k v Hk. apply Hkeep.
      rewrite lookup_insert_ne; [exact Hk|]. intros <-. congruence.
Qed.

Lemma index_declarations_fresh (fds : list Declaration) (index : gmap string Declaration) :
  NoDup (map name fds) ->
  (forall d, d ∈ fds -> index !! name d = None) ->
  exists index', index_declarations index fds = Ok index'.
Proof.
  revert index. induction fds as [|fd fds IH]; intros index Hnd Hfresh;
    cbn [index_declarations]; [eauto|].
  rewrite (Hfresh fd) by (left). cbn [map] in Hnd. apply NoDup_cons in Hnd.
  destruct Hnd as [Hnotin Hnd]. apply IH; [exact Hnd|].
  intros d Hd. rewrite lookup_insert_ne; [apply Hfresh; right; exact Hd|].
  intros Heq. apply Hnotin. rewrite Heq. apply list_elem_of_fmap. eauto.
Qed.

Lemma index_declarations_app (l1 l2 : list Declaration) (index : gmap string Declaration) :
  index_declarations index (l1 ++ l2)
  = (index ← index_declarations index l1; index_declarations index l2).
Proof.
  revert index. induction l1 as [|fd l1 IH]; intros index; cbn [app index_declarations].
  - reflexivity.
  - destruct (index !! name fd); [reflexivity | apply IH].
Qed.

Lemma mapM_declarations (fds : list Declaration) :
  mapM _make_function_declaration (map FDT_declaration fds) = Ok fds.
Proof. apply mapM_result_Ok. induction fds; constructor; auto. Qed.

(** Whether or not the two tools are flattened into one, the library is
    built from the index loop over their declarations in order. *)
Lemma FunctionLibrary_init_two (a b : ToolType) (t1 t2 : Tool) :
  _make_tool a = Ok t1 -> _make_tool b = Ok t2 ->
  let fds := tool_function_declarations t1 ++ tool_function_declarations t2 in
  match index_declarations ∅ fds with
  | Ok index =>
      exists tools, FunctionLibrary_init (Tools_iterable [a; b])
                    = Ok (mkFunctionLibrary tools index)
  | Err e => FunctionLibrary_init (Tools_iterable [a; b]) = Err e
  end.
Proof.
  intros Ha Hb fds. unfold FunctionLibrary_init, _make_tools.
  cbn [mapM]. rewrite Ha, Hb.
  cbn [mbind result_bind mret result_ret length Nat.ltb Nat.leb andb forallb].
  destruct ((length (tool_function_declarations t1) =? 1)
            && ((length (tool_function_declarations t2) =? 1) && true)) eqn:Hflat.
  - apply andb_prop in Hflat. destruct Hflat as [H1 H2].
    apply andb_prop in H2. destruct H2 as [H2 _].
    apply Nat.eqb_eq in H1, H2.
    destruct (tool_function_declarations t1) as [|d1 [|? ?]] eqn:E1; try discriminate.
    destruct (tool_function_declarations t2) as [|d2 [|? ?]] eqn:E2; try discriminate.
    subst fds. cbn [app flat_map _make_tool]. rewrite E1, E2. cbn [app].
    unfold Tool_init.
    change [FDT_declaration d1; FDT_declaration d2] with (map FDT_declaration [d1; d2]).
    rewrite mapM_declarations. cbn [mbind result_bind].
    destruct (index_declarations ∅ [d1; d2]) as [index|e] eqn:Hidx; cbn [mbind result_bind].
    + cbn [index_tools tool_function_declarations mbind result_bind]. rewrite Hidx.
      cbn [mbind result_bind]. eauto.
    + reflexivity.
  - cbn [index_tools mbind result_bind]. subst fds. rewrite index_declarations_app.
    destruct (index_declarations ∅ (tool_function_declarations t1)) as [i1|e];
      cbn [mbind result_bind]; [|reflexivity].
    destruct (index_declarations i1 (tool_function_declarations t2)) as [i2|e];
      cbn [mbind result_bind]; [eauto | reflexivity].
Qed.

(** C7. A library built from two tools (given in any accepted form) in
    which some function name occurs in both fails at construction with
    [ValueError]; when all names of the two tools are distinct the
    construction succeeds and every declared name, or a function call that
    carries it, resolves to the declaration of its tool. *)
Theorem FunctionLibrary_two_tools (a b : ToolType) (t1 t2 : Tool) :
  _make_tool a = Ok t1 -> _make_tool b = Ok t2 ->
  ((exists d1 d2,
       d1 ∈ tool_function_declarations t1 /\ d2 ∈ tool_function_declarations t2
       /\ name d1 = name d2) ->
   FunctionLibrary_init (Tools_iterable [a; b]) = Err ValueError)
  /\ (NoDup (map name (tool_function_declarations t1 ++ tool_function_declarations t2)) ->
      exists lib,
        FunctionLibrary_init (Tools_iterable [a; b]) = Ok lib
        /\ forall d,
             d ∈ tool_function_declarations t1 ++ tool_function_declarations t2 ->
             FunctionLibrary_getitem lib (name d) = Ok d
             /\ forall fc, fc_name fc = name d ->
                           FunctionLibrary_getitem lib (fc_name fc) = Ok d).
Proof.
  intros Ha Hb.
  pose proof (FunctionLibrary_init_two a b t1 t2 Ha Hb) as Hinit. cbv zeta in Hinit.
  split.
  - intros (d1 & d2 & H1 & H2 & Heq).
    destruct (index_declarations_cases
                (tool_function_declarations t1 ++ tool_function_declarations t2) ∅)
      as [[index Hidx] | Herr].
    + exfalso. apply index_declarations_Ok in Hidx. destruct Hidx as (Hnd & _).
      rewrite map_app in Hnd. apply NoDup_app in Hnd. destruct Hnd as (_ & Hdisj & _).
      apply (Hdisj (name d1)); apply list_elem_of_fmap; [eauto|].
      exists d2. split; [exact Heq | exact H2].
    + rewrite Herr in Hinit. exact Hinit.
  - intros Hnd.
    destruct (index_declarations_fresh _ ∅ Hnd) as [index Hidx].
    { intros d _. apply lookup_empty. }
    rewrite Hidx in Hinit. destruct Hinit as [tools Hinit].
    eexists. split; [exact Hinit|].
    intros d Hd. unfold FunctionLibrary_getitem. cbn [lib_index].
    apply index_declarations_Ok in Hidx. destruct Hidx as (_ & _ & Hfound & _).
    split; [|intros fc ->]; rewrite (Hfound d Hd); reflexivity.
Qed.

Lemma FunctionLibrary_two_tools_witness :
  FunctionLibrary_init
    (Tools_iterable [TT_single (FDT_callable f_ab); TT_Tool tool_f]) = Err ValueError
  /\ exists lib,
       FunctionLibrary_init
         (Tools_iterable [TT_single (FDT_callable f_ab); TT_Tool tool_g]) = Ok lib
       /\ forall d, d ∈ [f_ab_declaration; g_declaration] ->
                    FunctionLibrary_getitem lib (name d) = Ok d
                    /\ forall fc, fc_name fc = name d ->
                                  FunctionLibrary_getitem lib (fc_name fc) = Ok d.
Proof.
  split.
  - apply (proj1 (FunctionLibrary_two_tools (TT_single (FDT_callable f_ab))
                    (TT_Tool tool_f) tool_f tool_f eq_refl eq_refl)).
    exists f_ab_declaration, f_ab_declaration. repeat split; left.
  - apply (proj2 (FunctionLibrary_two_tools (TT_single (FDT_callable f_ab))
                    (TT_Tool tool_g) tool_f tool_g eq_refl eq_refl)).
    cbn. apply NoDup_cons. split.
    + intros H. apply list_elem_of_singleton in H. discriminate.
    + apply NoDup_singleton.
Defined.

(** ** Schema synthesis and the wire names *)

Section DictLemmas.
Context {V : Type}.
Implicit Types (d : list (string * V)) (k : string) (v : V).

Lemma dict_get_set_eq k v d : dict_get k (dict_set k v d) = Some v.
Proof.
  induction d as [|[k' v'] d IH]; cbn [dict_set dict_get].
  - rewrite String.eqb_refl. reflexivity.
  - destruct (String.eqb_spec k k') as [->|Hne]; cbn [dict_get].
    + rewrite String.eqb_refl. reflexivity.
    + destruct (String.eqb_spec k k'); [contradiction | exact IH].
Qed.

Lemma dict_get_set_ne k k' v d : k <> k' -> dict_get k (dict_set k' v d) = dict_get k d.
Proof.
  intros Hne. induction d as [|[k2 v2] d IH]; cbn [dict_set dict_get].
  - destruct (String.eqb_spec k k'); [contradiction | reflexivity].
  - destruct (String.eqb_spec k' k2) as [->|Hne2]; cbn [dict_get].
    + destruct (String.eqb_spec k k2); [contradiction | reflexivity].
    + destruct (String.eqb_spec k k2); [reflexivity | exact IH].
Qed.

Lemma dict_get_remove_eq k d : dict_get k (dict_remove k d) = None.
Proof.
  induction d as [|[k' v'] d IH]; cbn [dict_remove dict_get]; [reflexivity|].
  destruct (String.eqb_spec k k') as [->|Hne]; [exact IH|].
  cbn [dict_get]. destruct (String.eqb_spec k k'); [contradiction | exact IH].
Qed.

Lemma dict_get_remove_ne k k' d : k <> k' -> dict_get k (dict_remove k' d) = dict_get k d.
Proof.
  intros Hne. induction d as [|[k2 v2] d IH]; cbn [dict_remove dict_get]; [reflexivity|].
  destruct (String.eqb_spec k' k2) as [->|Hne2].
  - destruct (String.eqb_spec k k2); [contradiction | exact IH].
  - cbn [dict_get]. destruct (String.eqb_spec k k2); [reflexivity | exact IH].
Qed.

Lemma dict_find_map_get {A} (f : V -> A) k d :
  dict_find_map f k d = option_map f (dict_get k d).
Proof.
  induction d as [|[k' v'] d IH]; cbn [dict_find_map dict_get]; [reflexivity|].
  destruct (String.eqb k k'); [reflexivity | exact IH].
Qed.

Lemma dict_get_In k v d : dict_get k d = Some v -> In (k, v) d.
Proof.
  induction d as [|[k' v'] d IH]; cbn [dict_get]; [discriminate|].
  destruct (String.eqb_spec k k') as [->|Hne].
  - intros [= ->]. left. reflexivity.
  - intros H. right. auto.
Qed.
Lemma dict_get_set k k' v d :
  dict_get k (dict_set k' v d) = if String.eqb k k' then Some v else dict_get k d.
Proof.
  destruct (String.eqb_spec k k') as [->|Hne];
    [apply dict_get_set_eq | apply dict_get_set_ne; exact Hne].
Qed.

Lemma dict_get_remove k k' d :
  dict_get k (dict_remove k' d) = if String.eqb k k' then None else dict_get k d.
Proof.
  destruct (String.eqb_spec k k') as [->|Hne];
    [apply dict_get_remove_eq | apply dict_get_remove_ne; exact Hne].
Qed.
End DictLemmas.

(** Induction on JSON values that reaches into lists and objects. *)
Lemma Json_nested_ind (P : Json -> Prop) :
  P JNull -> (forall b, P (JBool b)) -> (forall n, P (JNum n)) -> (forall s, P (JStr s)) ->
  (forall l, Forall P l -> P (JList l)) ->
  (forall kvs, Forall (fun kv => P (snd kv)) kvs -> P (JObj kvs)) ->
  forall j, P j.
Proof.
  intros Hnull Hbool Hnum Hstr Hlist Hobj.
  fix IH 1. intros [| b | n | s | l | kvs].
  - exact Hnull.
  - apply Hbool.
  - apply Hnum.
  - apply Hstr.
  - apply Hlist. induction l as [|x l IHl]; constructor; [apply IH | exact IHl].
  - apply Hobj. induction kvs as [|[k v] kvs IHk]; constructor; [apply IH | exact IHk].
Qed.

Lemma rename_value_clean (kvs : list (string * Json)) (k : string) (v v' : Json) :
  Forall (fun kv => forall j', _rename_schema_fields (snd kv) = Ok j' -> wire_clean j' = true)
    kvs ->
  dict_get k kvs = Some v ->
  _rename_schema_fields v = Ok v' ->
  wire_clean v' = true.
Proof.
  intros HF Hget Hren. apply dict_get_In in Hget.
  rewrite Forall_forall in HF. apply (HF (k, v)); [|exact Hren].
  apply list_elem_of_In. exact Hget.
Qed.

Lemma rename_properties_clean (props props' : list (string * Json)) :
  Forall (fun kv => forall j', _rename_schema_fields (snd kv) = Ok j' -> wire_clean j' = true)
    props ->
  mapM (fun kv => v ← _rename_schema_fields (snd kv); Ok (fst kv, v)) props = Ok props' ->
  forallb (fun kv => wire_clean (snd kv)) props' = true.
Proof.
  intros HF Hm. apply mapM_result_inv in Hm.
  induction Hm as [|[k v] [k' v'] props props' Hkv _ IH]; [reflexivity|].
  inversion HF as [|? ? Hv HF']; subst. cbn [forallb snd].
  cbn [fst snd] in Hkv.
  destruct (_rename_schema_fields v) as [w|e] eqn:Hw; [|discriminate].
  cbn in Hkv. injection Hkv as <- <-.
  rewrite (Hv w Hw). cbn [andb]. apply IH. exact HF'.
Qed.

(** Renaming leaves no raw [type] or [format] key in a schema nor, through
    [items] and [properties], in the schemas nested in it. *)
Lemma _rename_schema_fields_clean (j j' : Json) :
  _rename_schema_fields j = Ok j' -> wire_clean j' = true.
Proof.
  enough (H : (forall j', _rename_schema_fields j = Ok j' -> wire_clean j' = true)
              /\ match j with
                 | JObj props =>
                     Forall (fun kv => forall j', _rename_schema_fields (snd kv) = Ok j' ->
                                                  wire_clean j' = true) props
                 | _ => True
                 end) by (apply H).
  clear j'. induction j as [| b | n | s | l _ | kvs IH] using Json_nested_ind.
  1: { split; [intros j'; cbn; intros [= <-]; reflexivity | exact I]. }
  1-4: split; [intros j'; cbn; discriminate | exact I].
  assert (HF : Forall (fun kv => forall j', _rename_schema_fields (snd kv) = Ok j' ->
                                            wire_clean j' = true) kvs).
  { eapply Forall_impl; [exact IH|]. intros kv Hkv. apply Hkv. }
  split; [|exact HF].
  intros j'. cbn [_rename_schema_fields]. rewrite !dict_find_map_get.
  set (s1 := dict_remove "type" kvs).
  destruct (match dict_get "type" kvs with
            | Some JNull | None => Ok s1
            | Some (JStr s) => Ok (dict_set "type_" (JStr (upper s)) s1)
            | Some _ => Err AttributeError
            end) as [s2|e] eqn:E2; [|discriminate].
  assert (T2 : dict_get "type" s2 = None).
  { destruct (dict_get "type" kvs) as [[]|]; try discriminate;
      injection E2 as <-; try apply dict_get_remove_eq.
    rewrite dict_get_set_ne by discriminate. apply dict_get_remove_eq. }
  cbn [mbind result_bind].
  set (s3 := dict_remove "format" s2).
  set (s4 := match dict_get "format" s2 with
             | Some JNull | None => s3
             | Some v => dict_set "format_" v s3
             end).
  assert (T4 : dict_get "type" s4 = None /\ dict_get "format" s4 = None).
  { assert (T3 : dict_get "type" s3 = None /\ dict_get "format" s3 = None).
    { split; [|apply dict_get_remove_eq].
      unfold s3. rewrite dict_get_remove_ne by discriminate. exact T2. }
    unfold s4. destruct (dict_get "format" s2) as [[]|]; try exact T3;
      rewrite !dict_get_set_ne by discriminate; exact T3. }
  set (s5 := dict_remove "items" s4).
  assert (T5 : dict_get "type" s5 = None /\ dict_get "format" s5 = None
               /\ dict_get "items" s5 = None).
  { unfold s5.
    rewrite (dict_get_remove_ne "type" "items"), (dict_get_remove_ne "format" "items")
      by discriminate.
    rewrite dict_get_remove_eq. tauto. }
  destruct (match option_map _rename_schema_fields (dict_get "items" kvs) with
            | Some items =>
                items ← items;
                match items with
                | JNull => Ok s5
                | _ => Ok (dict_set "items" items s5)
                end
            | None => Ok s5
            end) as [s6|e] eqn:E6; [|discriminate].
  assert (T6 : dict_get "type" s6 = None /\ dict_get "format" s6 = None
               /\ match dict_get "items" s6 with
                  | Some i => wire_clean i = true
                  | None => True
                  end).
  { destruct (dict_get "items" kvs) as [items|] eqn:Hitems; cbn [option_map] in E6.
    - destruct (_rename_schema_fields items) as [items'|e] eqn:Hren; [|discriminate].
      pose proof (rename_value_clean kvs "items" items items' HF Hitems Hren) as Hclean.
      cbn [mbind result_bind] in E6.
      destruct items'; injection E6 as <-;
        rewrite ?dict_get_set_eq, ?dict_get_set_ne by discriminate;
        try (destruct T5 as (-> & -> & ->); tauto);
        destruct T5 as (-> & -> & _); tauto.
    - injection E6 as <-. destruct T5 as (-> & -> & ->). tauto. }
  cbn [mbind result_bind].
  set (s7 := dict_remove "properties" s6).
  assert (T7 : dict_get "type" s7 = None /\ dict_get "format" s7 = None
               /\ match dict_get "items" s7 with
                  | Some i => wire_clean i = true
                  | None => True
                  end
               /\ dict_get "properties" s7 = None).
  { unfold s7.
    rewrite (dict_get_remove_ne "type" "properties"),
      (dict_get_remove_ne "format" "properties"),
      (dict_get_remove_ne "items" "properties") by discriminate.
    rewrite dict_get_remove_eq. tauto. }
  assert (Hclean7 : wire_clean (JObj s7) = true).
  { cbn [wire_clean]. unfold dict_has. rewrite !dict_find_map_get.
    destruct T7 as (-> & -> & Hi & ->). cbn [option_map negb andb].
    destruct (dict_get "items" s7); cbn [option_map]; [rewrite Hi|]; reflexivity. }
  destruct (dict_get "properties" kvs) as [properties|] eqn:Hprops; cbn [option_map].
  2: { intros [= <-]. exact Hclean7. }
  destruct properties as [| | | | |props]; cbn [mbind result_bind]; try discriminate.
  { intros [= <-]. exact Hclean7. }
  destruct (mapM (fun kv => v ← _rename_schema_fields (snd kv); Ok (fst kv, v)) props)
    as [props'|e] eqn:Hm; [|discriminate].
  cbn [mbind result_bind]. intros [= <-].
  assert (HFp : Forall (fun kv => forall j', _rename_schema_fields (snd kv) = Ok j' ->
                                             wire_clean j' = true) props).
  { apply dict_get_In in Hprops. rewrite Forall_forall in IH.
    apply (IH ("properties", JObj props)). apply list_elem_of_In. exact Hprops. }
  pose proof (rename_properties_clean props props' HFp Hm) as Hpc.
  cbn [wire_clean]. unfold dict_has. rewrite !dict_find_map_get.
  rewrite dict_get_set_eq. rewrite !dict_get_set_ne by discriminate.
  destruct T7 as (-> & -> & Hi & _). cbn [option_map negb andb].
  rewrite Hpc. destruct (dict_get "items" s7); cbn [option_map]; [rewrite Hi|]; reflexivity.
Qed.

Ltac dict_norm :=
  repeat (first [rewrite dict_get_set | rewrite dict_get_remove];
          cbn [String.eqb Ascii.eqb Bool.eqb andb]).

Lemma reserved_schema_keys_other (k : string) :
  str_in k reserved_schema_keys = false ->
  String.eqb k "type" = false /\ String.eqb k "format" = false
  /\ String.eqb k "type_" = false /\ String.eqb k "format_" = false
  /\ String.eqb k "items" = false /\ String.eqb k "properties" = false.
Proof.
  unfold str_in, reserved_schema_keys. cbn [existsb]. intros H.
  repeat (apply orb_false_elim in H; destruct H as [? H]). tauto.
Qed.

(** The renaming of a schema dictionary is a schema dictionary. *)
Lemma _rename_schema_fields_null (j : Json) :
  _rename_schema_fields j = Ok JNull -> j = JNull.
Proof.
  destruct j as [| | | | |kvs]; try (cbn; discriminate); [reflexivity|].
  cbn [_rename_schema_fields].
  match goal with |- context [mbind _ ?m] => destruct m as [s2|e] end; [|discriminate].
  cbn [mbind result_bind].
  match goal with |- context [mbind _ ?m] => destruct m as [s6|e] end; [|discriminate].
  cbn [mbind result_bind].
  match goal with |- context [match ?m with Some _ => _ | None => _ end = _] =>
    destruct m as [[[p|]|e]|] end; cbn [mbind result_bind]; discriminate.
Qed.

Lemma _rename_schema_fields_obj (kvs : list (string * Json)) (j' : Json) :
  _rename_schema_fields (JObj kvs) = Ok j' ->
  exists out,
    j' = JObj out
    /\ (forall s, dict_get "type" kvs = Some (JStr s) ->
                  dict_get "type_" out = Some (JStr (upper s)))
    /\ (forall v, dict_get "format" kvs = Some v -> v <> JNull ->
                  dict_get "format_" out = Some v)
    /\ dict_get "type" out = None
    /\ dict_get "format" out = None
    /\ (forall items, dict_get "items" kvs = Some items -> items <> JNull ->
                      exists items', _rename_schema_fields items = Ok items'
                                     /\ dict_get "items" out = Some items')
    /\ (forall props, dict_get "properties" kvs = Some (JObj props) ->
                      exists props',
                        mapM (fun kv => v ← _rename_schema_fields (snd kv); Ok (fst kv, v))
                          props = Ok props'
                        /\ dict_get "properties" out = Some (JObj props'))
    /\ (forall k, str_in k reserved_schema_keys = false ->
                  dict_get k out = dict_get k kvs).
Proof.
  cbn [_rename_schema_fields]. rewrite !dict_find_map_get.
  destruct (dict_get "type" kvs) as [[| | |s| |]|] eqn:Ht; cbn [mbind result_bind];
    try discriminate.
  all: dict_norm.
  all: destruct (dict_get "items" kvs) as [items|] eqn:Hi; cbn [option_map];
    [destruct (_rename_schema_fields items) as [items'|] eqn:Hri;
       cbn [mbind result_bind]; [|discriminate]|].
  all: destruct (dict_get "properties" kvs) as [[| | | | |props]|] eqn:Hp;
    cbn [option_map mbind result_bind]; try discriminate.
  all: destruct (dict_get "format" kvs) as [[]|] eqn:Hf.
  all: try (destruct items' eqn:Hit; [apply _rename_schema_fields_null in Hri|..]).
  all: cbn [mbind result_bind]; try discriminate.
  all: try (destruct (mapM _ props) as [props'|] eqn:Hm; cbn [mbind result_bind];
            [|discriminate]).
  all: intros [= <-]; eexists; (split; [reflexivity|]).
  all: repeat match goal with |- _ /\ _ => split end.
  all: intros; simplify_eq; dict_norm; try congruence; try reflexivity.
  all: try (eexists; split; [eassumption|]; dict_norm; reflexivity).
  all: match goal with
       | H : str_in _ _ = false |- _ =>
           destruct (reserved_schema_keys_other _ H) as (E1 & E2 & E3 & E4 & E5 & E6)
       end;
       repeat first [rewrite dict_get_set | rewrite dict_get_remove
                    | rewrite E1 | rewrite E2 | rewrite E3 | rewrite E4
                    | rewrite E5 | rewrite E6];
       reflexivity.
Qed.

(** Renaming rewrites every [type] to [type_] and every [format] to
    [format_], in a schema and, through [items] and [properties], in the
    schemas nested in it. *)
Lemma _rename_schema_fields_renamed (j j' : Json) :
  _rename_schema_fields j = Ok j' -> renamed j j'.
Proof.
  enough (H : (forall j', _rename_schema_fields j = Ok j' -> renamed j j')
              /\ match j with
                 | JObj props =>
                     Forall (fun kv => forall j', _rename_schema_fields (snd kv) = Ok j' ->
                                                  renamed (snd kv) j') props
                 | _ => True
                 end) by (apply H).
  clear j'. induction j as [| b | n | s | l _ | kvs IH] using Json_nested_ind.
  1: { split; [intros j'; cbn; intros [= <-]; constructor | exact I]. }
  1-4: split; [intros j'; cbn; discriminate | exact I].
  assert (HF : Forall (fun kv => forall j', _rename_schema_fields (snd kv) = Ok j' ->
                                            renamed (snd kv) j') kvs).
  { eapply Forall_impl; [exact IH|]. intros kv Hkv. apply Hkv. }
  split; [|exact HF].
  intros j' Hj.
  destruct (_rename_schema_fields_obj kvs j' Hj)
    as (out & -> & Ht & Hf & Hnt & Hnf & Hi & Hp & Hk).
  apply renamed_schema; try assumption.
  - intros items Hget Hne. destruct (Hi items Hget Hne) as (items' & Hr & Hg).
    exists items'. split; [exact Hg|].
    apply dict_get_In in Hget. rewrite Forall_forall in HF.
    apply (HF ("items", items)); [apply list_elem_of_In; exact Hget | exact Hr].
  - intros props Hget. destruct (Hp props Hget) as (props' & Hm & Hg).
    exists props'. split; [exact Hg|].
    assert (HFp : Forall (fun kv => forall j', _rename_schema_fields (snd kv) = Ok j' ->
                                               renamed (snd kv) j') props).
    { apply dict_get_In in Hget. rewrite Forall_forall in IH.
      apply (IH ("properties", JObj props)). apply list_elem_of_In. exact Hget. }
    apply mapM_result_inv in Hm. clear -Hm HFp.
    induction Hm as [|[k v] [k' v'] props props' Hkv _ IHm]; [constructor|].
    inversion HFp as [|? ? Hv HFp']; subst. cbn [fst snd] in Hkv, Hv.
    destruct (_rename_schema_fields v) as [w|e] eqn:Hw; [|discriminate].
    cbn in Hkv. injection Hkv as <- <-.
    constructor; [split; [reflexivity | apply Hv; reflexivity] | apply IHm; exact HFp'].
Qed.

(** C6, as the code has it.  Whatever schema the model library emits, the
    [required] entry of a synthesized schema is the caller's list when that
    list is not empty, and otherwise (no list, or an empty one) exactly the
    fixed-name parameters without a default value.  For
    [f(a: int, b: str = "x")] this gives [required = ["a"]].  The schema
    synthesized for [f] still has raw [type] keys; in the declaration built
    from [f] each of them has been rewritten to [type_] with the type name
    in upper case, for the schema itself and for both properties, and no raw
    [type] or [format] key is left anywhere.  In general, renaming rewrites
    every [type] to [type_] and every [format] to [format_], in a schema and
    in the schemas nested under [items] and [properties], and leaves the
    result clean. *)
Theorem schema_synthesis :
  (forall create f descriptions required signature s,
      f_signature f = Some signature ->
      _generate_schema create f descriptions required = Ok s ->
      dict_get "required" (schema_parameters s)
      = Some (JList (map JStr
                       match required with
                       | Some (r :: rs) => r :: rs
                       | Some [] | None => inferred_required signature
                       end)))
  /\ (exists s,
        _generate_schema pydantic_schema f_ab None None = Ok s
        /\ dict_get "required" (schema_parameters s) = Some (JList [JStr "a"])
        /\ schema_parameters s
           = [("type", JStr "object");
              ("properties", JObj [("a", JObj [("type", JStr "integer")]);
                                   ("b", JObj [("type", JStr "string")])]);
              ("required", JList [JStr "a"])])
  /\ (exists declaration,
        from_function f_ab None = Ok declaration
        /\ has_raw_key (fdp_parameters (_encode_fd declaration)) = false
        /\ dict_get "required"
             match fdp_parameters (_encode_fd declaration) with
             | JObj kvs => kvs
             | _ => []
             end = Some (JList [JStr "a"])
        /\ fdp_parameters (_encode_fd declaration)
           = JObj [("required", JList [JStr "a"]);
                   ("type_", JStr "OBJECT");
                   ("properties", JObj [("a", JObj [("type_", JStr "INTEGER")]);
                                        ("b", JObj [("type_", JStr "STRING")])])])
  /\ (forall j j', _rename_schema_fields j = Ok j' ->
                   wire_clean j' = true /\ renamed j j').
Proof.
  split; [|split; [|split]].
  - intros create f descriptions required signature s Hsig.
    unfold _generate_schema. rewrite Hsig. cbn [mbind result_bind].
    destruct (as_dict _) as [parameters|e]; [|discriminate]. cbn [mbind result_bind].
    match goal with |- context [mbind _ ?m] => destruct m as [parameters'|e] end;
      [|discriminate].
    cbn [mbind result_bind]. intros [= <-]. cbn [schema_parameters].
    rewrite dict_get_set_eq. do 3 f_equal.
    assert (Hinf : map p_name
                     (List.filter
                        (fun p => match p_default p with
                                  | Some _ => false
                                  | None => is_fixed_kind (p_kind p)
                                  end) signature)
                   = inferred_required signature).
    { unfold inferred_required. f_equal. apply List.filter_ext. intros p.
      unfold has_default. destruct (p_default p), (is_fixed_kind (p_kind p)); reflexivity. }
    destruct required as [[|r rs]|]; [exact Hinf | reflexivity | exact Hinf].
  - eexists. split; [reflexivity|]. split; reflexivity.
  - eexists. split; [reflexivity|]. repeat split.
  - intros j j' Hj. split;
      [apply (_rename_schema_fields_clean j) | apply _rename_schema_fields_renamed];
      exact Hj.
Qed.

Lemma schema_synthesis_witness :
  dict_get "required"
    [("type", JStr "object");
     ("properties", JObj [("a", JObj [("type", JStr "integer")]);
                          ("b", JObj [("type", JStr "string")])]);
     ("required", JList [JStr "b"])]
  = Some (JList (map JStr ["b"])).
Proof.
  apply (proj1 schema_synthesis pydantic_schema f_ab None (Some ["b"])
           [mkParam "a" POSITIONAL_OR_KEYWORD AnnInt None;
            mkParam "b" POSITIONAL_OR_KEYWORD AnnStr (Some (JStr "x"))]
           (mkSchema "f" None
              [("type", JStr "object");
               ("properties", JObj [("a", JObj [("type", JStr "integer")]);
                                    ("b", JObj [("type", JStr "string")])]);
               ("required", JList [JStr "b"])])); reflexivity.
Defined.

(** C6, as the specification states it, fails: an empty [required] list
    supplied by the caller is not taken verbatim but replaced by the
    inferred one. *)
Lemma required_empty_counterexample :
  exists s,
    _generate_schema pydantic_schema f_ab None (Some []) = Ok s
    /\ dict_get "required" (schema_parameters s) = Some (JList [JStr "a"])
    /\ dict_get "required" (schema_parameters s) <> Some (JList (map JStr [])).
Proof. eexists. split; [reflexivity|]. split; [reflexivity | discriminate]. Qed.

(** ** The bound on the loop is never reached *)

Lemma keeps_script_bind {A B} (m : M A) (k : A -> M B) :
  keeps_script m -> (forall a, keeps_script (k a)) -> keeps_script (m ≫= k).
Proof.
  intros Hm Hk st. unfold mbind, M_bind. specialize (Hm st).
  destruct (m st) as [[a|e] st1]; cbn [snd] in Hm; [|exact Hm].
  rewrite (Hk a st1). exact Hm.
Qed.

Lemma keeps_script_invoke_all (lib : FunctionLibrary) (fcs : list FunctionCall) :
  keeps_script (invoke_all lib fcs).
Proof.
  unfold invoke_all. induction fcs as [|fc fcs IH]; cbn [mapM]; [intros st; reflexivity|].
  apply keeps_script_bind.
  - apply keeps_script_bind.
    + unfold FunctionLibrary_call. apply keeps_script_bind; [intros st; reflexivity|].
      intros [p|p f|p]; try (intros st; reflexivity).
      apply keeps_script_bind; [intros st; reflexivity|]. intros _.
      apply keeps_script_bind; intros; intros st; reflexivity.
    + intros [fr|]; intros st; reflexivity.
  - intros fr. apply keeps_script_bind; [exact IH|]. intros ? st. reflexivity.
Qed.

(** A successful exchange takes one outcome from the script. *)
Lemma generate_content_consumes (self : GenerativeModel) (contents : PyVal)
    (generation_config : option (list (string * Json)))
    (safety_settings : option (list (string * string))) (stream : bool)
    (tools : option FunctionLibraryType) (tool_config : option ToolConfigType)
    (st st' : State) (r : Response) :
  generate_content self contents generation_config safety_settings stream tools
    tool_config st = (Ok r, st') ->
  length (script st) = S (length (script st')).
Proof.
  unfold generate_content, mbind, M_bind, lift.
  destruct (_prepare_request _ _ _ _ _ _); [|discriminate].
  unfold client_generate_content. destruct (script st) as [|o rest]; [discriminate|].
  intros [= _ <-]. reflexivity.
Qed.

(** Any bound above the length of the script gives the same run of the
    loop: the iteration bound of [_handle_afc] cuts nothing off. *)
Lemma _handle_afc_fuel (n m : nat) (self_model : GenerativeModel) (response : Response)
    (h : list Content) (generation_config : list (string * Json))
    (safety_settings : option (list (string * string))) (stream : bool)
    (lib : FunctionLibrary) (st : State) :
  length (script st) < n -> length (script st) < m ->
  afc_loop n self_model response h generation_config safety_settings stream lib st
  = afc_loop m self_model response h generation_config safety_settings stream lib st.
Proof.
  revert m response h st. induction n as [|n IH]; intros m response h st Hn Hm; [lia|].
  destruct m as [|m]; [lia|].
  rewrite !afc_loop_unfold.
  destruct (_get_function_calls response) as [[|fc fcs]|e]; try reflexivity.
  destruct (all_callable lib (fc :: fcs)) as [[|]|e]; try reflexivity.
  destruct (list_index (candidates response) 0) as [c0|e]; [|reflexivity].
  pose proof (keeps_script_invoke_all lib (fc :: fcs) st) as Hk.
  destruct (invoke_all lib (fc :: fcs) st) as [[ps|e] st1]; [|reflexivity].
  cbn [snd] in Hk. cbv zeta.
  destruct (generate_content self_model _ _ _ _ _ _ st1) as [[r|e] st2] eqn:Hg;
    [|reflexivity].
  apply generate_content_consumes in Hg. rewrite Hk in Hg.
  destruct (_check_response r stream); [|reflexivity].
  apply IH; lia.
Qed.

(** * Further properties of the code *)

(** ** How dictionaries are sniffed *)

Lemma convert_content_dict (d : list (string * PyVal)) (y : PyVal) :
  is_content_dict d = true ->
  convert_if_mapping (VDict d) = Ok y -> exists c, y = VContent c.
Proof.
  intros Hc. simpl. rewrite Hc.
  match goal with |- context [mbind _ ?m] => destruct m as [ps|e] end; simpl; [|discriminate].
  destruct (glm_Content ps d) as [c|e]; simpl; [|discriminate].
  intros [= <-]. eauto.
Qed.

Lemma convert_part_dict (d : list (string * PyVal)) (y : PyVal) :
  is_content_dict d = false -> is_part_dict d = true ->
  convert_if_mapping (VDict d) = Ok y -> exists p, y = VPart p.
Proof.
  intros Hc Hp. simpl. rewrite Hc, Hp.
  destruct d as [|[k v] [|? ?]]; try discriminate.
  destruct (String.eqb k "inline_data").
  { destruct (to_blob_open convert_if_mapping v); simpl; [|discriminate].
    intros [= <-]. eauto. }
  destruct (String.eqb k "file_data").
  { destruct (to_file_data v); simpl; [|discriminate]. intros [= <-]. eauto. }
  destruct (glm_Part_field k v); simpl; [|discriminate]. intros [= <-]. eauto.
Qed.

Lemma convert_blob_dict (d : list (string * PyVal)) (y : PyVal) :
  is_content_dict d = false -> is_part_dict d = false ->
  convert_if_mapping (VDict d) = Ok y ->
  is_blob_dict d = true /\ exists b, y = VBlob b /\ glm_Blob d = Ok b.
Proof.
  intros Hc Hp. simpl. rewrite Hc, Hp.
  destruct (is_blob_dict d); [|discriminate].
  destruct (glm_Blob d) as [b|e]; simpl; [|discriminate].
  intros [= <-]. eauto.
Qed.

Lemma convert_unrecognised (d : list (string * PyVal)) :
  is_content_dict d = false -> is_part_dict d = false -> is_blob_dict d = false ->
  convert_if_mapping (VDict d) = Err KeyError.
Proof. intros Hc Hp Hb. simpl. rewrite Hc, Hp, Hb. reflexivity. Qed.

(** X1. [_convert_dict] sniffs in a fixed order.  Whatever it returns for a
    dictionary with a ["parts"] key is a [Content]; a [Part] comes only from a
    dictionary without ["parts"] whose single key is one of the five part
    keys; a [Blob] only from a dictionary of neither kind that has both
    ["mime_type"] and ["data"]; nothing else is ever returned. *)
Theorem _convert_dict_dispatch (d : list (string * PyVal)) (y : PyVal) :
  _convert_dict d = Ok y ->
  (is_content_dict d = true /\ exists c, y = VContent c)
  \/ (is_content_dict d = false /\ is_part_dict d = true /\ exists p, y = VPart p)
  \/ (is_content_dict d = false /\ is_part_dict d = false /\ is_blob_dict d = true
      /\ exists b, y = VBlob b).
Proof.
  unfold _convert_dict. intros H.
  destruct (is_content_dict d) eqn:Hc.
  - left. split; [reflexivity|]. eapply convert_content_dict; eauto.
  - destruct (is_part_dict d) eqn:Hp.
    + right. left. repeat split. eapply convert_part_dict; eauto.
    + right. right. destruct (convert_blob_dict d y Hc Hp H) as (Hb & b & -> & _).
      repeat split; eauto.
Qed.

Lemma _convert_dict_dispatch_witness :
  is_content_dict [("parts", VStr "a")] = true
  /\ exists c, VContent (mkContent "" [PText "a"]) = VContent c.
Proof.
  destruct (_convert_dict_dispatch [("parts", VStr "a")]
              (VContent (mkContent "" [PText "a"])) eq_refl)
    as [H | [[H _] | [H _]]]; [exact H | discriminate H | discriminate H].
Defined.

(** X2. A dictionary of none of the three shapes is refused with [KeyError]
    by every coercer that looks at it; only [to_content] tests for an empty
    input first, so the empty dictionary gets [ValueError] there and
    [KeyError] everywhere else. *)
Theorem unrecognised_dict_KeyError (d : list (string * PyVal)) :
  is_content_dict d = false -> is_part_dict d = false -> is_blob_dict d = false ->
  to_blob (VDict d) = Err KeyError
  /\ to_part (VDict d) = Err KeyError
  /\ strict_to_content (VDict d) = Err KeyError
  /\ to_content (VDict d) = Err (match d with [] => ValueError | _ => KeyError end)
  /\ to_contents (VDict d) = Err (match d with [] => ValueError | _ => KeyError end)
  /\ to_contents (VList [VDict d]) = Err KeyError.
Proof.
  intros Hc Hp Hb. pose proof (convert_unrecognised d Hc Hp Hb) as H.
  assert (Hcontent : to_content (VDict d)
                     = Err (match d with [] => ValueError | _ => KeyError end)).
  { unfold to_content. destruct d as [|kv d]; [reflexivity|].
    cbn [truthy length Nat.eqb negb]. rewrite H. reflexivity. }
  unfold to_blob, to_blob_open, to_part, to_part_open, strict_to_content.
  rewrite H. repeat split; try exact Hcontent.
  - unfold to_contents. cbn [is_mapping]. rewrite Hcontent. reflexivity.
  - unfold to_contents. cbn [is_mapping is_iterable_not_str mapM].
    unfold strict_to_content. rewrite H. reflexivity.
Qed.

Lemma unrecognised_dict_KeyError_witness :
  to_blob (VDict [("foo", VInt 1)]) = Err KeyError
  /\ to_part (VDict [("foo", VInt 1)]) = Err KeyError
  /\ strict_to_content (VDict [("foo", VInt 1)]) = Err KeyError
  /\ to_content (VDict [("foo", VInt 1)]) = Err KeyError
  /\ to_contents (VDict [("foo", VInt 1)]) = Err KeyError
  /\ to_contents (VList [VDict [("foo", VInt 1)]]) = Err KeyError.
Proof. apply (unrecognised_dict_KeyError [("foo", VInt 1)]); reflexivity. Defined.

(** ** What the coercers accept *)

(** X3. [to_blob] succeeds only on a [Blob], which it returns as it is, on
    an image, or on a dictionary that has the keys ["mime_type"] and
    ["data"], no ["parts"] key, and is not a one-key part dictionary. *)
Theorem to_blob_accepts (x : PyVal) (b : Blob) :
  to_blob x = Ok b ->
  x = VBlob b
  \/ (exists img, x = VImage img /\ image_to_blob img = Ok b)
  \/ (exists d, x = VDict d /\ is_content_dict d = false /\ is_part_dict d = false
                /\ is_blob_dict d = true /\ glm_Blob d = Ok b).
Proof.
  unfold to_blob, to_blob_open.
  destruct x; try (simpl; discriminate).
  - destruct (convert_if_mapping (VDict kvs)) as [y|e] eqn:Hy; [|discriminate].
    cbn [mbind result_bind]. intros Hb. right. right. exists kvs.
    destruct (is_content_dict kvs) eqn:Hc.
    { destruct (convert_content_dict kvs y Hc Hy) as [c ->]. discriminate. }
    destruct (is_part_dict kvs) eqn:Hp.
    { destruct (convert_part_dict kvs y Hc Hp Hy) as [p ->]. discriminate. }
    destruct (convert_blob_dict kvs y Hc Hp Hy) as (Hbd & b' & -> & Hg).
    cbn in Hb. injection Hb as <-. auto.
  - simpl. intros [= <-]. left. reflexivity.
  - simpl. intros H. right. left. eauto.
Qed.

Lemma to_blob_accepts_witness :
  VImage (PilImage true (Ok []) (Ok [])) = VBlob (mkBlob "image/png" [])
  \/ (exists img, VImage (PilImage true (Ok []) (Ok [])) = VImage img
                  /\ image_to_blob img = Ok (mkBlob "image/png" []))
  \/ (exists d, VImage (PilImage true (Ok []) (Ok [])) = VDict d /\ is_content_dict d = false
                /\ is_part_dict d = false /\ is_blob_dict d = true
                /\ glm_Blob d = Ok (mkBlob "image/png" [])).
Proof. apply (to_blob_accepts (VImage (PilImage true (Ok []) (Ok []))) (mkBlob "image/png" [])).
  reflexivity.
Defined.

Lemma mapM_result_length {A B} (f : A -> result B) (xs : list A) (ys : list B) :
  mapM f xs = Ok ys -> length ys = length xs.
Proof. intros H. apply mapM_result_inv in H. symmetry. eapply Forall2_length; eauto. Qed.

Lemma to_content_list_inv (xs : list PyVal) (c : Content) :
  to_content (VList xs) = Ok c ->
  role c = "" /\ Forall2 (fun x p => to_part x = Ok p) xs (parts c).
Proof.
  unfold to_content. destruct (negb (truthy (VList xs))); [discriminate|].
  cbn [convert_if_mapping mbind result_bind is_iterable_not_str].
  destruct (mapM to_part xs) as [ps|e] eqn:Hm; [|discriminate].
  cbn. intros [= <-]. split; [reflexivity|]. cbn. apply mapM_result_inv. exact Hm.
Qed.

(** X4. A list given to [to_content] becomes one message: the role is left
    empty and there is exactly one part per element, each the [to_part] of
    its element, in order; the empty list is refused with [ValueError], and
    so is a list of which any element is refused by [to_part]. *)
Theorem to_content_list (xs : list PyVal) :
  (xs = [] -> to_content (VList xs) = Err ValueError)
  /\ (forall c, to_content (VList xs) = Ok c ->
        role c = "" /\ length (parts c) = length xs
        /\ Forall2 (fun x p => to_part x = Ok p) xs (parts c))
  /\ (forall x, x ∈ xs -> is_Ok (to_part x) = false ->
        is_Ok (to_content (VList xs)) = false).
Proof.
  split; [|split].
  - intros ->. reflexivity.
  - intros c H. destruct (to_content_list_inv xs c H) as [Hr Hp].
    repeat split; auto. symmetry. eapply Forall2_length; eauto.
  - intros x Hx Hfail. destruct (to_content (VList xs)) as [c|e] eqn:H; [|reflexivity].
    destruct (to_content_list_inv xs c H) as [_ Hp].
    apply list_elem_of_lookup in Hx. destruct Hx as [i Hi].
    destruct (Forall2_lookup_l _ _ _ _ _ Hp Hi) as (p & _ & Hp').
    rewrite Hp' in Hfail. discriminate.
Qed.

Lemma to_content_list_witness :
  role (mkContent "" [PText "a"; PText "b"]) = ""
  /\ length (parts (mkContent "" [PText "a"; PText "b"])) = length [VStr "a"; VStr "b"]
  /\ Forall2 (fun x p => to_part x = Ok p) [VStr "a"; VStr "b"]
       (parts (mkContent "" [PText "a"; PText "b"])).
Proof.
  apply (proj1 (proj2 (to_content_list [VStr "a"; VStr "b"]))
           (mkContent "" [PText "a"; PText "b"])).
  reflexivity.
Defined.

(** A message, canonical or as a dictionary, is never accepted as a part. *)
Lemma to_part_refuses_messages (x : PyVal) :
  is_strict_shape x = true -> is_Ok (to_part x) = false.
Proof.
  unfold to_part, to_part_open. destruct x; try discriminate.
  - cbn [is_strict_shape]. intros Hc.
    destruct (convert_if_mapping (VDict kvs)) as [y|e] eqn:Hy; [|reflexivity].
    destruct (convert_content_dict kvs y Hc Hy) as [c ->]. reflexivity.
  - reflexivity.
Qed.

(** X5. The two outcomes of [to_contents] on a list.  When it succeeds,
    either every element was converted strictly and the result has one
    content per element, or no element at all is a message (a [Content] or
    a dictionary with a ["parts"] key) and the result is the single content
    [to_content] makes of the list, with one part per element.  A list that
    mixes messages with bare parts is therefore never accepted. *)
Theorem to_contents_list_outcomes (xs : list PyVal) (cs : list Content) :
  to_contents (VList xs) = Ok cs ->
  Forall2 (fun x c => strict_to_content x = Ok c) xs cs
  \/ (Forall (fun x => is_strict_shape x = false) xs
      /\ exists c, cs = [c] /\ to_content (VList xs) = Ok c
                   /\ role c = "" /\ length (parts c) = length xs).
Proof.
  unfold to_contents. cbn [is_mapping is_iterable_not_str].
  destruct (mapM strict_to_content xs) as [cs'|e] eqn:Hm.
  - intros [= <-]. left. apply mapM_result_inv. exact Hm.
  - destruct e; try discriminate.
    destruct (to_content (VList xs)) as [c|e] eqn:Hc; [|discriminate].
    cbn. intros [= <-]. right.
    destruct (to_content_list_inv xs c Hc) as [Hr Hp]. split.
    + clear Hm Hc Hr. induction Hp as [|x p xs ps Hx _ IH]; constructor; [|exact IH].
      destruct (is_strict_shape x) eqn:Hs; [|reflexivity].
      apply to_part_refuses_messages in Hs. rewrite Hx in Hs. discriminate.
    + exists c. repeat split; auto. symmetry. eapply Forall2_length; eauto.
Qed.

Lemma to_contents_list_outcomes_witness :
  Forall2 (fun x c => strict_to_content x = Ok c) [VStr "a"; VStr "b"]
    [mkContent "" [PText "a"; PText "b"]]
  \/ (Forall (fun x => is_strict_shape x = false) [VStr "a"; VStr "b"]
      /\ exists c, [mkContent "" [PText "a"; PText "b"]] = [c]
                   /\ to_content (VList [VStr "a"; VStr "b"]) = Ok c
                   /\ role c = "" /\ length (parts c) = length [VStr "a"; VStr "b"]).
Proof.
  apply (to_contents_list_outcomes [VStr "a"; VStr "b"]
           [mkContent "" [PText "a"; PText "b"]]).
  reflexivity.
Defined.

(** X6. Canonical contents pass through [to_contents] unchanged, also the
    empty sequence and an absent input; applied to its own result,
    [to_contents] therefore returns it again. *)
Theorem to_contents_canonical (x : PyVal) (cs : list Content) :
  to_contents x = Ok cs ->
  to_contents (VList (map VContent cs)) = Ok cs
  /\ (x = VNone -> cs = [])
  /\ (forall h, x = VList (map VContent h) -> cs = h).
Proof.
  intros H. split; [apply to_contents_history|split].
  - intros ->. injection H as <-. reflexivity.
  - intros h ->. rewrite to_contents_history in H. injection H as <-. reflexivity.
Qed.

Lemma to_contents_canonical_witness :
  to_contents (VList (map VContent [mkContent "" [PText "hello"]]))
  = Ok [mkContent "" [PText "hello"]].
Proof. apply (proj1 (to_contents_canonical (VStr "hello") _ eq_refl)). Defined.

Lemma convert_content_eq (d : list (string * PyVal)) :
  is_content_dict d = true ->
  convert_if_mapping (VDict d)
  = (ps ← content_parts_of d; VContent <$> glm_Content ps d).
Proof. intros H. simpl. rewrite H. reflexivity. Qed.

(** X7. In a content dictionary, a string under ["parts"] means the same as
    the list that holds just this string, wherever the entry stands and
    whatever else the dictionary holds. *)
Theorem string_parts_as_list (before after : list (string * PyVal)) (s : string) :
  _convert_dict (before ++ ("parts", VStr s) :: after)
  = _convert_dict (before ++ ("parts", VList [VStr s]) :: after).
Proof.
  unfold _convert_dict.
  assert (Hc : forall v, is_content_dict (before ++ ("parts", v) :: after) = true).
  { intros v. unfold is_content_dict, dict_has.
    induction before as [|[k w] before IH]; cbn [app dict_get].
    - rewrite String.eqb_refl. reflexivity.
    - destruct (String.eqb "parts" k); [reflexivity | exact IH]. }
  rewrite !convert_content_eq by apply Hc.
  assert (Hg : forall ps,
             glm_Content ps (before ++ ("parts", VStr s) :: after)
             = glm_Content ps (before ++ ("parts", VList [VStr s]) :: after)).
  { intros ps. unfold glm_Content. rewrite !fold_left_app. reflexivity. }
  assert (Hp : content_parts_of (before ++ ("parts", VStr s) :: after)
               = content_parts_of (before ++ ("parts", VList [VStr s]) :: after)).
  { clear Hc Hg. induction before as [|[k w] before IH]; cbn [app content_parts_of].
    - rewrite String.eqb_refl. reflexivity.
    - destruct (String.eqb "parts" k); [reflexivity | exact IH]. }
  rewrite Hp.
  destruct (content_parts_of (before ++ ("parts", VList [VStr s]) :: after)) as [ps|e];
    [|reflexivity].
  cbn [mbind result_bind]. rewrite Hg. reflexivity.
Qed.

(** X8. An image alone is a prompt: every coercer hands it to
    [image_to_blob] and wraps the blob as inline data, and whatever
    [image_to_blob] raises goes through every coercer unchanged.  A PNG
    file is saved as PNG and every other PIL image as JPEG; the blob carries
    the bytes the save wrote, and when the save raises (JPEG cannot hold
    every mode) that exception is the outcome.  An [IPython.display.Image]
    without a file name is refused with [ValueError]; with one, it carries
    its bytes under the MIME type guessed from the name, or
    [image/unknown]. *)
Theorem image_prompt (img : Image) :
  to_part (VImage img) = PInlineData <$> image_to_blob img
  /\ to_content (VImage img) = (b ← image_to_blob img; Ok (mkContent "" [PInlineData b]))
  /\ to_contents (VImage img)
     = (b ← image_to_blob img; Ok [mkContent "" [PInlineData b]])
  /\ match img with
     | PilImage is_png save_png save_jpeg =>
         image_to_blob img
         = (data ← (if is_png then save_png else save_jpeg);
            Ok (mkBlob (if is_png then "image/png" else "image/jpeg") data))
     | IPythonImage None _ _ => image_to_blob img = Err ValueError
     | IPythonImage (Some _) guessed data =>
         image_to_blob img
         = Ok (mkBlob (match guessed with Some m => m | None => "image/unknown" end) data)
     end.
Proof.
  assert (Hp : to_part (VImage img) = PInlineData <$> image_to_blob img) by reflexivity.
  assert (Hc : to_content (VImage img)
               = (b ← image_to_blob img; Ok (mkContent "" [PInlineData b]))).
  { unfold to_content. cbn [truthy negb convert_if_mapping mbind result_bind
                             is_iterable_not_str]. rewrite Hp.
    destruct (image_to_blob img); reflexivity. }
  repeat split; auto.
  - unfold to_contents. cbn [is_mapping is_iterable_not_str]. rewrite Hc.
    destruct (image_to_blob img); reflexivity.
  - destruct img as [[|] ? ?|[?|] ? ?]; reflexivity.
Qed.

(** ** Schemas *)

(** X9. Renaming touches nothing but the keys it is about.  On a schema
    dictionary it returns a dictionary in which every key other than
    [type], [format], [type_], [format_], [items] and [properties] has the
    value it had, a string [type] has become [type_] in upper case, a
    [format] has become [format_] unchanged, and the raw keys are gone. *)
Theorem _rename_schema_fields_keys (kvs : list (string * Json)) (j' : Json) :
  _rename_schema_fields (JObj kvs) = Ok j' ->
  exists out,
    j' = JObj out
    /\ (forall k, str_in k reserved_schema_keys = false ->
                  dict_get k out = dict_get k kvs)
    /\ (forall s, dict_get "type" kvs = Some (JStr s) ->
                  dict_get "type_" out = Some (JStr (upper s)))
    /\ (forall v, dict_get "format" kvs = Some v -> v <> JNull ->
                  dict_get "format_" out = Some v)
    /\ dict_get "type" out = None /\ dict_get "format" out = None.
Proof.
  cbn [_rename_schema_fields]. rewrite !dict_find_map_get.
  set (s1 := dict_remove "type" kvs).
  destruct (match dict_get "type" kvs with
            | Some JNull | None => Ok s1
            | Some (JStr s) => Ok (dict_set "type_" (JStr (upper s)) s1)
            | Some _ => Err AttributeError
            end) as [s2|e] eqn:E2; [|discriminate].
  cbn [mbind result_bind].
  set (s3 := dict_remove "format" s2).
  set (s4 := match dict_get "format" s2 with
             | Some JNull | None => s3
             | Some v => dict_set "format_" v s3
             end).
  set (s5 := dict_remove "items" s4).
  destruct (match option_map _rename_schema_fields (dict_get "items" kvs) with
            | Some items =>
                items ← items;
                match items with
                | JNull => Ok s5
                | _ => Ok (dict_set "items" items s5)
                end
            | None => Ok s5
            end) as [s6|e] eqn:E6; [|discriminate].
  cbn [mbind result_bind].
  set (s7 := dict_remove "properties" s6).
  intros Hout.
  (* how a key that is neither [items] nor [properties] travels from [s4] *)
  assert (H46 : forall k, k <> "items" -> dict_get k s6 = dict_get k s4).
  { intros k Hk.
    assert (H5 : dict_get k s5 = dict_get k s4) by (apply dict_get_remove_ne; exact Hk).
    destruct (option_map _rename_schema_fields (dict_get "items" kvs)) as [[i|e]|];
      try discriminate.
    - cbn [mbind result_bind] in E6.
      destruct i; injection E6 as <-; rewrite ?dict_get_set_ne by exact Hk; exact H5.
    - injection E6 as <-. exact H5. }
  assert (Hfinal : exists out,
             j' = JObj out
             /\ forall k, k <> "items" -> k <> "properties" ->
                          dict_get k out = dict_get k s4).
  { destruct (option_map _ (dict_get "properties" kvs)) as [[[props|]|e]|];
      try discriminate; cbn [mbind result_bind] in Hout; injection Hout as <-;
      eexists; (split; [reflexivity|]); intros k Hi Hp;
      rewrite ?dict_get_set_ne by exact Hp;
      unfold s7; rewrite dict_get_remove_ne by exact Hp; apply H46; exact Hi. }
  destruct Hfinal as (out & -> & Hk).
  exists out. split; [reflexivity|].
  assert (Hfmt : dict_get "format" s2 = dict_get "format" kvs).
  { destruct (dict_get "type" kvs) as [[]|]; try discriminate; injection E2 as <-;
      rewrite ?dict_get_set_ne by discriminate;
      unfold s1; apply dict_get_remove_ne; discriminate. }
  repeat split.
  - intros k Hres. unfold reserved_schema_keys, str_in in Hres. cbn [existsb] in Hres.
    repeat (apply orb_false_elim in Hres; destruct Hres as [? Hres]).
    repeat match goal with
           | H : String.eqb _ _ = false |- _ => apply String.eqb_neq in H
           end.
    rewrite Hk by assumption.
    assert (H34 : dict_get k s4 = dict_get k s3).
    { unfold s4. destruct (dict_get "format" s2) as [[]|]; try reflexivity;
        apply dict_get_set_ne; assumption. }
    rewrite H34. unfold s3. rewrite dict_get_remove_ne by assumption.
    destruct (dict_get "type" kvs) as [[]|]; try discriminate; injection E2 as <-;
      rewrite ?dict_get_set_ne by assumption;
      unfold s1; apply dict_get_remove_ne; assumption.
  - intros s Hs. rewrite Hk by discriminate. rewrite Hs in E2. injection E2 as <-.
    assert (H34 : forall v, dict_get "type_" (dict_set "type_" v s1) = Some v)
      by (intros; apply dict_get_set_eq).
    unfold s4.
    destruct (dict_get "format" (dict_set "type_" (JStr (upper s)) s1)) as [[]|];
      rewrite ?dict_get_set_ne by discriminate;
      unfold s3; rewrite dict_get_remove_ne by discriminate; apply dict_get_set_eq.
  - intros v Hv Hnn. rewrite Hk by discriminate. unfold s4. rewrite Hfmt, Hv.
    destruct v; try contradiction; apply dict_get_set_eq.
  - rewrite Hk by discriminate. unfold s4.
    assert (H3 : dict_get "type" s3 = None).
    { unfold s3. rewrite dict_get_remove_ne by discriminate.
      destruct (dict_get "type" kvs) as [[]|]; try discriminate; injection E2 as <-;
        rewrite ?dict_get_set_ne by discriminate; apply dict_get_remove_eq. }
    destruct (dict_get "format" s2) as [[]|]; rewrite ?dict_get_set_ne by discriminate;
      exact H3.
  - rewrite Hk by discriminate. unfold s4.
    assert (H3 : dict_get "format" s3 = None) by apply dict_get_remove_eq.
    destruct (dict_get "format" s2) as [[]|]; rewrite ?dict_get_set_ne by discriminate;
      exact H3.
Qed.

Lemma _rename_schema_fields_keys_witness :
  exists out,
    JObj [("description", JStr "d"); ("type_", JStr "STRING")] = JObj out
    /\ (forall k, str_in k reserved_schema_keys = false ->
                  dict_get k out
                  = dict_get k [("type", JStr "string"); ("description", JStr "d")])
    /\ (forall s, dict_get "type" [("type", JStr "string"); ("description", JStr "d")]
                  = Some (JStr s) ->
                  dict_get "type_" out = Some (JStr (upper s)))
    /\ (forall v, dict_get "format" [("type", JStr "string"); ("description", JStr "d")]
                  = Some v -> v <> JNull -> dict_get "format_" out = Some v)
    /\ dict_get "type" out = None /\ dict_get "format" out = None.
Proof.
  apply (_rename_schema_fields_keys [("type", JStr "string"); ("description", JStr "d")]).
  reflexivity.
Defined.

Lemma dict_get_None_remove {V} (k k' : string) (d : list (string * V)) :
  dict_get k d = None -> dict_get k (dict_remove k' d) = None.
Proof.
  intros H. destruct (String.eqb_spec k k') as [->|Hne].
  - apply dict_get_remove_eq.
  - rewrite dict_get_remove_ne by exact Hne. exact H.
Qed.

(** X10. Whatever schema the model library emits, a synthesized schema
    carries the name and the docstring of the function, has a [required]
    entry, and has lost every [title]: the one of the schema itself and the
    one of each property.  A callable without an introspectable signature
    is refused with [ValueError]. *)
Theorem _generate_schema_shape
    (create : string -> list (string * (Annotation * option string)) -> Json)
    (f : PyFunction) (descriptions : option (list (string * string)))
    (required : option (list string)) :
  (f_signature f = None ->
   _generate_schema create f descriptions required = Err ValueError)
  /\ (forall s, _generate_schema create f descriptions required = Ok s ->
        schema_name s = f_name f /\ schema_description s = f_doc f
        /\ dict_get "title" (schema_parameters s) = None
        /\ (exists r, dict_get "required" (schema_parameters s) = Some (JList r))
        /\ forall props,
             dict_get "properties" (schema_parameters s) = Some (JObj props) ->
             Forall (fun kv => exists function_arg,
                                 snd kv = JObj function_arg
                                 /\ dict_get "title" function_arg = None) props).
Proof.
  split.
  - intros H. unfold _generate_schema. rewrite H. reflexivity.
  - intros s. unfold _generate_schema.
    destruct (f_signature f) as [defaults|]; [|discriminate]. cbn [mbind result_bind].
    destruct (as_dict _) as [parameters|e]; [|discriminate]. cbn [mbind result_bind].
    set (p1 := dict_remove "title" parameters).
    assert (T1 : dict_get "title" p1 = None) by apply dict_get_remove_eq.
    match goal with |- context [mbind _ ?m] => destruct m as [p2|e] eqn:E2 end;
      [|discriminate].
    cbn [mbind result_bind]. intros [= <-]. cbn [schema_name schema_description
                                                  schema_parameters].
    rewrite dict_get_set_ne by discriminate. rewrite dict_get_set_eq.
    split; [reflexivity|]. split; [reflexivity|].
    assert (H2 : dict_get "title" p2 = None
                 /\ forall props, dict_get "properties" p2 = Some (JObj props) ->
                      Forall (fun kv => exists function_arg,
                                          snd kv = JObj function_arg
                                          /\ dict_get "title" function_arg = None) props).
    { destruct (dict_get "properties" p1) as [properties|] eqn:Hprops.
      - destruct (as_dict properties) as [props0|e]; [|discriminate].
        cbn [mbind result_bind] in E2.
        match type of E2 with context [mbind _ ?m] => destruct m as [props1|e] eqn:Em end;
          [|discriminate].
        cbn [mbind result_bind] in E2. injection E2 as <-.
        split; [rewrite dict_get_set_ne by discriminate; exact T1|].
        intros props. rewrite dict_get_set_eq. intros [= <-].
        apply mapM_result_inv in Em. clear Hprops.
        induction Em as [|entry kv props0 props1 Hkv _ IH]; constructor; [|exact IH].
        destruct (as_dict (snd entry)) as [fa|e]; [|discriminate].
        cbn [mbind result_bind] in Hkv.
        destruct (find _ defaults) as [param|]; [|discriminate].
        injection Hkv as <-. cbn [snd]. eexists. split; [reflexivity|].
        destruct (is_optional (p_annotation param));
          rewrite ?dict_get_set_ne by discriminate; apply dict_get_remove_eq.
      - injection E2 as <-. split; [exact T1|].
        intros props Hp. rewrite Hprops in Hp. discriminate. }
    destruct H2 as [T2 P2]. split; [exact T2|]. split; [eauto|].
    intros props. rewrite dict_get_set_ne by discriminate. apply P2.
Qed.

Lemma _generate_schema_shape_witness :
  _generate_schema pydantic_schema (mkPyFunction "len" None None (fun _ => Ok JNull))
    None None = Err ValueError.
Proof.
  apply (proj1 (_generate_schema_shape pydantic_schema
                  (mkPyFunction "len" None None (fun _ => Ok JNull)) None None)).
  reflexivity.
Defined.

Lemma _generate_schema_names
    (create : string -> list (string * (Annotation * option string)) -> Json)
    (f : PyFunction) (descriptions : option (list (string * string)))
    (required : option (list string)) (s : Schema) :
  _generate_schema create f descriptions required = Ok s ->
  schema_name s = f_name f /\ schema_description s = f_doc f.
Proof.
  unfold _generate_schema.
  destruct (f_signature f) as [defaults|]; [|discriminate]. cbn [mbind result_bind].
  destruct (as_dict _) as [parameters|e]; [|discriminate]. cbn [mbind result_bind].
  match goal with |- context [mbind _ ?m] => destruct m as [p2|e] end; [|discriminate].
  cbn [mbind result_bind]. intros [= <-]. split; reflexivity.
Qed.

(** X11. A plain function handed over as a tool is registered under its own
    name: when [from_function] accepts it, the declaration is the callable
    one bound to this very function, it carries the function's name and
    docstring and a schema in wire names, and a library built from the bare
    function resolves that name to this declaration. *)
Theorem from_function_registers (f : PyFunction)
    (descriptions : option (list (string * string))) (declaration : Declaration) :
  from_function f descriptions = Ok declaration ->
  (exists p, declaration = CallableFunctionDeclaration p f
             /\ fdp_name p = f_name f
             /\ fdp_description p = description_str (f_doc f)
             /\ wire_clean (fdp_parameters p) = true)
  /\ callable declaration = true
  /\ name declaration = f_name f
  /\ (descriptions = None ->
      exists lib,
        FunctionLibrary_init (Tools_iterable [TT_single (FDT_callable f)]) = Ok lib
        /\ FunctionLibrary_getitem lib (f_name f) = Ok declaration
        /\ FunctionLibrary_to_proto lib = [[_encode_fd declaration]]).
Proof.
  intros H.
  assert (Hshape : exists p, declaration = CallableFunctionDeclaration p f
                             /\ fdp_name p = f_name f
                             /\ fdp_description p = description_str (f_doc f)
                             /\ wire_clean (fdp_parameters p) = true).
  { revert H. unfold from_function.
    destruct (_generate_schema pydantic_schema f _ None) as [s|e] eqn:Hs; [|discriminate].
    cbn [mbind result_bind].
    destruct (_generate_schema_names pydantic_schema f _ None s Hs) as [Hn Hd].
    unfold CallableFunctionDeclaration_init, FunctionDeclaration_init.
    destruct (_rename_schema_fields (JObj (schema_parameters s))) as [j|e] eqn:Hr;
      [|discriminate].
    cbn [mbind result_bind]. intros [= <-]. eexists. split; [reflexivity|].
    cbn [fdp_name fdp_description fdp_parameters]. rewrite Hn, Hd.
    repeat split. eapply _rename_schema_fields_clean. exact Hr. }
  destruct Hshape as (p & -> & Hn & Hd & Hw).
  split; [eauto|]. split; [reflexivity|]. split; [exact Hn|].
  intros ->. unfold FunctionLibrary_init, _make_tools.
  cbn [mapM _make_tool]. unfold Tool_init. cbn [mapM _make_function_declaration].
  rewrite H.
  assert (Hl : (∅ : gmap string Declaration) !! name (CallableFunctionDeclaration p f)
               = None) by apply lookup_empty.
  cbn [mbind result_bind mret result_ret index_declarations].
  rewrite Hl.
  cbn [mbind result_bind mret result_ret length andb].
  change (1 <? 1) with false.
  cbn [andb mbind result_bind index_tools tool_function_declarations
         index_declarations].
  rewrite Hl. cbn [mbind result_bind].
  eexists. split; [reflexivity|].
  unfold FunctionLibrary_getitem. cbn [lib_index].
  replace (f_name f) with (name (CallableFunctionDeclaration p f)) by exact Hn.
  rewrite lookup_insert_eq. split; reflexivity.
Qed.

Lemma from_function_registers_witness :
  exists lib,
    FunctionLibrary_init (Tools_iterable [TT_single (FDT_callable f_ab)]) = Ok lib
    /\ FunctionLibrary_getitem lib (f_name f_ab) = Ok f_ab_declaration
    /\ FunctionLibrary_to_proto lib = [[_encode_fd f_ab_declaration]].
Proof.
  apply (proj2 (proj2 (proj2 (from_function_registers f_ab None f_ab_declaration
                                eq_refl)))).
  reflexivity.
Defined.

(** ** Tools and libraries, whatever they are built from *)

(** Every entry the index loop leaves in the index was there before or is
    one of the declarations, under its own name. *)
Lemma index_declarations_sound (fds : list Declaration)
    (index index' : gmap string Declaration) :
  index_declarations index fds = Ok index' ->
  forall k v, index' !! k = Some v -> index !! k = Some v \/ (v ∈ fds /\ name v = k).
Proof.
  revert index. induction fds as [|fd fds IH]; intros index; cbn [index_declarations].
  - intros [= <-] k v Hk. left. exact Hk.
  - destruct (index !! name fd) eqn:Hfd; [discriminate|]. intros H k v Hk.
    destruct (IH _ H k v Hk) as [Hins | [Hin Hn]].
    + destruct (decide (name fd = k)) as [<- | Hne].
      * rewrite lookup_insert_eq in Hins. injection Hins as <-.
        right. split; [left | reflexivity].
      * rewrite lookup_insert_ne in Hins by exact Hne. left. exact Hins.
    + right. split; [right; exact Hin | exact Hn].
Qed.

Lemma index_tools_concat (tools : list Tool) (index : gmap string Declaration) :
  index_tools index tools
  = index_declarations index (concat (map tool_function_declarations tools)).
Proof.
  revert index. induction tools as [|t tools IH]; intros index; [reflexivity|].
  cbn [index_tools map concat]. rewrite index_declarations_app.
  destruct (index_declarations index (tool_function_declarations t));
    cbn [mbind result_bind]; [apply IH | reflexivity].
Qed.

(** A name index built from the empty one holds exactly the declarations,
    each under its name. *)
Lemma index_declarations_exact (fds : list Declaration) (index : gmap string Declaration) :
  index_declarations ∅ fds = Ok index ->
  NoDup (map name fds)
  /\ forall n d, index !! n = Some d <-> d ∈ fds /\ name d = n.
Proof.
  intros H. pose proof (index_declarations_sound _ _ _ H) as Hsound.
  apply index_declarations_Ok in H. destruct H as (Hnd & _ & Hfound & _).
  split; [exact Hnd|]. intros n d. split.
  - intros Hn. destruct (Hsound n d Hn) as [Hempty | Hin]; [|exact Hin].
    rewrite lookup_empty in Hempty. discriminate.
  - intros [Hin <-]. apply Hfound. exact Hin.
Qed.

(** X12. A tool that [Tool.__init__] accepts holds the coerced
    declarations in the order given, no two of them under the same name;
    looking a name up returns a declaration exactly when it is the one of
    that name, and any other name raises [KeyError]. *)
Theorem Tool_init_index (fdts : list FunctionDeclarationType) (t : Tool) :
  Tool_init fdts = Ok t ->
  mapM _make_function_declaration fdts = Ok (tool_function_declarations t)
  /\ NoDup (map name (tool_function_declarations t))
  /\ (forall n d,
        Tool_getitem t n = Ok d <-> d ∈ tool_function_declarations t /\ name d = n)
  /\ (forall n, n ∉ map name (tool_function_declarations t) ->
                Tool_getitem t n = Err KeyError).
Proof.
  unfold Tool_init.
  destruct (mapM _make_function_declaration fdts) as [fds|e]; [|discriminate].
  cbn [mbind result_bind].
  destruct (index_declarations ∅ fds) as [index|e] eqn:Hidx; [|discriminate].
  cbn [mbind result_bind]. intros [= <-]. cbn [tool_function_declarations].
  destruct (index_declarations_exact _ _ Hidx) as [Hnd Hex].
  split; [reflexivity|]. split; [exact Hnd|].
  unfold Tool_getitem. cbn [tool_index]. split.
  - intros n d. rewrite <- Hex. destruct (index !! n); split; congruence.
  - intros n Hn. destruct (index !! n) as [d|] eqn:Hd; [|reflexivity].
    exfalso. apply Hn. apply Hex in Hd. destruct Hd as [Hin <-].
    apply list_elem_of_fmap. eauto.
Qed.

Lemma Tool_init_index_witness :
  NoDup (map name (tool_function_declarations tool_f))
  /\ forall n d, Tool_getitem tool_f n = Ok d
                 <-> d ∈ tool_function_declarations tool_f /\ name d = n.
Proof.
  pose proof (Tool_init_index [FDT_callable f_ab] tool_f eq_refl) as H.
  split; [exact (proj1 (proj2 H)) | exact (proj1 (proj2 (proj2 H)))].
Defined.

(** X13. A library that [FunctionLibrary.__init__] accepts, whatever it was
    built from: over all its tools no name is declared twice, and a name (or
    a function call of that name) resolves to a declaration exactly when one
    of the tools declares it under that name; any other name raises
    [KeyError]. *)
Theorem FunctionLibrary_init_index (tools : ToolsType) (lib : FunctionLibrary) :
  FunctionLibrary_init tools = Ok lib ->
  let declared := concat (map tool_function_declarations (lib_tools lib)) in
  _make_tools tools = Ok (lib_tools lib)
  /\ NoDup (map name declared)
  /\ (forall n d, FunctionLibrary_getitem lib n = Ok d <-> d ∈ declared /\ name d = n)
  /\ (forall n, n ∉ map name declared -> FunctionLibrary_getitem lib n = Err KeyError).
Proof.
  unfold FunctionLibrary_init.
  destruct (_make_tools tools) as [ts|e]; [|discriminate].
  cbn [mbind result_bind]. rewrite index_tools_concat.
  destruct (index_declarations ∅ _) as [index|e] eqn:Hidx; [|discriminate].
  cbn [mbind result_bind]. intros [= <-]. cbv zeta. cbn [lib_tools].
  destruct (index_declarations_exact _ _ Hidx) as [Hnd Hex].
  split; [reflexivity|]. split; [exact Hnd|].
  unfold FunctionLibrary_getitem. cbn [lib_index]. split.
  - intros n d. rewrite <- Hex. destruct (index !! n); split; congruence.
  - intros n Hn. destruct (index !! n) as [d|] eqn:Hd; [|reflexivity].
    exfalso. apply Hn. apply Hex in Hd. destruct Hd as [Hin <-].
    apply list_elem_of_fmap. eauto.
Qed.

Lemma FunctionLibrary_init_index_witness :
  (FunctionLibrary_getitem example_library "f" = Ok f_ab_declaration
   <-> f_ab_declaration
         ∈ concat (map tool_function_declarations (lib_tools example_library))
       /\ name f_ab_declaration = "f")
  /\ FunctionLibrary_getitem example_library "g" = Err KeyError.
Proof.
  pose proof (FunctionLibrary_init_index example_tools example_library eq_refl) as H.
  cbv zeta in H. destruct H as (_ & _ & Hget & Hmiss). split.
  - exact (Hget "f" f_ab_declaration).
  - apply Hmiss. cbn. intros Hin. apply list_elem_of_singleton in Hin. discriminate.
Defined.

Lemma flatten_single_declarations (ts : list Tool) :
  forallb (fun t => length (tool_function_declarations t) =? 1) ts = true ->
  flat_map (fun t => match tool_function_declarations t with
                     | fd :: _ => [FDT_declaration fd]
                     | [] => []
                     end) ts
  = map FDT_declaration (concat (map tool_function_declarations ts))
  /\ Forall (fun t => length (tool_function_declarations t) = 1) ts.
Proof.
  induction ts as [|t ts IH]; cbn [forallb flat_map map concat].
  - split; [reflexivity | constructor].
  - intros H. apply andb_prop in H. destruct H as [H1 H2]. apply Nat.eqb_eq in H1.
    destruct (IH H2) as [IHm IHf]. split.
    + rewrite IHm. destruct (tool_function_declarations t) as [|d [|? ?]];
        try discriminate. reflexivity.
    + constructor; assumption.
Qed.

Lemma Tool_init_declarations (fds : list Declaration) :
  match Tool_init (map FDT_declaration fds) with
  | Ok t => tool_function_declarations t = fds /\ index_declarations ∅ fds = Ok (tool_index t)
  | Err e => e = ValueError /\ ~ NoDup (map name fds)
  end.
Proof.
  unfold Tool_init. rewrite mapM_declarations. cbn [mbind result_bind].
  destruct (index_declarations_cases fds ∅) as [[index Hidx] | Herr].
  - rewrite Hidx. cbn [mbind result_bind tool_function_declarations tool_index]. auto.
  - rewrite Herr. cbn [mbind result_bind]. split; [reflexivity|]. intros Hnd.
    destruct (index_declarations_fresh fds ∅ Hnd) as [index Hidx]; [|congruence].
    intros d _. apply lookup_empty.
Qed.

(** X14. When every element of a list of tools is accepted, [_make_tools]
    keeps all their declarations in order.  Two or more tools of one
    declaration each are merged into a single tool, and it is this merge
    that fails, with [ValueError], when two of them share a name; any other
    list of tools is returned as it is. *)
Theorem _make_tools_flatten (tools : list ToolType) (ts0 : list Tool) :
  mapM _make_tool tools = Ok ts0 ->
  let declared := concat (map tool_function_declarations ts0) in
  let single t := length (tool_function_declarations t) = 1 in
  match _make_tools (Tools_iterable tools) with
  | Ok ts =>
      concat (map tool_function_declarations ts) = declared
      /\ (1 < length ts0 /\ Forall single ts0 ->
          exists t, ts = [t] /\ tool_function_declarations t = declared
                    /\ NoDup (map name declared))
      /\ (~ (1 < length ts0 /\ Forall single ts0) -> ts = ts0)
  | Err e =>
      e = ValueError /\ 1 < length ts0 /\ Forall single ts0 /\ ~ NoDup (map name declared)
  end.
Proof.
  intros H declared single. unfold _make_tools. rewrite H. cbn [mbind result_bind].
  destruct (1 <? length ts0) eqn:Hlen; cbn [andb].
  - apply Nat.ltb_lt in Hlen.
    destruct (forallb _ ts0) eqn:Hall.
    + destruct (flatten_single_declarations ts0 Hall) as [Hflat Hsingle].
      rewrite Hflat. cbn [_make_tool].
      pose proof (Tool_init_declarations declared) as Hinit. fold declared.
      destruct (Tool_init (map FDT_declaration declared)) as [t|e];
        cbn [mbind result_bind].
      * destruct Hinit as [Hd Hidx]. cbn [map concat]. rewrite app_nil_r.
        split; [exact Hd|]. split.
        -- intros _. exists t. split; [reflexivity|]. split; [exact Hd|].
           apply index_declarations_Ok in Hidx. tauto.
        -- intros Hn. exfalso. apply Hn. split; assumption.
      * destruct Hinit as [-> Hnd]. repeat split; assumption.
    + split; [reflexivity|]. split; [|reflexivity].
      intros [_ Hf]. exfalso.
      assert (forallb (fun t => length (tool_function_declarations t) =? 1) ts0 = true);
        [|congruence].
      apply forallb_forall. intros t Ht. apply Nat.eqb_eq.
      rewrite Forall_forall in Hf. apply Hf. apply list_elem_of_In. exact Ht.
  - apply Nat.ltb_ge in Hlen. split; [reflexivity|]. split; [|reflexivity].
    intros [Hl _]. lia.
Qed.

Lemma _make_tools_flatten_witness :
  match _make_tools (Tools_iterable [TT_Tool tool_f; TT_Tool tool_g]) with
  | Ok ts =>
      concat (map tool_function_declarations ts) = [f_ab_declaration; g_declaration]
      /\ (1 < 2 /\ Forall (fun t => length (tool_function_declarations t) = 1)
                     [tool_f; tool_g] ->
          exists t, ts = [t]
                    /\ tool_function_declarations t = [f_ab_declaration; g_declaration]
                    /\ NoDup (map name [f_ab_declaration; g_declaration]))
      /\ (~ (1 < 2 /\ Forall (fun t => length (tool_function_declarations t) = 1)
                        [tool_f; tool_g]) -> ts = [tool_f; tool_g])
  | Err e =>
      e = ValueError /\ 1 < 2
      /\ Forall (fun t => length (tool_function_declarations t) = 1) [tool_f; tool_g]
      /\ ~ NoDup (map name [f_ab_declaration; g_declaration])
  end.
Proof.
  exact (_make_tools_flatten [TT_Tool tool_f; TT_Tool tool_g] [tool_f; tool_g] eq_refl).
Defined.

(** X15. A wire tool ([glm.Tool]) is wrapped without loss: when the names
    of its declarations are distinct, the tool made of it encodes back to
    the very same declarations, and calling it never runs anything; when two
    declarations share a name it is refused with [ValueError]. *)
Theorem glm_Tool_round_trip (fds : list FunctionDeclarationProto) :
  (NoDup (map fdp_name fds) ->
   exists t, _make_tool (TT_glm_Tool fds) = Ok t
             /\ Tool_to_proto t = fds
             /\ forall fc st,
                  Tool_call t fc st = (Ok None, st)
                  \/ (Tool_call t fc st = (Err KeyError, st)
                      /\ fc_name fc ∉ map fdp_name fds))
  /\ (~ NoDup (map fdp_name fds) -> _make_tool (TT_glm_Tool fds) = Err ValueError).
Proof.
  cbn [_make_tool]. rewrite <- (map_map glm_FunctionDeclaration FDT_declaration).
  pose proof (Tool_init_declarations (map glm_FunctionDeclaration fds)) as Hinit.
  assert (Hnames : map name (map glm_FunctionDeclaration fds) = map fdp_name fds).
  { rewrite map_map. reflexivity. }
  rewrite Hnames in Hinit.
  destruct (Tool_init _) as [t|e].
  - destruct Hinit as [Hd Hidx]. split; [|intros Hn; exfalso; apply Hn].
    + intros _. exists t. split; [reflexivity|]. split.
      * unfold Tool_to_proto. rewrite Hd, map_map. cbn [_encode_fd]. apply map_id.
      * intros fc st. unfold Tool_call, Tool_getitem, mbind, M_bind, lift.
        destruct (index_declarations_exact _ _ Hidx) as [_ Hex].
        destruct (tool_index t !! fc_name fc) as [d|] eqn:Hl.
        -- left. apply Hex in Hl. destruct Hl as [Hin _].
           apply list_elem_of_fmap in Hin. destruct Hin as (p & -> & _). reflexivity.
        -- right. split; [reflexivity|]. intros Hin.
           apply list_elem_of_fmap in Hin. destruct Hin as (p & Hp & Hin).
           assert (tool_index t !! fc_name fc = Some (glm_FunctionDeclaration p));
             [|congruence].
           apply Hex. split; [|symmetry; exact Hp].
           apply list_elem_of_fmap. eauto.
    + apply index_declarations_Ok in Hidx. destruct Hidx as [Hnd _].
      rewrite Hnames in Hnd. exact Hnd.
  - destruct Hinit as [-> Hnd]. split; [intros H; contradiction | reflexivity].
Qed.

Lemma glm_Tool_round_trip_witness :
  (exists t, _make_tool (TT_glm_Tool [f_ab_proto]) = Ok t
             /\ Tool_to_proto t = [f_ab_proto]
             /\ forall fc st,
                  Tool_call t fc st = (Ok None, st)
                  \/ (Tool_call t fc st = (Err KeyError, st)
                      /\ fc_name fc ∉ map fdp_name [f_ab_proto]))
  /\ _make_tool (TT_glm_Tool [f_ab_proto; f_ab_proto]) = Err ValueError.
Proof.
  split.
  - apply (proj1 (glm_Tool_round_trip [f_ab_proto])). apply NoDup_singleton.
  - apply (proj2 (glm_Tool_round_trip [f_ab_proto; f_ab_proto])).
    intros H. apply NoDup_cons in H. destruct H as [H _]. apply H. left.
Defined.

(** X16. A library made of one tool answers a function call as the tool
    itself does: the same declaration is looked up, the same callable is
    invoked with the same arguments, and the response of the tool is the one
    the library wraps into a part. *)
Theorem FunctionLibrary_call_single_tool (fdts : list FunctionDeclarationType) (t : Tool) :
  Tool_init fdts = Ok t ->
  exists lib,
    FunctionLibrary_init (Tools_single (TT_Tool t)) = Ok lib
    /\ FunctionLibrary_init (Tools_iterable [TT_Tool t]) = Ok lib
    /\ FunctionLibrary_to_proto lib = [Tool_to_proto t]
    /\ forall fc st,
         FunctionLibrary_call lib fc st
         = (option_map PFunctionResponse <$> fst (Tool_call t fc st),
            snd (Tool_call t fc st)).
Proof.
  unfold Tool_init.
  destruct (mapM _make_function_declaration fdts) as [fds|e]; [|discriminate].
  cbn [mbind result_bind].
  destruct (index_declarations ∅ fds) as [index|e] eqn:Hidx; [|discriminate].
  cbn [mbind result_bind]. intros [= <-].
  exists (mkFunctionLibrary [mkTool fds index] index).
  unfold FunctionLibrary_init.
  cbn [_make_tools _make_tool mapM mbind result_bind mret result_ret length andb
         index_tools tool_function_declarations].
  change (1 <? 1) with false. cbn [andb]. rewrite Hidx.
  cbn [mbind result_bind index_tools tool_function_declarations]. rewrite Hidx.
  cbn [mbind result_bind].
  split; [reflexivity|]. split; [reflexivity|]. split; [reflexivity|].
  intros fc st.
  unfold FunctionLibrary_call, Tool_call, FunctionLibrary_getitem, Tool_getitem,
    mbind, M_bind, lift, mret, M_ret.
  cbn [lib_index tool_index].
  destruct (index !! fc_name fc) as [[p|p f|p]|]; try reflexivity.
  unfold record_invocation.
  destruct (CallableFunctionDeclaration_call f fc); reflexivity.
Qed.

Lemma FunctionLibrary_call_single_tool_witness :
  exists lib,
    FunctionLibrary_init (Tools_single (TT_Tool tool_f)) = Ok lib
    /\ FunctionLibrary_init (Tools_iterable [TT_Tool tool_f]) = Ok lib
    /\ FunctionLibrary_to_proto lib = [Tool_to_proto tool_f]
    /\ forall fc st,
         FunctionLibrary_call lib fc st
         = (option_map PFunctionResponse <$> fst (Tool_call tool_f fc st),
            snd (Tool_call tool_f fc st)).
Proof.
  exact (FunctionLibrary_call_single_tool [FDT_callable f_ab] tool_f eq_refl).
Defined.

(** ** The function-calling mode *)

Lemma lower_ascii_idem (c : ascii) : lower_ascii (lower_ascii c) = lower_ascii c.
Proof. destruct c as [[] [] [] [] [] [] [] []]; reflexivity. Qed.

Lemma lower_idem (s : string) : lower (lower s) = lower s.
Proof.
  induction s as [|c s IH]; [reflexivity|].
  cbn [lower]. rewrite lower_ascii_idem, IH. reflexivity.
Qed.

(** X17. The table of function-calling modes: whatever is accepted is one
    of the three real modes, never [MODE_UNSPECIFIED], and is a fixed point
    of the conversion; a refusal is always [KeyError]; and the spelling of a
    mode is matched without regard to case. *)
Theorem to_function_calling_mode_table (x : FunctionCallingModeType) (s : string) :
  match to_function_calling_mode x with
  | Ok m => m <> MODE_UNSPECIFIED /\ to_function_calling_mode (FCM_mode m) = Ok m
  | Err e => e = KeyError
  end
  /\ to_function_calling_mode (FCM_str (lower s)) = to_function_calling_mode (FCM_str s).
Proof.
  split.
  - destruct x as [[]|s0|n]; cbn [to_function_calling_mode];
      try (split; [discriminate|reflexivity]); try reflexivity.
    + cbv zeta.
      repeat match goal with
             | |- context [if ?b then _ else _] => destruct b
             end; try reflexivity; split; (discriminate || reflexivity).
    + repeat match goal with
             | |- context [if ?b then _ else _] => destruct b
             end; try reflexivity; split; (discriminate || reflexivity).
  - cbn [to_function_calling_mode]. rewrite lower_idem. reflexivity.
Qed.

(** X18. A tool configuration given as a dictionary with a bare mode: the
    configuration built carries one of the three real modes and no allowed
    function names, the same configuration is built from the canonical mode,
    and the built configuration passes through the conversion unchanged. *)
Theorem to_tool_config_mode (x : FunctionCallingModeType) (c : ToolConfig) :
  to_tool_config (TC_dict (FCC_mode x)) = Ok c ->
  mode (function_calling_config c) <> MODE_UNSPECIFIED
  /\ allowed_function_names (function_calling_config c) = []
  /\ to_function_calling_mode x = Ok (mode (function_calling_config c))
  /\ to_tool_config (TC_dict (FCC_mode (FCM_mode (mode (function_calling_config c))))) = Ok c
  /\ to_tool_config (TC_dict (FCC_config (function_calling_config c))) = Ok c
  /\ to_tool_config (TC_ToolConfig c) = Ok c.
Proof.
  cbn [to_tool_config to_function_calling_config].
  destruct (to_function_calling_mode x) as [m|e] eqn:Hm; [|discriminate].
  cbn [mbind result_bind]. intros [= <-]. cbn [function_calling_config mode
                                                 allowed_function_names].
  assert (Hne : m <> MODE_UNSPECIFIED /\ to_function_calling_mode (FCM_mode m) = Ok m).
  { destruct x as [[]|s|n]; cbn [to_function_calling_mode] in Hm; cbv zeta in Hm;
      repeat match type of Hm with
             | context [if ?b then _ else _] => destruct b
             end; try discriminate; injection Hm as <-;
      (split; [discriminate | reflexivity]). }
  destruct Hne as [Hne Hfix]. repeat split; try assumption.
  rewrite Hfix. reflexivity.
Qed.

Lemma to_tool_config_mode_witness :
  mode (function_calling_config (mkToolConfig (mkFunctionCallingConfig ANY [])))
    <> MODE_UNSPECIFIED
  /\ to_function_calling_mode (FCM_str "Any") = Ok ANY.
Proof.
  pose proof (to_tool_config_mode (FCM_str "Any")
                (mkToolConfig (mkFunctionCallingConfig ANY [])) eq_refl) as H.
  split; [exact (proj1 H) | exact (proj1 (proj2 (proj2 H)))].
Defined.

(** ** The session between two messages *)

(** X19. Reading [history] a second time changes nothing: the second read
    gives the result of the first, error or not, and leaves the state the
    first read left.  A read never touches the script, the requests or the
    invocations, and one that succeeds leaves no pending response and the
    list it returned as the committed history. *)
Theorem history_read_twice (st : State) :
  history (snd (history st)) = history st
  /\ script (snd (history st)) = script st
  /\ requests (snd (history st)) = requests st
  /\ invocations (snd (history st)) = invocations st
  /\ forall h, fst (history st) = Ok h ->
               _history (session (snd (history st))) = h
               /\ _last_received (session (snd (history st))) = None.
Proof.
  destruct st as [[m h0 ls [[cands br err]|] afc] sc rq inv];
    unfold history, mbind, M_bind, get_session, lift, list_index, set_session, raise,
      mret, M_ret.
  - idtac.
    cbn [session _last_received candidates].
    destruct cands as [|c cs]; cbn [lookup list_lookup].
    + repeat split; discriminate.
    + destruct (normal_finish (finish_reason c)) eqn:Hf; cbn [negb].
      * cbn [_error]. destruct err as [e|].
        -- cbn [snd session _last_received candidates lookup list_lookup].
           rewrite Hf. cbn [negb _error]. repeat split; discriminate.
        -- cbn [_last_sent]. destruct ls as [sent|].
           ++ cbn. repeat split; intros; congruence.
           ++ cbn [snd session _last_received candidates lookup list_lookup].
              rewrite Hf. cbn. repeat split; discriminate.
      * cbn. rewrite Hf. cbn. repeat split; discriminate.
  - cbn. repeat split; intros; congruence.
Qed.

Lemma history_read_twice_witness :
  _history (session (snd (history pending_state)))
  = [mkContent "user" [PText "hi"]; mkContent "model" [PText "two"]]
  /\ _last_received (session (snd (history pending_state))) = None.
Proof.
  apply (proj2 (proj2 (proj2 (proj2 (history_read_twice pending_state))))).
  reflexivity.
Defined.

(** X20. [rewind] takes back a whole turn whether or not the turn has been
    committed in between: on a pending turn that finished normally it
    returns the pending pair and clears it, and after a read of [history]
    has committed that pair it returns the same pair (the reply under its
    defaulted role) and leaves the very same state. *)
Theorem rewind_undoes_turn (st : State) (last : Response) (c : Candidate)
    (cs : list Candidate) (sent : Content) :
  _last_received (session st) = Some last ->
  _last_sent (session st) = Some sent ->
  candidates last = c :: cs ->
  normal_finish (finish_reason c) = true ->
  _error last = None ->
  rewind st = (Ok (Some sent, content c), clear_pending st)
  /\ rewind (snd (history st))
     = (Ok (Some sent, default_role _MODEL_ROLE (content c)), clear_pending st)
  /\ history (clear_pending st) = (Ok (_history (session st)), clear_pending st).
Proof.
  intros Hl Hs Hc Hf He. split; [|split].
  - unfold rewind, mbind, M_bind, get_session, lift, list_index, set_session.
    rewrite Hl, Hc, Hs. reflexivity.
  - rewrite (history_pending_normal st last c cs sent Hl Hs Hc Hf He). cbn [snd].
    rewrite (rewind_idle_pops_pair (commit st sent (content c)) (_history (session st))
               sent (default_role _MODEL_ROLE (content c))); reflexivity.
  - exact (history_idle (clear_pending st) eq_refl).
Qed.

Lemma rewind_undoes_turn_witness :
  rewind pending_state
  = (Ok (Some (mkContent "user" [PText "hi"]), mkContent "model" [PText "two"]),
     clear_pending pending_state)
  /\ rewind (snd (history pending_state))
     = (Ok (Some (mkContent "user" [PText "hi"]),
            default_role _MODEL_ROLE (mkContent "model" [PText "two"])),
        clear_pending pending_state)
  /\ history (clear_pending pending_state) = (Ok [], clear_pending pending_state).
Proof.
  exact (rewind_undoes_turn pending_state answer_text
           (mkCandidate (mkContent "model" [PText "two"]) STOP) []
           (mkContent "user" [PText "hi"]) eq_refl eq_refl eq_refl eq_refl eq_refl).
Defined.

(** X21. Assigning to [history] resets the session, broken or not: when the
    value is accepted by [to_contents] the pending turn is dropped, [last]
    is [None] and the next read returns exactly the coerced contents; when
    it is refused, the exception of [to_contents] comes out and the session
    is as it was. *)
Theorem history_setter_resets (v : PyVal) (st : State) :
  match to_contents v with
  | Ok h =>
      exists st',
        history_setter v st = (Ok tt, st')
        /\ history st' = (Ok h, st')
        /\ last st' = (Ok None, st')
        /\ model (session st') = model (session st)
        /\ enable_automatic_function_calling (session st')
           = enable_automatic_function_calling (session st)
  | Err e => history_setter v st = (Err e, st)
  end.
Proof.
  unfold history_setter, mbind, M_bind, lift, get_session, set_session.
  destruct (to_contents v) as [h|e]; [|reflexivity].
  eexists. split; [reflexivity|]. repeat split.
Qed.

(** X22. [copy.copy(chat)] reads the history of the original, so it commits
    a pending turn there and fails, as that read does, on a broken session;
    the copy holds the history read, no pending turn, the same model, and
    not the flag for automatic function calling, which is back at its
    default. *)
Theorem copy_session (st : State) :
  match history st with
  | (Ok h, st') =>
      copy st = (Ok (mkChatSession (model (session st)) h None None false), st')
  | (Err e, st') => copy st = (Err e, st')
  end
  /\ (enable_automatic_function_calling (session st) = true ->
      forall chat, fst (copy st) = Ok chat ->
                   enable_automatic_function_calling chat
                   <> enable_automatic_function_calling (session st)).
Proof.
  assert (H : match history st with
              | (Ok h, st') =>
                  copy st = (Ok (mkChatSession (model (session st)) h None None false), st')
              | (Err e, st') => copy st = (Err e, st')
              end).
  { unfold copy, mbind, M_bind, get_session, lift. cbn beta iota.
    destruct (history st) as [[h|e] st']; [|reflexivity].
    unfold ChatSession_init. rewrite to_contents_history. reflexivity. }
  split; [exact H|].
  intros Hafc chat Hc. rewrite Hafc.
  destruct (history st) as [[h|e] st']; rewrite H in Hc; cbn [fst] in Hc.
  - injection Hc as <-. discriminate.
  - discriminate.
Qed.

Lemma copy_session_witness :
  copy example_state = (Ok (mkChatSession example_model [] None None false), example_state)
  /\ enable_automatic_function_calling (mkChatSession example_model [] None None false)
     <> enable_automatic_function_calling (session example_state).
Proof.
  split.
  - exact (proj1 (copy_session example_state)).
  - exact (proj2 (copy_session example_state) eq_refl
             (mkChatSession example_model [] None None false) eq_refl).
Defined.

(** ** One plain exchange *)

(** A read of [history] touches nothing but the session. *)
Lemma history_world (st : State) :
  script (snd (history st)) = script st
  /\ requests (snd (history st)) = requests st
  /\ invocations (snd (history st)) = invocations st
  /\ model (session (snd (history st))) = model (session st)
  /\ enable_automatic_function_calling (session (snd (history st)))
     = enable_automatic_function_calling (session st).
Proof.
  destruct st as [[m h0 ls [[cands br err]|] afc] sc rq inv];
    unfold history, mbind, M_bind, get_session, lift, list_index, set_session, raise,
      mret, M_ret; cbn [session _last_received candidates]; [|repeat split].
  destruct cands as [|c cs]; cbn [lookup list_lookup]; [repeat split|].
  destruct (normal_finish (finish_reason c)); cbn [negb]; [|repeat split].
  cbn [_error]. destruct err; [repeat split|].
  cbn [_last_sent]. destruct ls; repeat split.
Qed.

(** [send_message] from the point where the history has been read, when the
    loop of automatic function calling is not entered: one request, one
    outcome of the collaborator, and the pair is recorded as pending only
    when the response passes [_check_response]. *)
Lemma send_message_rest_plain (self : ChatSession) (tools_lib : option FunctionLibrary)
    (content : Content) (h : list Content)
    (generation_config : option (list (string * Json)))
    (safety_settings : option (list (string * string)))
    (stream : bool) (tool_config : option ToolConfigType) (st : State) :
  enable_automatic_function_calling self = false \/ tools_lib = None ->
  send_message_rest self tools_lib content h generation_config safety_settings stream
    tool_config st
  = match candidate_count_exceeds_one (to_generation_config_dict generation_config) with
    | Err e => (Err e, st)
    | Ok true => (Err ValueError, st)
    | Ok false =>
        match _prepare_request (model self) (VList (map VContent (h ++ [content])))
                (Some (to_generation_config_dict generation_config)) safety_settings
                (FLT_library <$> tools_lib) tool_config with
        | Err e => (Err e, st)
        | Ok request =>
            let logged := requests st ++ [request] in
            match script st with
            | [] => (Err StopIteration, mkState (session st) [] logged (invocations st))
            | Err e :: rest => (Err e, mkState (session st) rest logged (invocations st))
            | Ok response :: rest =>
                match _check_response response stream with
                | Err e => (Err e, mkState (session st) rest logged (invocations st))
                | Ok _ =>
                    (Ok response,
                     mkState (set_last (Some content) (Some response) (session st))
                       rest logged (invocations st))
                end
            end
        end
    end.
Proof.
  intros Hplain. unfold send_message_rest.
  unfold mbind at 1, M_bind at 1, lift at 1.
  destruct (candidate_count_exceeds_one _) as [[|]|e]; try reflexivity.
  unfold generate_content.
  unfold mbind, M_bind, lift, client_generate_content, get_session, set_session,
    mret, M_ret.
  destruct (_prepare_request _ _ _ _ _ _) as [request|e]; [|reflexivity].
  destruct (script st) as [|[response|e] rest]; try reflexivity.
  destruct (_check_response response stream); [|reflexivity].
  destruct Hplain as [-> | ->]; [reflexivity|].
  destruct (enable_automatic_function_calling self); reflexivity.
Qed.

(** X23. A message that [send_message] answers without entering the loop of
    automatic function calling is one exchange: the history is read, the
    request carries that history followed by the message under its
    defaulted role, the next outcome of the collaborator is the response
    returned, and the pair is held as pending with the committed history as
    the read left it.  When the call was not streamed, the next read of
    [history] commits the pair: the history grows by exactly the message
    and the reply. *)
Theorem plain_turn_recorded (st st' : State) (content_ : PyVal)
    (generation_config : option (list (string * Json)))
    (safety_settings : option (list (string * string)))
    (stream : bool)
    (tools : option FunctionLibraryType) (tool_config : option ToolConfigType)
    (response : Response) :
  enable_automatic_function_calling (session st) = false ->
  send_message content_ generation_config safety_settings stream tools tool_config st
  = (Ok response, st') ->
  exists h c request,
    fst (history st) = Ok h
    /\ to_content content_ = Ok c
    /\ script st = Ok response :: script st'
    /\ requests st' = requests st ++ [request]
    /\ req_contents request = h ++ [default_role _USER_ROLE c]
    /\ invocations st' = invocations st
    /\ _history (session st') = h
    /\ _last_sent (session st') = Some (default_role _USER_ROLE c)
    /\ last st' = (Ok (Some response), st')
    /\ (stream = false -> _error response = None ->
        exists c0, candidates response !! 0 = Some c0
                   /\ fst (history st')
                      = Ok (h ++ [default_role _USER_ROLE c;
                                  default_role _MODEL_ROLE (content c0)])).
Proof.
  intros Hafc. rewrite send_message_unfold, Hafc. cbn [andb].
  destruct (_get_tools_lib (model (session st)) tools) as [tools_lib|e]; [|discriminate].
  destruct (to_content content_) as [c|e]; [|discriminate].
  pose proof (history_world st) as (Hsc & Hrq & Hinv & _ & _).
  assert (Hread : forall h, fst (history st) = Ok h ->
                            _history (session (snd (history st))) = h).
  { intros h. destruct st as [[m h0 ls [[cands br err]|] afc] sc rq inv];
      unfold history, mbind, M_bind, get_session, lift, list_index, set_session, raise,
        mret, M_ret; cbn [session _last_received candidates]; [|cbn; congruence].
    destruct cands as [|c1 cs]; cbn [lookup list_lookup]; [discriminate|].
    destruct (normal_finish (finish_reason c1)); cbn [negb]; [|discriminate].
    cbn [_error]. destruct err; [discriminate|].
    cbn [_last_sent]. destruct ls; [cbn; congruence | discriminate]. }
  destruct (history st) as [[h|e] st1]; [|discriminate]. cbn [snd fst] in *.
  specialize (Hread h eq_refl).
  rewrite send_message_rest_plain by (left; exact Hafc).
  destruct (candidate_count_exceeds_one _) as [[|]|e]; try discriminate.
  destruct (_prepare_request _ _ _ _ _ _) as [request|e] eqn:Hreq; [|discriminate].
  cbv zeta.
  destruct (script st1) as [|[r|e] rest] eqn:Hs1; try discriminate.
  destruct (_check_response r stream) eqn:Hchk; [|discriminate].
  intros [= -> <-].
  apply _prepare_request_contents in Hreq. destruct Hreq as (Hcont & _).
  exists h, c, request. cbn [session script requests invocations set_last _history
                               _last_sent].
  repeat split; try congruence.
  intros -> Herr. revert Hchk. unfold _check_response.
  destruct (negb (block_reason response =? 0)); [discriminate|]. cbn [negb].
  unfold list_index. destruct (candidates response) as [|c0 cs] eqn:Hc;
    cbn [lookup list_lookup mbind result_bind]; [discriminate|].
  destruct (normal_finish (finish_reason c0)) eqn:Hf; cbn [negb]; [|discriminate].
  intros _. exists c0. split; [reflexivity|].
  erewrite history_pending_normal; [| reflexivity | reflexivity | exact Hc | exact Hf
                                    | exact Herr].
  cbn [fst session _history set_last]. rewrite Hread. reflexivity.
Qed.

Lemma plain_turn_recorded_witness :
  exists h c request,
    fst (history pending_state) = Ok h
    /\ to_content (VStr "more") = Ok c
    /\ requests (snd (send_message (VStr "more") None None false None None pending_state))
       = requests pending_state ++ [request]
    /\ req_contents request = h ++ [default_role _USER_ROLE c].
Proof.
  destruct (plain_turn_recorded pending_state
              (snd (send_message (VStr "more") None None false None None pending_state))
              (VStr "more") None None false None None answer_text eq_refl eq_refl)
    as (h & c & request & H1 & H2 & _ & H4 & H5 & _).
  exists h, c, request. repeat split; assumption.
Defined.

(** [send_message] from the point where the history has been read, when the
    answer of the collaborator does not pass [_check_response]. *)
Lemma send_message_rest_refused (self : ChatSession) (tools_lib : option FunctionLibrary)
    (content : Content) (h : list Content)
    (generation_config : option (list (string * Json)))
    (safety_settings : option (list (string * string)))
    (stream : bool) (tool_config : option ToolConfigType) (st : State)
    (r : Response) (rest : list (result Response)) (e : Exn) :
  script st = Ok r :: rest ->
  _check_response r stream = Err e ->
  send_message_rest self tools_lib content h generation_config safety_settings stream
    tool_config st
  = match candidate_count_exceeds_one (to_generation_config_dict generation_config) with
    | Err e' => (Err e', st)
    | Ok true => (Err ValueError, st)
    | Ok false =>
        match _prepare_request (model self) (VList (map VContent (h ++ [content])))
                (Some (to_generation_config_dict generation_config)) safety_settings
                (FLT_library <$> tools_lib) tool_config with
        | Err e' => (Err e', st)
        | Ok request =>
            (Err e, mkState (session st) rest (requests st ++ [request]) (invocations st))
        end
    end.
Proof.
  intros Hs Hchk. unfold send_message_rest.
  unfold mbind at 1, M_bind at 1, lift at 1.
  destruct (candidate_count_exceeds_one _) as [[|]|e']; try reflexivity.
  unfold mbind at 1, M_bind at 1. rewrite generate_content_unfold.
  destruct (_prepare_request _ _ _ _ _ _) as [request|e']; [|reflexivity].
  unfold client_generate_content. rewrite Hs.
  unfold mbind at 1, M_bind at 1, lift at 1. rewrite Hchk. reflexivity.
Qed.

(** X24. When the next answer of the collaborator does not pass
    [_check_response] (the prompt was blocked, or an unstreamed candidate
    stopped abnormally), [send_message] fails whatever else holds, with or
    without automatic function calling.  Nothing is invoked; the session is
    left as it was or as a read of [history] leaves it, so neither the
    message nor the answer is recorded; and if a request went out, it was
    one request, the answer is used up, and the exception is the one of the
    check. *)
Theorem refused_answer_not_recorded (st : State) (content_ : PyVal)
    (generation_config : option (list (string * Json)))
    (safety_settings : option (list (string * string)))
    (stream : bool)
    (tools : option FunctionLibraryType) (tool_config : option ToolConfigType)
    (r : Response) (rest : list (result Response)) (e : Exn) :
  script st = Ok r :: rest ->
  _check_response r stream = Err e ->
  let out := send_message content_ generation_config safety_settings stream tools
               tool_config st in
  (exists e', fst out = Err e')
  /\ invocations (snd out) = invocations st
  /\ (session (snd out) = session st \/ session (snd out) = session (snd (history st)))
  /\ ((requests (snd out) = requests st /\ script (snd out) = script st)
      \/ (fst out = Err e /\ script (snd out) = rest
          /\ session (snd out) = session (snd (history st))
          /\ exists request, requests (snd out) = requests st ++ [request])).
Proof.
  intros Hs Hchk out. subst out. rewrite send_message_unfold.
  destruct (enable_automatic_function_calling (session st) && stream).
  { cbn [fst snd]. eauto 10. }
  destruct (_get_tools_lib (model (session st)) tools) as [tools_lib|e0].
  2: { cbn [fst snd]. eauto 10. }
  destruct (to_content content_) as [c|e0].
  2: { cbn [fst snd]. eauto 10. }
  pose proof (history_world st) as (Hsc & Hrq & Hinv & _ & _).
  destruct (history st) as [[h|e0] st1]; cbn [snd] in *.
  2: { cbn [fst snd]. rewrite Hrq, Hsc, Hinv. eauto 10. }
  rewrite (send_message_rest_refused _ _ _ _ _ _ _ _ _ r rest e) by congruence.
  destruct (candidate_count_exceeds_one _) as [[|]|e0];
    try (cbn [fst snd]; rewrite Hrq, Hsc, Hinv; eauto 10).
  destruct (_prepare_request _ _ _ _ _ _) as [request|e0];
    [|cbn [fst snd]; rewrite Hrq, Hsc, Hinv; eauto 10].
  cbn [fst snd session script requests invocations]. rewrite Hrq, Hinv.
  split; [eauto|]. split; [reflexivity|]. split; [right; reflexivity|].
  right. eauto 10.
Qed.

Lemma refused_answer_not_recorded_witness :
  let out := send_message (VStr "hi") None None false None None before_broken_state in
  fst out = Err StopCandidateException
  /\ session (snd out) = session before_broken_state
  /\ script (snd out) = [].
Proof.
  pose proof (refused_answer_not_recorded before_broken_state (VStr "hi") None None false
                None None answer_blocked [] StopCandidateException eq_refl eq_refl) as H.
  cbv zeta in H. destruct H as (_ & _ & _ & [[H _] | (H1 & H2 & H3 & _)]).
  - discriminate H.
  - cbv zeta. split; [exact H1|]. split; [exact H3 | exact H2].
Defined.

(** X25. An override that asks for more than one candidate never reaches
    the collaborator: [send_message] fails, no request is issued, nothing is
    taken from the script and nothing is invoked; the exception is
    [ValueError] whenever the steps before the test go through. *)
Theorem candidate_count_refused (st : State) (content_ : PyVal)
    (generation_config : list (string * Json)) (n : Z)
    (safety_settings : option (list (string * string)))
    (stream : bool)
    (tools : option FunctionLibraryType) (tool_config : option ToolConfigType) :
  dict_get "candidate_count" generation_config = Some (JNum n) ->
  (1 < n)%Z ->
  let out := send_message content_ (Some generation_config) safety_settings stream tools
               tool_config st in
  (exists e, fst out = Err e)
  /\ requests (snd out) = requests st
  /\ script (snd out) = script st
  /\ invocations (snd out) = invocations st
  /\ (enable_automatic_function_calling (session st) && stream = false ->
      (exists tools_lib, _get_tools_lib (model (session st)) tools = Ok tools_lib) ->
      (exists c, to_content content_ = Ok c) ->
      (exists h, fst (history st) = Ok h) ->
      out = (Err ValueError, snd (history st))).
Proof.
  intros Hcc Hn out. subst out. rewrite send_message_unfold.
  pose proof (history_world st) as (Hsc & Hrq & Hinv & _ & _).
  assert (Hrest : forall self tools_lib c h st1,
             send_message_rest self tools_lib c h (Some generation_config) safety_settings
               stream tool_config st1 = (Err ValueError, st1)).
  { intros. unfold send_message_rest, candidate_count_exceeds_one.
    cbn [to_generation_config_dict]. rewrite Hcc.
    assert ((1 <? n)%Z = true) as -> by (apply Z.ltb_lt; exact Hn). reflexivity. }
  destruct (enable_automatic_function_calling (session st) && stream).
  { cbn [fst snd]. repeat split; eauto. discriminate. }
  destruct (_get_tools_lib (model (session st)) tools) as [tools_lib|e0].
  2: { cbn [fst snd]. repeat split; eauto. intros _ [? ?]. discriminate. }
  destruct (to_content content_) as [c|e0].
  2: { cbn [fst snd]. repeat split; eauto. intros _ _ [? ?]. discriminate. }
  destruct (history st) as [[h|e0] st1]; cbn [snd fst] in *.
  2: { repeat split; eauto. intros _ _ _ [? ?]. discriminate. }
  rewrite Hrest. cbn [fst snd]. repeat split; eauto.
Qed.

Lemma candidate_count_refused_witness :
  send_message (VStr "hi") (Some [("candidate_count", JNum 2)]) None false None None
    example_state
  = (Err ValueError, example_state).
Proof.
  apply (proj2 (proj2 (proj2 (proj2
           (candidate_count_refused example_state (VStr "hi") [("candidate_count", JNum 2)] 2
              None false None None eq_refl eq_refl))))).
  - reflexivity.
  - eexists. reflexivity.
  - eexists. reflexivity.
  - eexists. reflexivity.
Defined.

(** ** The number of candidates a chat asks for *)

Lemma dict_get_not_key {V} (k : string) (d : list (string * V)) :
  k ∉ dict_keys d -> dict_get k d = None.
Proof.
  induction d as [|[k' v'] d IH]; [reflexivity|]. cbn [dict_keys map fst dict_get].
  intros Hk. destruct (String.eqb_spec k k') as [->|Hne].
  - exfalso. apply Hk. left.
  - apply IH. intros Hin. apply Hk. right. exact Hin.
Qed.

(** [d1.update(d2)]: the entries of [d2] win. *)
Lemma dict_get_update {V} (k : string) (d2 d1 : list (string * V)) :
  NoDup (dict_keys d2) ->
  dict_get k (dict_update d1 d2)
  = match dict_get k d2 with
    | Some v => Some v
    | None => dict_get k d1
    end.
Proof.
  unfold dict_update. revert d1.
  induction d2 as [|[k' v'] d2 IH]; intros d1 Hnd; [reflexivity|].
  cbn [dict_keys map fst] in Hnd. apply NoDup_cons in Hnd. destruct Hnd as [Hk' Hnd].
  cbn [fold_left fst snd dict_get]. rewrite (IH _ Hnd).
  destruct (String.eqb_spec k k') as [->|Hne].
  - rewrite (dict_get_not_key k' d2 Hk'). apply dict_get_set_eq.
  - destruct (dict_get k d2); [reflexivity|]. apply dict_get_set_ne. exact Hne.
Qed.

Lemma start_chat_one_candidate (self : GenerativeModel) (history_ : PyVal) (afc : bool)
    (chat : ChatSession) :
  start_chat self history_ afc = Ok chat ->
  at_most_one_candidate (_generation_config self)
  /\ ChatSession_init self history_ afc = Ok chat.
Proof.
  unfold start_chat, at_most_one_candidate.
  destruct (dict_get "candidate_count" (_generation_config self)) as [[]|];
    try discriminate; try (intros Hinit; split; [exact I | exact Hinit]).
  destruct (Z.ltb_spec 1 n) as [Hlt|Hge]; [discriminate|].
  intros Hinit. split; [lia | exact Hinit].
Qed.

(** X26. A chat never asks for more than one candidate.  For a session on a
    model that [start_chat] accepts, every request that one call of
    [send_message] issues, the continuation rounds of automatic function
    calling included, carries a merged generation configuration whose
    [candidate_count] is absent or at most one, whatever the override of the
    call (a dictionary, so one that holds no key twice). *)
Theorem chat_asks_one_candidate (st : State) (history_ : PyVal) (afc : bool)
    (chat : ChatSession) (content_ : PyVal)
    (generation_config : option (list (string * Json)))
    (safety_settings : option (list (string * string)))
    (stream : bool)
    (tools : option FunctionLibraryType) (tool_config : option ToolConfigType) :
  start_chat (model (session st)) history_ afc = Ok chat ->
  NoDup (dict_keys (to_generation_config_dict generation_config)) ->
  exists new,
    requests (snd (send_message content_ generation_config safety_settings stream tools
                     tool_config st))
    = requests st ++ new
    /\ Forall (fun request => at_most_one_candidate (req_generation_config request)) new.
Proof.
  intros Hstart Hnd. apply start_chat_one_candidate in Hstart. destruct Hstart as [Hm _].
  assert (Hnone : forall (r : result Response) st1,
             requests st1 = requests st ->
             exists new, requests (snd (r, st1)) = requests st ++ new
                         /\ Forall (fun request =>
                                      at_most_one_candidate (req_generation_config request))
                              new).
  { intros r st1 H. exists []. cbn [snd]. rewrite app_nil_r. split; [exact H | constructor]. }
  rewrite send_message_unfold.
  destruct (enable_automatic_function_calling (session st) && stream); [auto|].
  destruct (_get_tools_lib (model (session st)) tools) as [tools_lib|e0] eqn:Htl; [|auto].
  destruct (to_content content_) as [c|e0]; [|auto].
  pose proof (history_world st) as (_ & Hrq & _ & _ & _).
  destruct (history st) as [[h|e0] st1]; cbn [snd] in Hrq; [|auto].
  destruct (candidate_count_exceeds_one (to_generation_config_dict generation_config))
    as [[|]|e0] eqn:Hcc.
  - unfold send_message_rest. rewrite Hcc. apply Hnone. exact Hrq.
  - destruct (send_message_rest_requests (session st) tools tools_lib
                (default_role _USER_ROLE c) h generation_config safety_settings stream
                tool_config st1 Htl) as (new & E & F & _).
    exists new. rewrite E, Hrq. split; [reflexivity|].
    eapply Forall_impl; [exact F|]. intros request (Hgc & _).
    unfold at_most_one_candidate. rewrite Hgc, (dict_get_update _ _ _ Hnd).
    revert Hcc. unfold candidate_count_exceeds_one.
    destruct (dict_get "candidate_count" (to_generation_config_dict generation_config))
      as [[]|]; try discriminate.
    + intros [= Hlt]. apply Z.ltb_ge in Hlt. exact Hlt.
    + intros _. exact Hm.
  - unfold send_message_rest. rewrite Hcc. apply Hnone. exact Hrq.
Qed.

Lemma chat_asks_one_candidate_witness :
  exists new,
    requests (snd (send_message (VStr "hi") (Some [("candidate_count", JNum 1)]) None false
                     None None example_state))
    = requests example_state ++ new
    /\ Forall (fun request => at_most_one_candidate (req_generation_config request)) new.
Proof.
  apply (chat_asks_one_candidate example_state VNone true
           (mkChatSession example_model [] None None true)).
  - reflexivity.
  - apply NoDup_singleton.
Defined.

(** ** The guard of the automatic function-calling loop *)

(** What it is for a function call to resolve to a callable. *)
Lemma all_callable_app (lib : FunctionLibrary) (pre rest : list FunctionCall) :
  Forall (fun fc => exists p f,
            lib_index lib !! fc_name fc = Some (CallableFunctionDeclaration p f)) pre ->
  all_callable lib (pre ++ rest) = all_callable lib rest.
Proof.
  induction 1 as [|fc pre (p & f & Hfc) _ IH]; [reflexivity|].
  cbn [app all_callable]. unfold FunctionLibrary_getitem. rewrite Hfc.
  cbn [mbind result_bind callable]. exact IH.
Qed.

Lemma all_callable_true (lib : FunctionLibrary) (fcs : list FunctionCall) :
  all_callable lib fcs = Ok true ->
  Forall (fun fc => exists p f,
            lib_index lib !! fc_name fc = Some (CallableFunctionDeclaration p f)) fcs.
Proof.
  induction fcs as [|fc fcs IH]; [constructor|].
  cbn [all_callable]. unfold FunctionLibrary_getitem.
  destruct (lib_index lib !! fc_name fc) as [[p|p f|p]|] eqn:Hfc;
    cbn [mbind result_bind callable]; try discriminate.
  intros H. constructor; [exists p, f; exact Hfc | apply IH; exact H].
Qed.

(** X27. The loop of automatic function calling checks every call before it
    runs any: when the response holds a function call whose declaration has
    no callable, the loop ends at once and hands the response back, with the
    working history split into what was there and the message sent; when
    the call names nothing in the library, [KeyError] comes out.  In both
    cases nothing has been invoked and no request issued, even if the calls
    before it in the response were all callable. *)
Theorem afc_guard (self_model : GenerativeModel) (response : Response)
    (h : list Content) (c : Content) (generation_config : list (string * Json))
    (safety_settings : option (list (string * string))) (stream : bool)
    (lib : FunctionLibrary) (st : State) (pre post : list FunctionCall)
    (fc : FunctionCall) :
  _get_function_calls response = Ok (pre ++ fc :: post) ->
  Forall (fun fc' => exists p f,
            lib_index lib !! fc_name fc' = Some (CallableFunctionDeclaration p f)) pre ->
  (forall d, lib_index lib !! fc_name fc = Some d -> callable d = false ->
             _handle_afc self_model response (h ++ [c]) generation_config safety_settings
               stream lib st
             = (Ok (h, c, response), st))
  /\ (lib_index lib !! fc_name fc = None ->
      _handle_afc self_model response (h ++ [c]) generation_config safety_settings
        stream lib st
      = (Err KeyError, st)).
Proof.
  intros Hfcs Hpre.
  assert (Hloop : _handle_afc self_model response (h ++ [c]) generation_config
                    safety_settings stream lib st
                  = match all_callable lib (fc :: post) with
                    | Ok false => (Ok (h, c, response), st)
                    | Ok true =>
                        _handle_afc self_model response (h ++ [c]) generation_config
                          safety_settings stream lib st
                    | Err e => (Err e, st)
                    end).
  { destruct (all_callable lib (fc :: post)) as [[|]|e] eqn:Hall; [reflexivity| |];
      unfold _handle_afc; unfold mbind at 1, M_bind at 1;
      rewrite afc_loop_unfold, Hfcs;
      destruct (pre ++ fc :: post) as [|fc0 fcs0] eqn:E;
      try (destruct pre; discriminate);
      rewrite <- E, (all_callable_app lib pre (fc :: post) Hpre), Hall.
    - unfold mbind, M_bind, lift. rewrite unpack_last_snoc. reflexivity.
    - reflexivity. }
  rewrite Hloop. cbn [all_callable]. unfold FunctionLibrary_getitem. split.
  - intros d -> Hd. cbn [mbind result_bind]. rewrite Hd. reflexivity.
  - intros ->. reflexivity.
Qed.

Lemma afc_guard_witness :
  _handle_afc example_model answer_two_calls ([] ++ [mkContent "user" [PText "hi"]]) []
    None false library_fg example_state
  = (Ok ([], mkContent "user" [PText "hi"], answer_two_calls), example_state).
Proof.
  apply (proj1 (afc_guard example_model answer_two_calls [] (mkContent "user" [PText "hi"])
                  [] None false library_fg example_state [call_f] []
                  (mkFunctionCall "g" []) eq_refl
                  ltac:(constructor; [exists f_ab_proto, f_ab; reflexivity | constructor]))
           g_declaration); reflexivity.
Defined.

(** X28. When every function call of a response resolves to a callable that
    returns, the loop invokes them one by one in the order of the response:
    the parts it sends back are the function responses in that order, each
    under the name of its call, and the invocations are logged in that
    order, each with the arguments of its call; nothing else changes. *)
Theorem invoke_all_in_order (lib : FunctionLibrary) (fcs : list FunctionCall)
    (resolved : list (PyFunction * Json)) (st : State) :
  Forall2 (fun fc fv =>
             (exists p, lib_index lib !! fc_name fc
                        = Some (CallableFunctionDeclaration p (fst fv)))
             /\ f_call (fst fv) (fc_args fc) = Ok (snd fv)) fcs resolved ->
  invoke_all lib fcs st
  = (Ok (zip_with (fun fc fv => function_response_part fc (snd fv)) fcs resolved),
     mkState (session st) (script st) (requests st)
       (invocations st
        ++ zip_with (fun fc fv => (f_name (fst fv), fc_args fc)) fcs resolved)).
Proof.
  intros H. revert st.
  induction H as [|fc [f v] fcs resolved [[p Hfc] Hcall] _ IH]; intros st.
  - cbn. rewrite app_nil_r. destruct st; reflexivity.
  - unfold invoke_all in *. cbn [mapM zip_with fst snd] in *.
    unfold mbind at 1, M_bind at 1. unfold mbind at 1, M_bind at 1.
    unfold FunctionLibrary_call, FunctionLibrary_getitem. rewrite Hfc.
    unfold mbind at 1, M_bind at 1, lift at 1.
    unfold mbind at 1, M_bind at 1, record_invocation at 1.
    unfold mbind at 1, M_bind at 1, lift at 1.
    unfold CallableFunctionDeclaration_call. rewrite Hcall.
    cbn [mbind result_bind]. unfold mret at 1 2, M_ret at 1 2.
    unfold mbind at 1, M_bind at 1. rewrite IH.
    cbn [session script requests invocations]. rewrite <- app_assoc. reflexivity.
Qed.

Lemma invoke_all_in_order_witness :
  invoke_all example_library [call_f; mkFunctionCall "f" [("a", JNum 5)]] example_state
  = (Ok [function_response_part call_f (JNum 2);
         function_response_part (mkFunctionCall "f" [("a", JNum 5)]) (JNum 6)],
     mkState (session example_state) (script example_state) (requests example_state)
       (invocations example_state ++ [("f", [("a", JNum 1)]); ("f", [("a", JNum 5)])])).
Proof.
  apply (invoke_all_in_order example_library
           [call_f; mkFunctionCall "f" [("a", JNum 5)]]
           [(f_ab, JNum 2); (f_ab, JNum 6)] example_state).
  repeat constructor; exists f_ab_proto; reflexivity.
Defined.

(** One step of the loop that invokes the calls. *)
Lemma invoke_all_cons (lib : FunctionLibrary) (fc : FunctionCall)
    (fcs : list FunctionCall) (p : FunctionDeclarationProto) (f : PyFunction)
    (st : State) :
  lib_index lib !! fc_name fc = Some (CallableFunctionDeclaration p f) ->
  invoke_all lib (fc :: fcs) st
  = let st1 := mkState (session st) (script st) (requests st)
                 (invocations st ++ [(f_name f, fc_args fc)]) in
    match f_call f (fc_args fc) with
    | Err e => (Err e, st1)
    | Ok v =>
        match invoke_all lib fcs st1 with
        | (Ok function_response_parts, st2) =>
            (Ok (function_response_part fc v :: function_response_parts), st2)
        | (Err e, st2) => (Err e, st2)
        end
    end.
Proof.
  intros Hfc. unfold invoke_all. cbn [mapM].
  unfold mbind at 1, M_bind at 1. unfold mbind at 1, M_bind at 1.
  unfold FunctionLibrary_call, FunctionLibrary_getitem. rewrite Hfc.
  unfold mbind at 1, M_bind at 1, lift at 1.
  unfold mbind at 1, M_bind at 1, record_invocation at 1.
  unfold mbind at 1, M_bind at 1, lift at 1.
  unfold CallableFunctionDeclaration_call.
  destruct (f_call f (fc_args fc)) as [v|e]; cbn [mbind result_bind]; [|reflexivity].
  unfold mret at 1 2, M_ret at 1 2. unfold mbind at 1, M_bind at 1. cbv zeta.
  match goal with |- context [mapM ?g fcs ?s] => destruct (mapM g fcs s) as [[ps|e] st2] end;
    reflexivity.
Qed.

(** X29. Behind the guard the assertion of the loop cannot fire: when all
    the calls resolve to callables, invoking them either gives one part per
    call or fails with the exception that one of those callables raised on
    the arguments of its call; requests and script are not touched. *)
Theorem invoke_all_behind_guard (lib : FunctionLibrary) (fcs : list FunctionCall)
    (st : State) :
  all_callable lib fcs = Ok true ->
  match fst (invoke_all lib fcs st) with
  | Ok function_response_parts => length function_response_parts = length fcs
  | Err e =>
      exists fc p f,
        fc ∈ fcs
        /\ lib_index lib !! fc_name fc = Some (CallableFunctionDeclaration p f)
        /\ f_call f (fc_args fc) = Err e
  end
  /\ requests (snd (invoke_all lib fcs st)) = requests st
  /\ script (snd (invoke_all lib fcs st)) = script st.
Proof.
  intros H. apply all_callable_true in H. revert st.
  induction H as [|fc fcs (p & f & Hfc) _ IH]; intros st.
  - cbn. auto.
  - rewrite (invoke_all_cons lib fc fcs p f st Hfc). cbv zeta.
    destruct (f_call f (fc_args fc)) as [v|e] eqn:Hcall.
    + specialize (IH (mkState (session st) (script st) (requests st)
                        (invocations st ++ [(f_name f, fc_args fc)]))).
      cbn [requests script] in IH.
      destruct (invoke_all lib fcs _) as [[ps|e] st2]; cbn [fst snd] in *.
      * destruct IH as (Hlen & Hrq & Hsc). cbn [length]. rewrite Hlen. auto.
      * destruct IH as ((fc' & p' & f' & Hin & Hl & Hc) & Hrq & Hsc).
        split; [|auto]. exists fc', p', f'. split; [right; exact Hin | auto].
    + cbn [fst snd requests script]. split; [|auto].
      exists fc, p, f. split; [left | auto].
Qed.

Lemma invoke_all_behind_guard_witness :
  match fst (invoke_all example_library [call_f] example_state) with
  | Ok function_response_parts => length function_response_parts = 1
  | Err e =>
      exists fc p f,
        fc ∈ [call_f]
        /\ lib_index example_library !! fc_name fc = Some (CallableFunctionDeclaration p f)
        /\ f_call f (fc_args fc) = Err e
  end.
Proof.
  exact (proj1 (invoke_all_behind_guard example_library [call_f] example_state eq_refl)).
Defined.

(** ** The name of the model *)

(** X30. A model is always addressed by a qualified name: the name
    [GenerativeModel.__init__] stores contains a slash (a bare name gets the
    prefix [models/], a name with a slash is kept as given), building a
    model again from the stored name keeps it, and every request the model
    prepares carries that name. *)
Theorem GenerativeModel_init_name (model_name : string)
    (safety_settings : option (list (string * string)))
    (generation_config : option (list (string * Json)))
    (tools : option FunctionLibraryType) (tool_config : option ToolConfigType)
    (system_instructions : option PyVal) (self : GenerativeModel) :
  GenerativeModel_init model_name safety_settings generation_config tools tool_config
    system_instructions = Ok self ->
  has_slash (_model_name self) = true
  /\ (has_slash model_name = true -> _model_name self = model_name)
  /\ (forall again,
        GenerativeModel_init (_model_name self) safety_settings generation_config tools
          tool_config system_instructions = Ok again ->
        again = self)
  /\ (forall contents generation_config' safety_settings' tools' tool_config' request,
        _prepare_request self contents generation_config' safety_settings' tools'
          tool_config' = Ok request ->
        req_model request = _model_name self /\ has_slash (req_model request) = true).
Proof.
  unfold GenerativeModel_init.
  destruct (to_function_library tools) as [lib|e]; [|discriminate].
  cbn [mbind result_bind].
  match goal with |- context [mbind _ ?m] => destruct m as [tc|e] end; [|discriminate].
  cbn [mbind result_bind].
  match goal with |- context [mbind _ ?m] => destruct m as [si|e] end; [|discriminate].
  cbn [mbind result_bind]. intros [= <-]. cbn [_model_name].
  assert (Hslash : has_slash (if has_slash model_name then model_name
                              else String.append "models/" model_name) = true).
  { destruct (has_slash model_name) eqn:Hs; [exact Hs | reflexivity]. }
  split; [exact Hslash|]. split; [intros ->; reflexivity|]. split.
  - intros again. rewrite Hslash. intros [= <-]. reflexivity.
  - intros contents gc' ss' tools' tc' request. unfold _prepare_request.
    destruct (negb (truthy contents)); [discriminate|].
    destruct (_get_tools_lib _ tools'); [|discriminate]. cbn [mbind result_bind].
    match goal with |- context [mbind _ ?m] => destruct m as [tc2|e] end; [|discriminate].
    cbn [mbind result_bind].
    destruct (to_contents contents); [|discriminate]. cbn [mbind result_bind].
    intros [= <-]. cbn [req_model _model_name]. split; [reflexivity | exact Hslash].
Qed.

Lemma GenerativeModel_init_name_witness :
  has_slash (_model_name (mkGenerativeModel "models/gemini-pro" [] [] None None None)) = true
  /\ forall again,
       GenerativeModel_init "models/gemini-pro" None None None None None = Ok again ->
       again = mkGenerativeModel "models/gemini-pro" [] [] None None None.
Proof.
  pose proof (GenerativeModel_init_name "gemini-pro" None None None None None
                (mkGenerativeModel "models/gemini-pro" [] [] None None None) eq_refl) as H.
  split; [exact (proj1 H) | exact (proj1 (proj2 (proj2 H)))].
Defined.
